(** * HomeAdvisor business directory API

    A shallow embedding of the Express/Knex route handlers of
    [backend/routes/businesses] (businesses.js, hours.js, locations.js,
    services.js, reviews.js) over the relational schema of the initial
    migration, and the properties of the search, aggregation, create and
    update paths.

    Conventions of the embedding.
    - A table is the list of its rows in insertion order; the store is the
      record of the five tables.
    - Strings are byte strings (UTF-8).  [toLowerCase] lowers the letters
      A-Z, which is JavaScript's [toLowerCase] on an ASCII string; SQL
      [LIKE] folds ASCII letters only, as SQLite does.
    - A request body is a record of typed properties.  The hours and
      reviews routes compare the values of the body and insert it as it
      came, so their handlers are also given on objects of raw JSON values
      and shown to agree with the typed ones on typed bodies.
    - Review ratings are exact rationals (the column receives JSON numbers
      such as 4.5), so [avg] and [round] are computed without floating
      point error.
    - [ORDER BY] is a stable sort of the rows that pass the [WHERE] clause.
    - [uuid.v4()] is a supply [uuid : nat -> string]; the k-th call of a
      handler returns [uuid k].
    - The clock ([CURRENT_TIMESTAMP], [db.fn.now()]) is an argument [now]. *)

From stdpp Require Import base option gmap strings.
From Stdlib Require Import ZArith QArith Qround Qabs Lqa.
From Stdlib Require Import Sorted Permutation Lia Bool Ascii String List.
Import ListNotations.

Local Open Scope string_scope.
Local Open Scope list_scope.
Local Open Scope Z_scope.

(* ------------------------------------------------------------------ *)
(** ** Schema (migration [up]) *)

Definition Timestamp := Z.

(** Table [businesses]: [id] primary key, [name] not null and unique, the
    address columns nullable. *)
Record Business := mkBusiness {
  b_id : string;
  b_name : string;
  b_addressLine1 : option string;
  b_addressLine2 : option string;
  b_city : option string;
  b_state : option string;
  b_postal : option string;
  b_created_at : Timestamp;
  b_updated_at : Timestamp
}.

(** Table [locations]: unique on (businessId, name). *)
Record Location := mkLocation {
  l_id : string;
  l_businessId : string;
  l_name : string;
  l_created_at : Timestamp;
  l_updated_at : Timestamp
}.

(** Table [hours]: unique on (businessId, dayOfWeek); [open] and [close] are
    plain not-null integers, the schema puts no constraint between them. *)
Record Hour := mkHour {
  h_id : string;
  h_businessId : string;
  h_dayOfWeek : Z;
  h_open : Z;
  h_close : Z;
  h_created_at : Timestamp;
  h_updated_at : Timestamp
}.

(** Table [services]: unique on (businessId, name). *)
Record Service := mkService {
  s_id : string;
  s_businessId : string;
  s_name : string;
  s_created_at : Timestamp;
  s_updated_at : Timestamp
}.

(** Table [reviews]: [rating] not null, [comment] nullable, no uniqueness
    beyond the primary key. *)
Record Review := mkReview {
  r_id : string;
  r_businessId : string;
  r_rating : Q;
  r_comment : option string;
  r_created_at : Timestamp;
  r_updated_at : Timestamp
}.

Record Store := mkStore {
  businesses : list Business;
  locations : list Location;
  hours : list Hour;
  services : list Service;
  reviews : list Review
}.

Definition empty_store : Store := mkStore [] [] [] [] [].

(* ------------------------------------------------------------------ *)
(** ** HTTP responses *)

Inductive Response (A : Type) : Type :=
| Ok200 (body : A)
| BadRequest400 (msg : string)
| NotFound404 (msg : string)
| Error500.
Arguments Ok200 {A} body.
Arguments BadRequest400 {A} msg.
Arguments NotFound404 {A} msg.
Arguments Error500 {A}.

Definition status {A} (r : Response A) : Z :=
  match r with
  | Ok200 _ => 200
  | BadRequest400 _ => 400
  | NotFound404 _ => 404
  | Error500 => 500
  end.

(* ------------------------------------------------------------------ *)
(** ** Strings: JavaScript truthiness, [toLowerCase], SQL [LIKE] *)

(** [!!v] for a property that is either undefined or a string: undefined
    and the empty string are falsy. *)
Definition truthy (v : option string) : bool :=
  match v with
  | Some s => negb (String.eqb s "")
  | None => false
  end.

Definition lower_ascii (c : ascii) : ascii :=
  let n := N_of_ascii c in
  if ((65 <=? n) && (n <=? 90))%N then ascii_of_N (n + 32) else c.

(** [String.prototype.toLowerCase] on an ASCII string: the letters A-Z are
    lowered and every other byte is left as it is.  (JavaScript also lowers
    letters beyond ASCII; the properties that depend on it are stated for
    ASCII texts.) *)
Fixpoint toLowerCase (s : string) : string :=
  match s with
  | EmptyString => EmptyString
  | String c s' => String (lower_ascii c) (toLowerCase s')
  end.

(** SQLite's [LIKE]: [%] matches any run of characters, [_] exactly one,
    any other character matches itself up to ASCII case. *)
Fixpoint like (pattern text : string) : bool :=
  match pattern with
  | EmptyString =>
      match text with EmptyString => true | _ => false end
  | String p pattern' =>
      if Ascii.eqb p "%" then
        (fix star (t : string) : bool :=
           like pattern' t ||
           match t with
           | EmptyString => false
           | String _ t' => star t'
           end) text
      else
        match text with
        | EmptyString => false
        | String c text' =>
            (Ascii.eqb p "_" || Ascii.eqb (lower_ascii p) (lower_ascii c))
            && like pattern' text'
        end
  end.

(** [column like '%<needle>%'] on a nullable column: NULL never matches. *)
Definition column_like (column : option string) (needle : string) : bool :=
  match column with
  | Some text => like ("%" ++ toLowerCase needle ++ "%") text
  | None => false
  end.

(* ------------------------------------------------------------------ *)
(** ** SQL building blocks *)

(** [ORDER BY]: a stable insertion sort for the order [le]; rows with equal
    keys keep their table order. *)
Section OrderBy.
Context {A : Type}.
Variable le : A -> A -> bool.

Fixpoint insert_row (x : A) (rows : list A) : list A :=
  match rows with
  | [] => [x]
  | y :: rows' => if le x y then x :: rows else y :: insert_row x rows'
  end.

Fixpoint orderBy (rows : list A) : list A :=
  match rows with
  | [] => []
  | x :: rows' => insert_row x (orderBy rows')
  end.
End OrderBy.

(** [asc] keeps the column order, [desc] reverses it. *)
Definition direction {A} (le : A -> A -> bool) (sortDirection : string)
  : A -> A -> bool :=
  if String.eqb sortDirection "desc" then fun x y => le y x else le.

(** Column order on a nullable numeric column: NULL sorts before every
    number. *)
Definition null_first_le (x y : option Q) : bool :=
  match x, y with
  | None, _ => true
  | Some _, None => false
  | Some a, Some b => Qle_bool a b
  end.

(** [avg(rating)]: NULL over no rows. *)
Definition sql_avg (ratings : list Q) : option Q :=
  match ratings with
  | [] => None
  | _ => Some (fold_right Qplus 0%Q ratings / inject_Z (Z.of_nat (length ratings)))%Q
  end.

(** Nearest integer, halves away from zero. *)
Definition round_half_away (x : Q) : Z :=
  if Qle_bool 0 x then Qfloor (x + (1 # 2)) else - Qfloor (- x + (1 # 2)).

(** [round(x, 1)]. *)
Definition sql_round1 (x : Q) : Q := round_half_away (x * 10) # 10.

(** [items && items.length ? items : undefined]. *)
Definition present_if_nonempty {A} (items : list A) : option (list A) :=
  match items with
  | [] => None
  | _ => Some items
  end.

(** [count('* as c').where({id})] on [businesses]. *)
Definition businessCount (db : Store) (id : string) : nat :=
  length (filter (fun b => String.eqb (b_id b) id) (businesses db)).

(* ------------------------------------------------------------------ *)
(** ** businesses.js: the aggregate fetchers *)

Definition getLocations (db : Store) (businessId : string) : option (list Location) :=
  present_if_nonempty
    (orderBy (fun a b => String.leb (l_name a) (l_name b))
       (filter (fun l => String.eqb (l_businessId l) businessId) (locations db))).

Definition getHours (db : Store) (businessId : string) : option (list Hour) :=
  present_if_nonempty
    (orderBy (fun a b => h_dayOfWeek a <=? h_dayOfWeek b)
       (filter (fun h => String.eqb (h_businessId h) businessId) (hours db))).

Definition getServices (db : Store) (businessId : string) : option (list Service) :=
  present_if_nonempty
    (orderBy (fun a b => String.leb (s_name a) (s_name b))
       (filter (fun s => String.eqb (s_businessId s) businessId) (services db))).

Definition getReviews (db : Store) (businessId : string) : option (list Review) :=
  present_if_nonempty
    (orderBy (fun a b => r_created_at a <=? r_created_at b)
       (filter (fun r => String.eqb (r_businessId r) businessId) (reviews db))).

(** The correlated subquery
    [select round(avg(rating),1) from reviews where reviews.businessId = businesses.id]. *)
Definition avgRating_subquery (db : Store) (businessId : string) : option Q :=
  option_map sql_round1
    (sql_avg (map r_rating
       (filter (fun r => String.eqb (r_businessId r) businessId) (reviews db)))).

(** A row of [select *, (...) as avgRating from businesses]. *)
Record BusinessRow := mkRow {
  row : Business;
  row_avgRating : option Q
}.

Definition select_businesses (db : Store) : list BusinessRow :=
  map (fun b => mkRow b (avgRating_subquery db (b_id b))) (businesses db).

(** The object sent back for a business: the row, its [avgRating] column and
    the four collections attached by the [results.map] callback.  [None]
    stands for a property without a value. *)
Record BusinessView := mkView {
  v_business : Business;
  avgRating : option Q;
  v_locations : option (list Location);
  v_hours : option (list Hour);
  v_services : option (list Service);
  v_reviews : option (list Review)
}.

Definition hydrate (db : Store) (b : BusinessRow) : BusinessView :=
  let id := b_id (row b) in
  mkView (row b) (row_avgRating b)
    (getLocations db id) (getHours db id) (getServices db id) (getReviews db id).

(** [router.get('/:businessId')]. *)
Definition get_business (id : string) (db : Store) : Response BusinessView :=
  let businesses :=
    map (hydrate db)
      (filter (fun b => String.eqb (b_id (row b)) id) (select_businesses db)) in
  match businesses with
  | b :: _ => Ok200 b
  | [] => NotFound404 "The specified business does not exist"
  end.

(* ------------------------------------------------------------------ *)
(** ** businesses.js: search *)

Definition MAX_BUSINESS_PER_PAGE : nat := 25.

(** The [Search] schema; every property is optional. *)
Record Search := mkSearch {
  q_name : option string;
  q_addressLine1 : option string;
  q_addressLine2 : option string;
  q_city : option string;
  q_state : option string;
  q_postal : option string;
  q_dayOfWeek : option Z;
  q_hour : option Z;
  q_service : option string;
  q_location : option string;
  q_rating : option Q;
  q_sortBy : option string;
  q_sortDirection : option string
}.

Definition defined {A} (v : option A) : bool :=
  match v with Some _ => true | None => false end.

(** [v < n] and [v > n] in JavaScript when [v] may be undefined: every
    comparison with undefined is false. *)
Definition js_lt (v : option Z) (n : Z) : bool :=
  match v with Some x => x <? n | None => false end.
Definition js_gt (v : option Z) (n : Z) : bool :=
  match v with Some x => x >? n | None => false end.

(** [if (search.f) builder.where(column, 'like', `%${search.f.toLowerCase()}%`)]. *)
Definition text_filter (field : option string) (column : option string) : bool :=
  match field with
  | Some needle => if truthy field then column_like column needle else true
  | None => true
  end.

Definition text_filters (search : Search) (b : Business) : bool :=
  text_filter (q_name search) (Some (b_name b))
  && text_filter (q_addressLine1 search) (b_addressLine1 b)
  && text_filter (q_addressLine2 search) (b_addressLine2 b)
  && text_filter (q_city search) (b_city b)
  && text_filter (q_state search) (b_state b)
  && text_filter (q_postal search) (b_postal b).

(** The [whereExists] on [hours]. *)
Definition hours_filter (search : Search) (db : Store) (b : Business) : bool :=
  match q_dayOfWeek search, q_hour search with
  | Some dayOfWeek, Some hour =>
      existsb (fun h =>
                 (h_dayOfWeek h =? dayOfWeek)
                 && (h_open h <=? hour)
                 && (h_close h >=? hour)
                 && String.eqb (h_businessId h) (b_id b))
        (hours db)
  | _, _ => true
  end.

Definition service_filter (search : Search) (db : Store) (b : Business) : bool :=
  match q_service search with
  | Some needle =>
      if truthy (q_service search) then
        existsb (fun s => column_like (Some (s_name s)) needle
                          && String.eqb (s_businessId s) (b_id b))
          (services db)
      else true
  | None => true
  end.

Definition location_filter (search : Search) (db : Store) (b : Business) : bool :=
  match q_location search with
  | Some needle =>
      if truthy (q_location search) then
        existsb (fun l => column_like (Some (l_name l)) needle
                          && String.eqb (l_businessId l) (b_id b))
          (locations db)
      else true
  | None => true
  end.

(** [builder.where(db.ref('avgRating'), '>=', search.rating)]: a comparison
    with NULL is not true. *)
Definition rating_filter (search : Search) (b : BusinessRow) : bool :=
  match q_rating search with
  | Some rating =>
      match row_avgRating b with
      | Some avg => Qle_bool rating avg
      | None => false
      end
  | None => true
  end.

(** The callback given to [.where(...)]: all clauses are ANDed. *)
Definition where_clause (search : Search) (db : Store) (b : BusinessRow) : bool :=
  text_filters search (row b)
  && hours_filter search db (row b)
  && service_filter search db (row b)
  && location_filter search db (row b)
  && rating_filter search b.

(** [.orderBy(sortBy === 'rating' ? 'avgRating' : sortBy, sortDirection)]. *)
Definition search_order (sortBy sortDirection : string)
  : BusinessRow -> BusinessRow -> bool :=
  direction
    (if String.eqb sortBy "rating"
     then fun x y => null_first_le (row_avgRating x) (row_avgRating y)
     else fun x y => String.leb (b_name (row x)) (b_name (row y)))
    sortDirection.

(** The rows of the search query: filter, sort, then cut at the page size. *)
Definition search_query (search : Search) (sortBy sortDirection : string)
    (db : Store) : list BusinessRow :=
  firstn MAX_BUSINESS_PER_PAGE
    (orderBy (search_order sortBy sortDirection)
       (filter (where_clause search db) (select_businesses db))).

Definition or_default (v : option string) (d : string) : string :=
  match v with Some s => s | None => d end.

(** The outcome of a search: the response and the number of queries sent to
    the store (one for the businesses, four per business to hydrate it). *)
Record SearchOutcome := mkOutcome {
  response : Response (list BusinessView);
  queries : nat
}.

(** [router.post('/search')]. *)
Definition post_search (search : Search) (db : Store) : SearchOutcome :=
  if (defined (q_dayOfWeek search) && negb (defined (q_hour search)))
     || (negb (defined (q_dayOfWeek search)) && defined (q_hour search))
  then mkOutcome (BadRequest400 "Both the dayOfWeek and hour search parameters must be specified whenever either of them is specified") 0
  else if js_lt (q_dayOfWeek search) 0 || js_gt (q_dayOfWeek search) 6
  then mkOutcome (BadRequest400 "The dayOfWeek is invalid; 0 <= dayOfWeek <= 6 is expected") 0
  else if js_lt (q_hour search) 0 || js_gt (q_hour search) 23
  then mkOutcome (BadRequest400 "The hour is invalid; 0 <= hour <= 23 is expected") 0
  else
    let sortBy :=
      if truthy (q_sortBy search)
      then toLowerCase (or_default (q_sortBy search) "")
      else "name" in
    if truthy (q_sortBy search)
       && negb (String.eqb sortBy "name") && negb (String.eqb sortBy "rating")
    then mkOutcome (BadRequest400 "Invalid sortBy field: only 'name' and 'rating' are supported at this time") 0
    else
      let sortDirection :=
        if truthy (q_sortDirection search)
        then toLowerCase (or_default (q_sortDirection search) "")
        else "asc" in
      if truthy (q_sortDirection search)
         && negb (String.eqb sortDirection "asc")
         && negb (String.eqb sortDirection "desc")
      then mkOutcome (BadRequest400 "Invalid sortDirection field: only 'asc' and 'desc' are supported at this time") 0
      else
        let results := search_query search sortBy sortDirection db in
        let businesses := map (hydrate db) results in
        mkOutcome
          (match businesses with
           | [] => NotFound404 "no Businesses matching the specified criteria could be found"
           | _ => Ok200 businesses
           end)
          (1 + 4 * length results).

(** A search body without any property. *)
Definition no_filters : Search :=
  mkSearch None None None None None None None None None None None None None.

(** The businesses a search sends back (none unless it answers 200). *)
Definition returned (o : SearchOutcome) : list BusinessView :=
  match response o with
  | Ok200 body => body
  | _ => []
  end.

(** The values the handler leaves in [search.sortBy] and
    [search.sortDirection]. *)
Definition sortBy_of (search : Search) : string :=
  if truthy (q_sortBy search)
  then toLowerCase (or_default (q_sortBy search) "")
  else "name".

Definition sortDirection_of (search : Search) : string :=
  if truthy (q_sortDirection search)
  then toLowerCase (or_default (q_sortDirection search) "")
  else "asc".

(** The body with some properties replaced. *)
Definition with_hours (dayOfWeek hour : option Z) (search : Search) : Search :=
  mkSearch (q_name search) (q_addressLine1 search) (q_addressLine2 search)
    (q_city search) (q_state search) (q_postal search) dayOfWeek hour
    (q_service search) (q_location search) (q_rating search)
    (q_sortBy search) (q_sortDirection search).

Definition with_rating (rating : option Q) (search : Search) : Search :=
  mkSearch (q_name search) (q_addressLine1 search) (q_addressLine2 search)
    (q_city search) (q_state search) (q_postal search) (q_dayOfWeek search)
    (q_hour search) (q_service search) (q_location search) rating
    (q_sortBy search) (q_sortDirection search).

Definition with_sort (sortBy sortDirection : option string) (search : Search)
  : Search :=
  mkSearch (q_name search) (q_addressLine1 search) (q_addressLine2 search)
    (q_city search) (q_state search) (q_postal search) (q_dayOfWeek search)
    (q_hour search) (q_service search) (q_location search) (q_rating search)
    sortBy sortDirection.

(* ------------------------------------------------------------------ *)
(** ** The seed data ([seeds], three sample businesses) *)

Module Seed.

Definition business (id name addressLine1 addressLine2 city state postal : string)
  : Business :=
  mkBusiness id name (Some addressLine1) (Some addressLine2) (Some city)
    (Some state) (Some postal) 0 0.

Definition service (id businessId name : string) := mkService id businessId name 0 0.
Definition location (id businessId name : string) := mkLocation id businessId name 0 0.
Definition hour (id businessId : string) (dayOfWeek open close : Z) :=
  mkHour id businessId dayOfWeek open close 0 0.
Definition review (id businessId : string) (rating : Q) (comment : option string) :=
  mkReview id businessId rating comment 0 0.

Definition store : Store := mkStore
  [ business "b1" "Sample Business #1" "1234 Fake St" "Suite 500" "Denver" "CO" "80210";
    business "b2" "Sample Business #2" "1234 Foobar St" "Suite 500" "Denver" "CO" "80201";
    business "b3" "Sample Business #3" "23456 5th Ave" "Suite A" "Henderson" "CO" "80640" ]
  [ location "l11" "b1" "Denver"; location "l12" "b1" "Lakewood";
    location "l13" "b1" "Thorton"; location "l14" "b1" "Golden";
    location "l15" "b1" "Arvada"; location "l16" "b1" "Centennial";
    location "l17" "b1" "Parker";
    location "l21" "b2" "Denver"; location "l22" "b2" "Thorton";
    location "l23" "b2" "Golden"; location "l24" "b2" "Arvada";
    location "l25" "b2" "Centennial"; location "l26" "b2" "Parker";
    location "l31" "b3" "Denver"; location "l32" "b3" "Commerce City";
    location "l33" "b3" "Thorton"; location "l34" "b3" "Henderson";
    location "l35" "b3" "Northglenn" ]
  [ hour "h11" "b1" 1 9 17; hour "h12" "b1" 2 9 17; hour "h13" "b1" 3 9 17;
    hour "h14" "b1" 4 9 17; hour "h15" "b1" 5 9 17;
    hour "h21" "b2" 1 10 19; hour "h22" "b2" 2 9 19; hour "h23" "b2" 3 10 19;
    hour "h24" "b2" 4 9 19; hour "h25" "b2" 5 10 19; hour "h26" "b2" 6 9 12;
    hour "h31" "b3" 1 8 18; hour "h32" "b3" 2 8 18; hour "h33" "b3" 3 8 18;
    hour "h34" "b3" 4 8 18; hour "h35" "b3" 5 8 18; hour "h36" "b3" 6 8 18 ]
  [ service "s11" "b1" "Maid Services"; service "s12" "b1" "House Cleaning";
    service "s13" "b1" "Moving Services";
    service "s21" "b2" "Maid Services"; service "s22" "b2" "House Cleaning";
    service "s23" "b2" "Moving Services"; service "s24" "b2" "Packing";
    service "s31" "b3" "Packing"; service "s32" "b3" "Moving Services" ]
  [ review "r11" "b1" (45 # 10) (Some "Use them weekly to clean our home. Do a great job every time");
    review "r12" "b1" 4 (Some "Helped us move homes, very timely");
    review "r13" "b1" 4 (Some "On time, did a good job");
    review "r21" "b2" 4 (Some "Move out cleaning");
    review "r22" "b2" 2 (Some "Broke our dishes because they didn't pack right");
    review "r23" "b2" 5 None;
    review "r31" "b3" 5 (Some "Helped us move across the country, they're great") ].

(** The names of the businesses in a response, in order. *)
Definition names (o : SearchOutcome) : option (list string) :=
  match response o with
  | Ok200 body => Some (map (fun v => b_name (v_business v)) body)
  | _ => None
  end.

Definition ratings (o : SearchOutcome) : option (list (option Q)) :=
  match response o with
  | Ok200 body => Some (map avgRating body)
  | _ => None
  end.

End Seed.

(* ------------------------------------------------------------------ *)
(** ** Request bodies of the child schemas

    The properties a client sets on a Location, Hour, Service or Review; the
    timestamps are left to the store.  These records are the bodies whose
    properties have the type the schema declares (an integer for
    [dayOfWeek], [open] and [close], a number for [rating]) and that carry
    no [created_at] or [updated_at].  The handlers of the hours and reviews
    routes on a body of any JSON values are in the section on parsed JSON
    below, with the proof that they agree with the typed handlers on these
    records. *)

(** A JSON property that may be missing, null, or hold a value. *)
Inductive Nullable (A : Type) : Type :=
| Undefined
| Null
| Value (a : A).
Arguments Undefined {A}.
Arguments Null {A}.
Arguments Value {A} a.

Definition to_column {A} (v : Nullable A) : option A :=
  match v with Value a => Some a | _ => None end.

Record LocationItem := mkLocationItem {
  li_id : option string;
  li_businessId : option string;
  li_name : option string
}.

Record HourItem := mkHourItem {
  hi_id : option string;
  hi_businessId : option string;
  hi_dayOfWeek : option Z;
  hi_open : option Z;
  hi_close : option Z
}.

Record ServiceItem := mkServiceItem {
  si_id : option string;
  si_businessId : option string;
  si_name : option string
}.

Record ReviewItem := mkReviewItem {
  ri_id : option string;
  ri_businessId : option string;
  ri_rating : option Q;
  ri_comment : Nullable string
}.

(** [item.id = ...; item.businessId = ...] works on any object. *)
Class HasIds (A : Type) := assign_ids : string -> string -> A -> A.

#[global] Instance LocationItem_ids : HasIds LocationItem :=
  fun id businessId i =>
    mkLocationItem (Some id) (Some businessId) (li_name i).

#[global] Instance HourItem_ids : HasIds HourItem :=
  fun id businessId i =>
    mkHourItem (Some id) (Some businessId) (hi_dayOfWeek i) (hi_open i)
      (hi_close i).

#[global] Instance ServiceItem_ids : HasIds ServiceItem :=
  fun id businessId i =>
    mkServiceItem (Some id) (Some businessId) (si_name i).

#[global] Instance ReviewItem_ids : HasIds ReviewItem :=
  fun id businessId i =>
    mkReviewItem (Some id) (Some businessId) (ri_rating i) (ri_comment i).

(* ------------------------------------------------------------------ *)
(** ** Inserts, updates and deletes under the schema's constraints *)

(** Rows out of the inserted objects; [None] when a not-null column has no
    value.  The timestamp columns take their default, the current time. *)
Definition location_row (now : Timestamp) (i : LocationItem) : option Location :=
  id ← li_id i; businessId ← li_businessId i; name ← li_name i;
  Some (mkLocation id businessId name now now).

Definition hour_row (now : Timestamp) (i : HourItem) : option Hour :=
  id ← hi_id i; businessId ← hi_businessId i;
  dayOfWeek ← hi_dayOfWeek i; open ← hi_open i; close ← hi_close i;
  Some (mkHour id businessId dayOfWeek open close now now).

Definition service_row (now : Timestamp) (i : ServiceItem) : option Service :=
  id ← si_id i; businessId ← si_businessId i; name ← si_name i;
  Some (mkService id businessId name now now).

Definition review_row (now : Timestamp) (i : ReviewItem) : option Review :=
  id ← ri_id i; businessId ← ri_businessId i; rating ← ri_rating i;
  Some (mkReview id businessId rating (to_column (ri_comment i)) now now).

(** Two rows that cannot both be in the table: same primary key, or same
    unique key. *)
Definition business_conflict (a b : Business) : bool :=
  String.eqb (b_id a) (b_id b) || String.eqb (b_name a) (b_name b).

Definition location_conflict (a b : Location) : bool :=
  String.eqb (l_id a) (l_id b)
  || (String.eqb (l_businessId a) (l_businessId b) && String.eqb (l_name a) (l_name b)).

Definition hour_conflict (a b : Hour) : bool :=
  String.eqb (h_id a) (h_id b)
  || (String.eqb (h_businessId a) (h_businessId b) && (h_dayOfWeek a =? h_dayOfWeek b)).

Definition service_conflict (a b : Service) : bool :=
  String.eqb (s_id a) (s_id b)
  || (String.eqb (s_businessId a) (s_businessId b) && String.eqb (s_name a) (s_name b)).

Definition review_conflict (a b : Review) : bool :=
  String.eqb (r_id a) (r_id b).

Section Statements.
Context {A : Type}.
Variable conflict : A -> A -> bool.

(** [insert] of a batch of rows, one after the other; the statement fails
    at the first row that conflicts with a row already in the table. *)
Fixpoint insert_rows (rows : list A) (table : list A) : option (list A) :=
  match rows with
  | [] => Some table
  | r :: rows' =>
      if existsb (conflict r) table then None
      else insert_rows rows' (table ++ [r])
  end.

(** [update(...).where(...)]: every matching row is rewritten; the
    statement fails when a rewritten row then shares a key with another
    row of the table. *)
Definition update_rows (matching : A -> bool) (set : A -> A) (table : list A)
  : option (list A) :=
  let table' := map (fun r => if matching r then set r else r) table in
  if existsb
       (fun r => matching r
                 && (1 <? length (filter (conflict (set r)) table'))%nat)
       table
  then None
  else Some table'.

(** [del().where(...)]. *)
Definition delete_rows (matching : A -> bool) (table : list A) : list A :=
  filter (fun r => negb (matching r)) table.
End Statements.

(** [insert(items)] of objects: not-null columns first, then the keys. *)
Definition insert_items {I A} (to_row : I -> option A) (conflict : A -> A -> bool)
    (items : list I) (table : list A) : option (list A) :=
  rows ← mapM to_row items;
  insert_rows conflict rows table.

(* ------------------------------------------------------------------ *)
(** ** businesses.js: create *)

(** The body of [POST /businesses].  Its [id], [avgRating], [created_at] and
    [updated_at] properties are overwritten or deleted before the insert and
    are left out here. *)
Record BusinessBody := mkBody {
  p_name : option string;
  p_addressLine1 : option string;
  p_addressLine2 : option string;
  p_city : option string;
  p_state : option string;
  p_postal : option string;
  p_locations : option (list LocationItem);
  p_hours : option (list HourItem);
  p_services : option (list ServiceItem);
  p_reviews : option (list ReviewItem)
}.

(** [addIds]; [next] is the number of ids drawn so far. *)
Definition addIds {A} `{HasIds A} (uuid : nat -> string) (next : nat)
    (items : option (list A)) (businessId : string) : option (list A) :=
  match items with
  | Some ((_ :: _) as l) =>
      Some (imap (fun i item => assign_ids (uuid (next + i)%nat) businessId item) l)
  | _ => items
  end.

Definition drawn {A} (items : option (list A)) : nat :=
  match items with Some l => length l | None => 0%nat end.

(** [if (list && list.length) await db(table).insert(list).transacting(trx)]. *)
Definition insert_if_any {I A} (to_row : I -> option A) (conflict : A -> A -> bool)
    (items : option (list I)) (table : list A) : option (list A) :=
  match items with
  | Some ((_ :: _) as l) => insert_items to_row conflict l table
  | _ => Some table
  end.

(** [router.post('/')].  The body of [db.transaction] runs on the store and
    either commits its result or, when a statement fails, leaves the store
    as it was and the handler answers 500. *)
Definition post_business (uuid : nat -> string) (now : Timestamp)
    (body : BusinessBody) (db : Store) : Response string * Store :=
  let id := uuid 0%nat in
  let locations_ := addIds uuid 1 (p_locations body) id in
  let n1 := (1 + drawn (p_locations body))%nat in
  let hours_ := addIds uuid n1 (p_hours body) id in
  let n2 := (n1 + drawn (p_hours body))%nat in
  let services_ := addIds uuid n2 (p_services body) id in
  let n3 := (n2 + drawn (p_services body))%nat in
  let reviews_ := addIds uuid n3 (p_reviews body) id in
  if negb (truthy (p_name body))
  then (BadRequest400 "Business name must be specified", db)
  else
    let business :=
      mkBusiness id (or_default (p_name body) "") (p_addressLine1 body)
        (p_addressLine2 body) (p_city body) (p_state body) (p_postal body)
        now now in
    let transaction :=
      bs ← insert_rows business_conflict [business] (businesses db);
      ls ← insert_if_any (location_row now) location_conflict locations_ (locations db);
      hs ← insert_if_any (hour_row now) hour_conflict hours_ (hours db);
      ss ← insert_if_any (service_row now) service_conflict services_ (services db);
      rs ← insert_if_any (review_row now) review_conflict reviews_ (reviews db);
      Some (mkStore bs ls hs ss rs) in
    match transaction with
    | Some db' => (Ok200 id, db')
    | None => (Error500, db)
    end.

(* ------------------------------------------------------------------ *)
(** ** businesses.js: update *)

(** [value ? value : undefined] merged into a column: an undefined property
    leaves the column alone. *)
Definition set_if_truthy (v : option string) (column : string) : string :=
  if truthy v then or_default v column else column.
Definition set_nullable_if_truthy (v : option string) (column : option string)
  : option string :=
  if truthy v then v else column.

(** [router.put('/:businessId')].  The body is the object spread from
    [req.body]: a map from property names to (string) values.  The guard
    reads the property [addressline2]; the update reads [addressLine2]. *)
Definition put_business (now : Timestamp) (id : string)
    (body : gmap string string) (db : Store) : Response unit * Store :=
  let business := body in
  if negb (truthy (business !! "name"))
     && negb (truthy (business !! "addressLine1"))
     && negb (truthy (business !! "addressline2"))
     && negb (truthy (business !! "city"))
     && negb (truthy (business !! "state"))
     && negb (truthy (business !! "postal"))
  then (BadRequest400 "At least one of Business name and/or address attributes must be specified", db)
  else if (businessCount db id <? 1)%nat
  then (NotFound404 "The specified business does not exist", db)
  else
    let updatedBusiness (b : Business) :=
      mkBusiness (b_id b)
        (set_if_truthy (business !! "name") (b_name b))
        (set_nullable_if_truthy (business !! "addressLine1") (b_addressLine1 b))
        (set_nullable_if_truthy (business !! "addressLine2") (b_addressLine2 b))
        (set_nullable_if_truthy (business !! "city") (b_city b))
        (set_nullable_if_truthy (business !! "state") (b_state b))
        (set_nullable_if_truthy (business !! "postal") (b_postal b))
        (b_created_at b) now in
    match update_rows business_conflict
            (fun b => String.eqb (b_id b) id) updatedBusiness (businesses db) with
    | Some businesses' =>
        (Ok200 tt,
         mkStore businesses' (locations db) (hours db) (services db) (reviews db))
    | None => (Error500, db)
    end.

(* ------------------------------------------------------------------ *)
(** ** The child routes: update and delete *)

(** [v === undefined || v < lo || v > hi]. *)
Definition missing_or_outside (v : option Z) (lo hi : Z) : bool :=
  match v with
  | Some x => (x <? lo) || (x >? hi)
  | None => true
  end.

Definition number (v : option Z) : Z :=
  match v with Some x => x | None => 0 end.

Definition parent_missing : string := "The specified business does not exist".

(** hours/hours.js *)
Module Hours.

Definition put (businessId id : string) (hour : HourItem) (db : Store)
  : Response unit * Store :=
  if missing_or_outside (hi_dayOfWeek hour) 0 6
  then (BadRequest400 "Hour dayOfWeek must be specified: 0 <= dayOfWeek <= 6", db)
  else if missing_or_outside (hi_open hour) 0 23
  then (BadRequest400 "Hour open must be specified: 0 <= open <= 23", db)
  else if missing_or_outside (hi_close hour) 0 23
  then (BadRequest400 "Hour close must be specified: 0 <= close <= 23", db)
  else if number (hi_open hour) >=? number (hi_close hour)
  then (BadRequest400 "Hour open must be < close", db)
  else if (businessCount db businessId <? 1)%nat
  then (NotFound404 parent_missing, db)
  else
    match update_rows hour_conflict
            (fun h => String.eqb (h_id h) id && String.eqb (h_businessId h) businessId)
            (fun h => mkHour (h_id h) (h_businessId h)
                        (number (hi_dayOfWeek hour)) (number (hi_open hour))
                        (number (hi_close hour)) (h_created_at h) (h_updated_at h))
            (hours db) with
    | Some hours' =>
        (Ok200 tt,
         mkStore (businesses db) (locations db) hours' (services db) (reviews db))
    | None => (Error500, db)
    end.

Definition del (businessId id : string) (db : Store) : Response unit * Store :=
  if (businessCount db businessId <? 1)%nat
  then (NotFound404 parent_missing, db)
  else
    (Ok200 tt,
     mkStore (businesses db) (locations db)
       (delete_rows
          (fun h => String.eqb (h_id h) id && String.eqb (h_businessId h) businessId)
          (hours db))
       (services db) (reviews db)).

End Hours.

(** locations/locations.js *)
Module Locations.

Definition put (now : Timestamp) (businessId id : string)
    (location : LocationItem) (db : Store) : Response unit * Store :=
  if negb (truthy (li_name location))
  then (BadRequest400 "Location name must be specified", db)
  else if (businessCount db businessId <? 1)%nat
  then (NotFound404 parent_missing, db)
  else
    match update_rows location_conflict
            (fun l => String.eqb (l_id l) id && String.eqb (l_businessId l) businessId)
            (fun l => mkLocation (l_id l) (l_businessId l)
                        (or_default (li_name location) "") (l_created_at l) now)
            (locations db) with
    | Some locations' =>
        (Ok200 tt,
         mkStore (businesses db) locations' (hours db) (services db) (reviews db))
    | None => (Error500, db)
    end.

Definition del (businessId id : string) (db : Store) : Response unit * Store :=
  if (businessCount db businessId <? 1)%nat
  then (NotFound404 parent_missing, db)
  else
    (Ok200 tt,
     mkStore (businesses db)
       (delete_rows
          (fun l => String.eqb (l_id l) id && String.eqb (l_businessId l) businessId)
          (locations db))
       (hours db) (services db) (reviews db)).

End Locations.

(** services/services.js *)
Module Services.

Definition put (businessId id : string) (service : ServiceItem) (db : Store)
  : Response unit * Store :=
  if negb (truthy (si_name service))
  then (BadRequest400 "Service name must be specified", db)
  else if (businessCount db businessId <? 1)%nat
  then (NotFound404 parent_missing, db)
  else
    match update_rows service_conflict
            (fun s => String.eqb (s_id s) id && String.eqb (s_businessId s) businessId)
            (fun s => mkService (s_id s) (s_businessId s)
                        (or_default (si_name service) "")
                        (s_created_at s) (s_updated_at s))
            (services db) with
    | Some services' =>
        (Ok200 tt,
         mkStore (businesses db) (locations db) (hours db) services' (reviews db))
    | None => (Error500, db)
    end.

Definition del (businessId id : string) (db : Store) : Response unit * Store :=
  if (businessCount db businessId <? 1)%nat
  then (NotFound404 parent_missing, db)
  else
    (Ok200 tt,
     mkStore (businesses db) (locations db) (hours db)
       (delete_rows
          (fun s => String.eqb (s_id s) id && String.eqb (s_businessId s) businessId)
          (services db))
       (reviews db)).

End Services.

(** reviews/reviews.js *)
Module Reviews.

Definition rating_invalid (v : option Q) : bool :=
  match v with
  | Some x => negb (Qle_bool 0 x) || negb (Qle_bool x 5)
  | None => true
  end.

Definition rating_of (v : option Q) : Q :=
  match v with Some x => x | None => 0%Q end.

(** [put].  A null [comment] is sent as [comment = DEFAULT]; whether the
    store accepts that keyword in an update is the parameter
    [default_keyword] (the column default is NULL). *)
Definition put (default_keyword : bool) (businessId id : string)
    (review : ReviewItem) (db : Store) : Response unit * Store :=
  if rating_invalid (ri_rating review)
  then (BadRequest400 "Review rating must be specified: 0 <= rating <= 5", db)
  else if (businessCount db businessId <? 1)%nat
  then (NotFound404 parent_missing, db)
  else
    let rejected :=
      match ri_comment review with
      | Null => negb default_keyword
      | _ => false
      end in
    if rejected then (Error500, db)
    else
      match update_rows review_conflict
              (fun r => String.eqb (r_id r) id && String.eqb (r_businessId r) businessId)
              (fun r => mkReview (r_id r) (r_businessId r)
                          (rating_of (ri_rating review))
                          match ri_comment review with
                          | Undefined => r_comment r
                          | Null => None
                          | Value c => Some c
                          end
                          (r_created_at r) (r_updated_at r))
              (reviews db) with
      | Some reviews' =>
          (Ok200 tt,
           mkStore (businesses db) (locations db) (hours db) (services db) reviews')
      | None => (Error500, db)
      end.

Definition del (businessId id : string) (db : Store) : Response unit * Store :=
  if (businessCount db businessId <? 1)%nat
  then (NotFound404 parent_missing, db)
  else
    (Ok200 tt,
     mkStore (businesses db) (locations db) (hours db) (services db)
       (delete_rows
          (fun r => String.eqb (r_id r) id && String.eqb (r_businessId r) businessId)
          (reviews db))).

End Reviews.

(* ------------------------------------------------------------------ *)
(** ** Vocabulary of the properties *)

(** What a fetcher owes for the rows of the business: nothing at all when
    there are none, otherwise all of them, in order. *)
Definition fetched {A} (result : option (list A)) (R : A -> A -> Prop)
    (rows : list A) : Prop :=
  match result with
  | None => rows = []
  | Some items => items <> [] /\ Sorted R items /\ Permutation rows items
  end.


(** The ratings of the reviews of a business, in table order. *)
Definition ratings_of (db : Store) (businessId : string) : list Q :=
  map r_rating
    (filter (fun r => String.eqb (r_businessId r) businessId) (reviews db)).

(** [m] is the arithmetic mean of the non-empty list [l]: [m] times the
    number of elements is their sum. *)
Definition is_mean (l : list Q) (m : Q) : Prop :=
  (m * inject_Z (Z.of_nat (length l)) == fold_right Qplus 0 l)%Q.

(** [q] is [x] rounded to one decimal place: a whole number of tenths, at
    most half a tenth away from [x]. *)
Definition rounded_to_one_decimal (x q : Q) : Prop :=
  (exists k : Z, q = k # 10) /\ (Qabs (q - x) <= 1 # 20)%Q.

(** The avgRating a response owes for a business: nothing when it has no
    review, otherwise the rounded mean of its ratings. *)
Definition average_attached (db : Store) (v : BusinessView) : Prop :=
  match ratings_of db (b_id (v_business v)) with
  | [] => avgRating v = None
  | ratings =>
      exists q m,
        avgRating v = Some q /\ is_mean ratings m /\ rounded_to_one_decimal m q
  end.

(** The validation of the search body, clause by clause. *)
Definition hours_invalid (search : Search) : Prop :=
  (q_dayOfWeek search <> None /\ q_hour search = None)
  \/ (q_dayOfWeek search = None /\ q_hour search <> None)
  \/ (exists d, q_dayOfWeek search = Some d /\ (d < 0 \/ 6 < d))
  \/ (exists h, q_hour search = Some h /\ (h < 0 \/ 23 < h)).

Definition unsupported (allowed1 allowed2 value : string) : Prop :=
  toLowerCase value <> allowed1 /\ toLowerCase value <> allowed2.

(** As the specification words it: a sort property is checked whenever it is
    supplied. *)
Definition stated_invalid_search (search : Search) : Prop :=
  hours_invalid search
  \/ (exists s, q_sortBy search = Some s /\ unsupported "name" "rating" s)
  \/ (exists s, q_sortDirection search = Some s /\ unsupported "asc" "desc" s).

(** As the handler has it: a sort property is checked when it is a non-empty
    string. *)
Definition invalid_search (search : Search) : Prop :=
  hours_invalid search
  \/ (exists s, q_sortBy search = Some s /\ s <> "" /\ unsupported "name" "rating" s)
  \/ (exists s, q_sortDirection search = Some s /\ s <> ""
                /\ unsupported "asc" "desc" s).

(** The five guards of the handler, in order. *)
Definition rejects (search : Search) : bool :=
  ((defined (q_dayOfWeek search) && negb (defined (q_hour search)))
   || (negb (defined (q_dayOfWeek search)) && defined (q_hour search)))
  || (js_lt (q_dayOfWeek search) 0 || js_gt (q_dayOfWeek search) 6)
  || (js_lt (q_hour search) 0 || js_gt (q_hour search) 23)
  || (truthy (q_sortBy search)
      && negb (String.eqb (sortBy_of search) "name")
      && negb (String.eqb (sortBy_of search) "rating"))
  || (truthy (q_sortDirection search)
      && negb (String.eqb (sortDirection_of search) "asc")
      && negb (String.eqb (sortDirection_of search) "desc")).

Definition no_match : string :=
  "no Businesses matching the specified criteria could be found".

(** The message of the guard of [put_business]. *)
Definition no_attribute : string :=
  "At least one of Business name and/or address attributes must be specified".


(** A supply of ids for the examples: "a", "b", "c", ... *)
Definition sample_uuid (k : nat) : string := String (ascii_of_nat (97 + k)) "".

(** A body whose only nested Hour closes before it opens. *)
Definition inverted_hour_body : BusinessBody :=
  mkBody (Some "ZZZ") (Some "123 Main Street") None (Some "Denver") (Some "CO") None
    None
    (Some [mkHourItem None None (Some 1) (Some 18) (Some 9)])
    None None.

(** A body with two nested Hours for the same day. *)
Definition duplicate_day_body : BusinessBody :=
  mkBody (Some "ZZZ") (Some "123 Main Street") None (Some "Denver") (Some "CO") None
    (Some [mkLocationItem None None (Some "Denver")])
    (Some [mkHourItem None None (Some 1) (Some 8) (Some 13);
           mkHourItem None None (Some 1) (Some 14) (Some 18)])
    None None.

(** The search body [{sortBy: ""}]. *)
Definition empty_sortBy : Search := with_sort (Some "") None no_filters.

(* ------------------------------------------------------------------ *)
(** ** app.js: the child routers mounted under a business *)

(** A PUT or DELETE on [/businesses/:businessId/<collection>/:id]. *)
Inductive ChildWrite : Type :=
| PutHour (hour : HourItem)
| DeleteHour
| PutLocation (location : LocationItem)
| DeleteLocation
| PutService (service : ServiceItem)
| DeleteService
| PutReview (review : ReviewItem)
| DeleteReview.

Definition child_write (default_keyword : bool) (now : Timestamp) (w : ChildWrite)
    (businessId id : string) (db : Store) : Response unit * Store :=
  match w with
  | PutHour hour => Hours.put businessId id hour db
  | DeleteHour => Hours.del businessId id db
  | PutLocation location => Locations.put now businessId id location db
  | DeleteLocation => Locations.del businessId id db
  | PutService service => Services.put businessId id service db
  | DeleteService => Services.del businessId id db
  | PutReview review => Reviews.put default_keyword businessId id review db
  | DeleteReview => Reviews.del businessId id db
  end.

(** No row of the collection has the given id under the given business. *)
Definition no_such_child (w : ChildWrite) (businessId id : string) (db : Store)
  : Prop :=
  match w with
  | PutHour _ | DeleteHour =>
      Forall (fun h => ~ (h_id h = id /\ h_businessId h = businessId)) (hours db)
  | PutLocation _ | DeleteLocation =>
      Forall (fun l => ~ (l_id l = id /\ l_businessId l = businessId)) (locations db)
  | PutService _ | DeleteService =>
      Forall (fun s => ~ (s_id s = id /\ s_businessId s = businessId)) (services db)
  | PutReview _ | DeleteReview =>
      Forall (fun r => ~ (r_id r = id /\ r_businessId r = businessId)) (reviews db)
  end.

(** The store takes the statement the write sends: only the update of a
    review with a null comment, which uses the DEFAULT keyword, may be
    refused. *)
Definition statement_accepted (default_keyword : bool) (w : ChildWrite) : Prop :=
  match w with
  | PutReview review => ri_comment review = Null -> default_keyword = true
  | _ => True
  end.

(** An Hour body that closes before it opens. *)
Definition inverted_hour : HourItem :=
  mkHourItem None None (Some 1) (Some 18) (Some 9).

Definition valid_hour : HourItem :=
  mkHourItem None None (Some 0) (Some 11) (Some 16).

(* ------------------------------------------------------------------ *)
(** ** businesses.js: delete *)

(** The foreign keys of the child tables are declared [onDelete('CASCADE')];
    whether the store enforces foreign keys is the parameter [foreign_keys]. *)
Definition cascade {A} (foreign_keys : bool) (owner : A -> string) (id : string)
    (table : list A) : list A :=
  if foreign_keys
  then delete_rows (fun r => String.eqb (owner r) id) table
  else table.

(** [router.delete('/:businessId')]. *)
Definition delete_business (foreign_keys : bool) (id : string) (db : Store)
  : Response unit * Store :=
  if (businessCount db id <? 1)%nat
  then (NotFound404 parent_missing, db)
  else
    (Ok200 tt,
     mkStore (delete_rows (fun b => String.eqb (b_id b) id) (businesses db))
       (cascade foreign_keys l_businessId id (locations db))
       (cascade foreign_keys h_businessId id (hours db))
       (cascade foreign_keys s_businessId id (services db))
       (cascade foreign_keys r_businessId id (reviews db))).

(* ------------------------------------------------------------------ *)
(** ** The child routes: list, get and create *)

(** hours/hours.js: [router.get('/')], [router.get('/:id')], [router.post('/')].
    [post_hour] is the POST on a typed body; [Raw.post_hour] below is the
    POST on any body, timestamps included. *)
Definition list_hours (businessId : string) (db : Store) : Response (list Hour) :=
  if (businessCount db businessId <? 1)%nat
  then NotFound404 parent_missing
  else
    Ok200 (orderBy (fun a b => h_dayOfWeek a <=? h_dayOfWeek b)
             (filter (fun h => String.eqb (h_businessId h) businessId) (hours db))).

Definition get_hour (businessId id : string) (db : Store) : Response Hour :=
  match filter (fun h => String.eqb (h_id h) id && String.eqb (h_businessId h) businessId)
          (hours db) with
  | h :: _ => Ok200 h
  | [] => NotFound404 parent_missing
  end.

Definition post_hour (uuid : nat -> string) (now : Timestamp) (businessId : string)
    (hour : HourItem) (db : Store) : Response unit * Store :=
  if missing_or_outside (hi_dayOfWeek hour) 0 6
  then (BadRequest400 "Hour dayOfWeek must be specified: 0 <= dayOfWeek <= 6", db)
  else if missing_or_outside (hi_open hour) 0 23
  then (BadRequest400 "Hour open must be specified: 0 <= open <= 23", db)
  else if missing_or_outside (hi_close hour) 0 23
  then (BadRequest400 "Hour close must be specified: 0 <= close <= 23", db)
  else if number (hi_open hour) >=? number (hi_close hour)
  then (BadRequest400 "Hour open must be < close", db)
  else
    let hour := assign_ids (uuid 0%nat) businessId hour in
    if (businessCount db businessId <? 1)%nat
    then (NotFound404 parent_missing, db)
    else
      match insert_items (hour_row now) hour_conflict [hour] (hours db) with
      | Some hours' =>
          (Ok200 tt,
           mkStore (businesses db) (locations db) hours' (services db) (reviews db))
      | None => (Error500, db)
      end.

(** locations/locations.js. *)
Definition list_locations (businessId : string) (db : Store)
  : Response (list Location) :=
  if (businessCount db businessId <? 1)%nat
  then NotFound404 parent_missing
  else
    Ok200 (orderBy (fun a b => String.leb (l_name a) (l_name b))
             (filter (fun l => String.eqb (l_businessId l) businessId) (locations db))).

Definition get_location (businessId id : string) (db : Store) : Response Location :=
  match filter (fun l => String.eqb (l_id l) id && String.eqb (l_businessId l) businessId)
          (locations db) with
  | l :: _ => Ok200 l
  | [] => NotFound404 "The specified business/location combination does not exist"
  end.

Definition post_location (uuid : nat -> string) (now : Timestamp)
    (businessId : string) (location : LocationItem) (db : Store)
  : Response unit * Store :=
  if negb (truthy (li_name location))
  then (BadRequest400 "Location name must be specified", db)
  else
    let location := assign_ids (uuid 0%nat) businessId location in
    if (businessCount db businessId <? 1)%nat
    then (NotFound404 parent_missing, db)
    else
      match insert_items (location_row now) location_conflict [location]
              (locations db) with
      | Some locations' =>
          (Ok200 tt,
           mkStore (businesses db) locations' (hours db) (services db) (reviews db))
      | None => (Error500, db)
      end.

(** services/services.js. *)
Definition list_services (businessId : string) (db : Store)
  : Response (list Service) :=
  if (businessCount db businessId <? 1)%nat
  then NotFound404 parent_missing
  else
    Ok200 (orderBy (fun a b => String.leb (s_name a) (s_name b))
             (filter (fun s => String.eqb (s_businessId s) businessId) (services db))).

Definition get_service (businessId id : string) (db : Store) : Response Service :=
  match filter (fun s => String.eqb (s_id s) id && String.eqb (s_businessId s) businessId)
          (services db) with
  | s :: _ => Ok200 s
  | [] => NotFound404 parent_missing
  end.

Definition post_service (uuid : nat -> string) (now : Timestamp)
    (businessId : string) (service : ServiceItem) (db : Store)
  : Response unit * Store :=
  if negb (truthy (si_name service))
  then (BadRequest400 "Service name must be specified", db)
  else
    let service := assign_ids (uuid 0%nat) businessId service in
    if (businessCount db businessId <? 1)%nat
    then (NotFound404 parent_missing, db)
    else
      match insert_items (service_row now) service_conflict [service]
              (services db) with
      | Some services' =>
          (Ok200 tt,
           mkStore (businesses db) (locations db) (hours db) services' (reviews db))
      | None => (Error500, db)
      end.

(** reviews/reviews.js. *)
Definition list_reviews (businessId : string) (db : Store) : Response (list Review) :=
  if (businessCount db businessId <? 1)%nat
  then NotFound404 parent_missing
  else
    Ok200 (orderBy (fun a b => r_created_at a <=? r_created_at b)
             (filter (fun r => String.eqb (r_businessId r) businessId) (reviews db))).

Definition get_review (businessId id : string) (db : Store) : Response Review :=
  match filter (fun r => String.eqb (r_id r) id && String.eqb (r_businessId r) businessId)
          (reviews db) with
  | r :: _ => Ok200 r
  | [] => NotFound404 "The specified business/review combination does not exist"
  end.

Definition post_review (uuid : nat -> string) (now : Timestamp) (businessId : string)
    (review : ReviewItem) (db : Store) : Response unit * Store :=
  if Reviews.rating_invalid (ri_rating review)
  then (BadRequest400 "Review rating must be specified: 0 <= rating <= 5", db)
  else
    let review := assign_ids (uuid 0%nat) businessId review in
    if (businessCount db businessId <? 1)%nat
    then (NotFound404 parent_missing, db)
    else
      match insert_items (review_row now) review_conflict [review] (reviews db) with
      | Some reviews' =>
          (Ok200 tt,
           mkStore (businesses db) (locations db) (hours db) (services db) reviews')
      | None => (Error500, db)
      end.

(** An Hour row as the hours routes accept it. *)
Definition hour_wellformed (h : Hour) : Prop :=
  0 <= h_dayOfWeek h <= 6 /\ 0 <= h_open h /\ h_open h < h_close h /\ h_close h <= 23.

(** The ids of the businesses that the child rows refer to. *)
Definition owners (db : Store) : list string :=
  map l_businessId (locations db) ++ map h_businessId (hours db)
  ++ map s_businessId (services db) ++ map r_businessId (reviews db).

(** Every child row belongs to a stored business. *)
Definition no_orphans (db : Store) : Prop :=
  Forall (fun id => (1 <= businessCount db id)%nat) (owners db).

(** The nested objects with the ids a client may have put on them removed. *)
Definition location_without_ids (i : LocationItem) : LocationItem :=
  mkLocationItem None None (li_name i).
Definition hour_without_ids (i : HourItem) : HourItem :=
  mkHourItem None None (hi_dayOfWeek i) (hi_open i) (hi_close i).
Definition service_without_ids (i : ServiceItem) : ServiceItem :=
  mkServiceItem None None (si_name i).
Definition review_without_ids (i : ReviewItem) : ReviewItem :=
  mkReviewItem None None (ri_rating i) (ri_comment i).

Definition body_without_ids (body : BusinessBody) : BusinessBody :=
  mkBody (p_name body) (p_addressLine1 body) (p_addressLine2 body) (p_city body)
    (p_state body) (p_postal body)
    (option_map (map location_without_ids) (p_locations body))
    (option_map (map hour_without_ids) (p_hours body))
    (option_map (map service_without_ids) (p_services body))
    (option_map (map review_without_ids) (p_reviews body)).

(** What PUT on a business may do to a row: the id and the creation time
    stay, a name that was not empty is not emptied, and an address column
    that held a value still holds one. *)
Definition never_blanked (b b' : Business) : Prop :=
  b_id b' = b_id b
  /\ b_created_at b' = b_created_at b
  /\ (b_name b <> "" -> b_name b' <> "")
  /\ (b_addressLine1 b <> None -> b_addressLine1 b' <> None)
  /\ (b_addressLine2 b <> None -> b_addressLine2 b' <> None)
  /\ (b_city b <> None -> b_city b' <> None)
  /\ (b_state b <> None -> b_state b' <> None)
  /\ (b_postal b <> None -> b_postal b' <> None).

(** The business offers a Service, or serves a Location, whose name matches
    the search text. *)
Definition has_service (db : Store) (needle : string) (b : Business) : Prop :=
  exists s, In s (services db) /\ s_businessId s = b_id b
            /\ column_like (Some (s_name s)) needle = true.

Definition has_location (db : Store) (needle : string) (b : Business) : Prop :=
  exists l, In l (locations db) /\ l_businessId l = b_id b
            /\ column_like (Some (l_name l)) needle = true.

(** A review rating within the scale. *)
Definition rating_in_scale (q : Q) : Prop := (0 <= q /\ q <= 5)%Q.

(** A text without the LIKE wildcards [%] and [_]. *)
Fixpoint wildcard_free (s : string) : Prop :=
  match s with
  | EmptyString => True
  | String c s' => c <> "%"%char /\ c <> "_"%char /\ wildcard_free s'
  end.

(** A text of ASCII characters only: every byte is below 128.  On such a
    text JavaScript's [toLowerCase] changes the letters A-Z and nothing
    else, which is what [toLowerCase] above computes. *)
Fixpoint is_ascii (s : string) : bool :=
  match s with
  | EmptyString => true
  | String c s' => (N_of_ascii c <? 128)%N && is_ascii s'
  end.

Definition ascii_only (s : string) : Prop := is_ascii s = true.

(** A text without the character NUL, at which SQLite's [LIKE] stops
    reading both the pattern and the column. *)
Fixpoint nul_free (s : string) : Prop :=
  match s with
  | EmptyString => True
  | String c s' => c <> Ascii.zero /\ nul_free s'
  end.

(** Two texts are equal up to the case of the letters A-Z and a-z, the only
    case folding SQLite's [LIKE] performs. *)
Fixpoint same_up_to_ascii_case (s t : string) : Prop :=
  match s, t with
  | EmptyString, EmptyString => True
  | String c s', String d t' =>
      lower_ascii c = lower_ascii d /\ same_up_to_ascii_case s' t'
  | _, _ => False
  end.

(* ------------------------------------------------------------------ *)
(** ** Request bodies as parsed JSON

    [req.body] is what [bodyParser.json()] parsed: an object whose properties
    hold any JSON value.  The hours and reviews routes compare these values
    with [<], [>] and [>=] and hand them to the store as they are, so their
    handlers are given here on the raw values.  The records [HourItem] and
    [ReviewItem] are the bodies whose properties are numbers of the declared
    type and that carry no timestamps; on them the handlers below are the
    typed ones ([post_hour_on_typed_body] and the lemmas after it).

    A handler on raw JSON yields [Some (answer, store)], or [None] where the
    request leaves the part of JavaScript and of the store described here:
    - a compared or stored property that is an array or an object, or a
      string that is not a short run of decimal digits;
    - a value that the store keeps in a form the typed tables cannot hold
      (SQLite keeps 1.5 or 'abc' as they are in an integer column);
    - an inserted object with a property that is not the name of a column
      in the migration's spelling. *)

(** A number as [JSON.parse] yields it: finite, or an infinity for a literal
    beyond the range of a double. *)
Inductive Number : Type :=
| Num (q : Q)
| Inf (negative : bool).

#[local] Unset Elimination Schemes.
Inductive Json : Type :=
| JNull
| JBool (b : bool)
| JNumber (x : Number)
| JString (s : string)
| JArray (items : list Json)
| JObject (members : list (string * Json)).
#[local] Set Elimination Schemes.

(** The JSON number of an integer. *)
Definition integer (z : Z) : Json := JNumber (Num (inject_Z z)).

(** The value of a string of one to fifteen decimal digits.  JavaScript's
    conversion of such a string to a number and SQLite's conversion of such
    a text in a numeric column both give this integer. *)
Definition digit (c : ascii) : option Z :=
  let n := Z.of_N (N_of_ascii c) in
  if (48 <=? n) && (n <=? 57) then Some (n - 48) else None.

Fixpoint digits_from (acc : Z) (s : string) : option Z :=
  match s with
  | EmptyString => Some acc
  | String c s' => d ← digit c; digits_from (10 * acc + d) s'
  end.

Definition digits_value (s : string) : option Z :=
  match s with
  | EmptyString => None
  | String _ _ => if (String.length s <=? 15)%nat then digits_from 0 s else None
  end.

(** [ToNumber]: null is 0, true is 1, false is 0, a string of digits is
    its value. *)
Definition to_number (v : Json) : option Number :=
  match v with
  | JNull => Some (Num 0)
  | JBool b => Some (Num (if b then 1 else 0))
  | JNumber x => Some x
  | JString s => n ← digits_value s; Some (Num (inject_Z n))
  | JArray _ | JObject _ => None
  end.

Definition number_lt (x y : Number) : bool :=
  match x, y with
  | Num a, Num b => negb (Qle_bool b a)
  | Num _, Inf negative => negb negative
  | Inf negative, Num _ => negative
  | Inf n1, Inf n2 => n1 && negb n2
  end.

(** The relational comparison of two operands, [None] standing for
    [undefined]: two strings compare as strings, by code units (bytes, for
    ASCII strings); otherwise both are converted to numbers, and an
    undefined operand does not compare at all. *)
Inductive Comparison : Type :=
| Less
| NotLess
| Unordered.

Definition compare_json (a b : option Json) : option Comparison :=
  match a, b with
  | Some (JString s), Some (JString t) =>
      if is_ascii s && is_ascii t
      then Some (if String.ltb s t then Less else NotLess)
      else None
  | Some x, Some y =>
      n ← to_number x; m ← to_number y;
      Some (if number_lt n m then Less else NotLess)
  | _, _ => Some Unordered
  end.

(** [a < b], [a > b] and [a >= b]. *)
Definition json_lt (a b : option Json) : option bool :=
  c ← compare_json a b;
  Some (match c with Less => true | _ => false end).

Definition json_gt (a b : option Json) : option bool := json_lt b a.

Definition json_ge (a b : option Json) : option bool :=
  c ← compare_json a b;
  Some (match c with NotLess => true | _ => false end).

(** [v === undefined || v < lo || v > hi]. *)
Definition undefined_or_outside (v : option Json) (lo hi : Z) : option bool :=
  match v with
  | None => Some true
  | Some _ =>
      below ← json_lt v (Some (integer lo));
      if (below : bool) then Some true else json_gt v (Some (integer hi))
  end.

(** What a column holds once a value is written to it. *)
Inductive Cell (A : Type) : Type :=
| Held (a : A)
| IsNull.
Arguments Held {A} a.
Arguments IsNull {A}.

Definition held {A} (c : Cell A) : option A :=
  match c with Held a => Some a | IsNull => None end.

(** The integer that a rational is, if it is one. *)
Definition integer_value (q : Q) : option Z :=
  if Qnum q mod Zpos (Qden q) =? 0 then Some (Qnum q / Zpos (Qden q)) else None.

(** A value bound to an integer column ([dayOfWeek], [open], [close]): null
    is NULL, a boolean is bound as 1 or 0, an integral number and a text of
    digits become that integer.  Any other number or text is kept as it is,
    which the typed tables cannot hold. *)
Definition integer_cell (v : Json) : option (Cell Z) :=
  match v with
  | JNull => Some IsNull
  | JBool b => Some (Held (if b then 1 else 0))
  | JNumber (Num q) => z ← integer_value q; Some (Held z)
  | JNumber (Inf _) => None
  | JString s => n ← digits_value s; Some (Held n)
  | JArray _ | JObject _ => None
  end.

(** A value bound to [reviews.rating], whose rows hold any number. *)
Definition number_cell (v : Json) : option (Cell Q) :=
  match v with
  | JNull => Some IsNull
  | JBool b => Some (Held (if b then 1 else 0)%Q)
  | JNumber (Num q) => Some (Held q)
  | JNumber (Inf _) => None
  | JString s => n ← digits_value s; Some (Held (inject_Z n))
  | JArray _ | JObject _ => None
  end.

(** A value bound to a text column. *)
Definition text_cell (v : Json) : option (Cell string) :=
  match v with
  | JNull => Some IsNull
  | JString s => Some (Held s)
  | _ => None
  end.

(** A value bound to [created_at] or [updated_at].  The column keeps any
    scalar; [stored_time] reads what it then holds as a [Timestamp]. *)
Definition datetime_cell (stored_time : Json -> Timestamp) (v : Json)
  : option (Cell Timestamp) :=
  match v with
  | JNull => Some IsNull
  | JArray _ | JObject _ => None
  | _ => Some (Held (stored_time v))
  end.

(** What a statement does to a column: leave it alone (to its default, in
    an insert) when the property is undefined, or write the property. *)
Inductive Write (A : Type) : Type :=
| Keep
| Put (c : Cell A).
Arguments Keep {A}.
Arguments Put {A} c.

Definition write {A} (cell : Json -> option (Cell A)) (v : option Json)
  : option (Write A) :=
  match v with
  | None => Some Keep
  | Some x => c ← cell x; Some (Put c)
  end.

(** The column of an inserted row, [default] being what it takes when the
    object does not name it. *)
Definition written {A} (w : Write A) (default : Cell A) : Cell A :=
  match w with
  | Keep => default
  | Put c => c
  end.

(** An update that would put NULL into a not-null column, and the column of
    a row it rewrites otherwise. *)
Definition writes_null {A} (w : Write A) : bool :=
  match w with
  | Put IsNull => true
  | _ => false
  end.

Definition value_after {A} (w : Write A) (old : A) : A :=
  match w with
  | Put (Held a) => a
  | _ => old
  end.

(** All properties of the object name a column. *)
Definition only_columns (columns : list string) (object : gmap string Json) : bool :=
  bool_decide (map_Forall (fun k _ => k ∈ columns) object).

Definition hour_columns : list string :=
  ["id"; "businessId"; "dayOfWeek"; "open"; "close"; "created_at"; "updated_at"].

Definition review_columns : list string :=
  ["id"; "businessId"; "rating"; "comment"; "created_at"; "updated_at"].

(** The row that [insert(hour)] sends: [Some None] when a not-null column
    would be NULL, so that the statement fails. *)
Definition hour_of_json (stored_time : Json -> Timestamp) (now : Timestamp)
    (hour : gmap string Json) : option (option Hour) :=
  if only_columns hour_columns hour then
    id ← write text_cell (hour !! "id");
    businessId ← write text_cell (hour !! "businessId");
    dayOfWeek ← write integer_cell (hour !! "dayOfWeek");
    open ← write integer_cell (hour !! "open");
    close ← write integer_cell (hour !! "close");
    created_at ← write (datetime_cell stored_time) (hour !! "created_at");
    updated_at ← write (datetime_cell stored_time) (hour !! "updated_at");
    Some (id ← held (written id IsNull);
          businessId ← held (written businessId IsNull);
          dayOfWeek ← held (written dayOfWeek IsNull);
          open ← held (written open IsNull);
          close ← held (written close IsNull);
          created_at ← held (written created_at (Held now));
          updated_at ← held (written updated_at (Held now));
          Some (mkHour id businessId dayOfWeek open close created_at updated_at))
  else None.

(** The row that [insert(review)] sends, the object having lost its
    [created_at] and [updated_at]. *)
Definition review_of_json (now : Timestamp) (review : gmap string Json)
  : option (option Review) :=
  if only_columns review_columns review then
    id ← write text_cell (review !! "id");
    businessId ← write text_cell (review !! "businessId");
    rating ← write number_cell (review !! "rating");
    comment ← write text_cell (review !! "comment");
    Some (id ← held (written id IsNull);
          businessId ← held (written businessId IsNull);
          rating ← held (written rating IsNull);
          Some (mkReview id businessId rating (held (written comment IsNull)) now now))
  else None.

Module Raw.

(** hours/hours.js, [router.post('/')]. *)
Definition post_hour (stored_time : Json -> Timestamp) (uuid : nat -> string)
    (now : Timestamp) (businessId : string) (hour : gmap string Json) (db : Store)
  : option (Response unit * Store) :=
  dayOfWeek_invalid ← undefined_or_outside (hour !! "dayOfWeek") 0 6;
  if (dayOfWeek_invalid : bool)
  then Some (BadRequest400 "Hour dayOfWeek must be specified: 0 <= dayOfWeek <= 6", db)
  else
    open_invalid ← undefined_or_outside (hour !! "open") 0 23;
    if (open_invalid : bool)
    then Some (BadRequest400 "Hour open must be specified: 0 <= open <= 23", db)
    else
      close_invalid ← undefined_or_outside (hour !! "close") 0 23;
      if (close_invalid : bool)
      then Some (BadRequest400 "Hour close must be specified: 0 <= close <= 23", db)
      else
        inverted ← json_ge (hour !! "open") (hour !! "close");
        if (inverted : bool)
        then Some (BadRequest400 "Hour open must be < close", db)
        else
          let hour :=
            <["businessId" := JString businessId]>
              (<["id" := JString (uuid 0%nat)]> hour) in
          if (businessCount db businessId <? 1)%nat
          then Some (NotFound404 parent_missing, db)
          else
            row ← hour_of_json stored_time now hour;
            Some
              match row ≫= (fun h => insert_rows hour_conflict [h] (hours db)) with
              | Some hours' =>
                  (Ok200 tt,
                   mkStore (businesses db) (locations db) hours' (services db)
                     (reviews db))
              | None => (Error500, db)
              end.

(** hours/hours.js, [router.put('/:id')].  The update writes the three
    properties and fails when it would put NULL into a row. *)
Definition put_hour (businessId id : string) (hour : gmap string Json) (db : Store)
  : option (Response unit * Store) :=
  dayOfWeek_invalid ← undefined_or_outside (hour !! "dayOfWeek") 0 6;
  if (dayOfWeek_invalid : bool)
  then Some (BadRequest400 "Hour dayOfWeek must be specified: 0 <= dayOfWeek <= 6", db)
  else
    open_invalid ← undefined_or_outside (hour !! "open") 0 23;
    if (open_invalid : bool)
    then Some (BadRequest400 "Hour open must be specified: 0 <= open <= 23", db)
    else
      close_invalid ← undefined_or_outside (hour !! "close") 0 23;
      if (close_invalid : bool)
      then Some (BadRequest400 "Hour close must be specified: 0 <= close <= 23", db)
      else
        inverted ← json_ge (hour !! "open") (hour !! "close");
        if (inverted : bool)
        then Some (BadRequest400 "Hour open must be < close", db)
        else if (businessCount db businessId <? 1)%nat
        then Some (NotFound404 parent_missing, db)
        else
          dayOfWeek ← write integer_cell (hour !! "dayOfWeek");
          open ← write integer_cell (hour !! "open");
          close ← write integer_cell (hour !! "close");
          let matching h :=
            String.eqb (h_id h) id && String.eqb (h_businessId h) businessId in
          if existsb matching (hours db)
             && (writes_null dayOfWeek || writes_null open || writes_null close)
          then Some (Error500, db)
          else
            Some
              match update_rows hour_conflict matching
                      (fun h => mkHour (h_id h) (h_businessId h)
                                  (value_after dayOfWeek (h_dayOfWeek h))
                                  (value_after open (h_open h))
                                  (value_after close (h_close h))
                                  (h_created_at h) (h_updated_at h))
                      (hours db) with
              | Some hours' =>
                  (Ok200 tt,
                   mkStore (businesses db) (locations db) hours' (services db)
                     (reviews db))
              | None => (Error500, db)
              end.

(** reviews/reviews.js, [router.post('/')]. *)
Definition post_review (uuid : nat -> string) (now : Timestamp)
    (businessId : string) (review : gmap string Json) (db : Store)
  : option (Response unit * Store) :=
  rating_invalid ← undefined_or_outside (review !! "rating") 0 5;
  if (rating_invalid : bool)
  then Some (BadRequest400 "Review rating must be specified: 0 <= rating <= 5", db)
  else
    let review :=
      delete "updated_at"
        (delete "created_at"
           (<["businessId" := JString businessId]>
              (<["id" := JString (uuid 0%nat)]> review))) in
    if (businessCount db businessId <? 1)%nat
    then Some (NotFound404 parent_missing, db)
    else
      row ← review_of_json now review;
      Some
        match row ≫= (fun r => insert_rows review_conflict [r] (reviews db)) with
        | Some reviews' =>
            (Ok200 tt,
             mkStore (businesses db) (locations db) (hours db) (services db)
               reviews')
        | None => (Error500, db)
        end.

(** reviews/reviews.js, [router.put('/:id')].  A null [comment] is sent as
    [comment = DEFAULT] (see [Reviews.put]); the rating is written as it
    is. *)
Definition put_review (default_keyword : bool) (businessId id : string)
    (review : gmap string Json) (db : Store) : option (Response unit * Store) :=
  rating_invalid ← undefined_or_outside (review !! "rating") 0 5;
  if (rating_invalid : bool)
  then Some (BadRequest400 "Review rating must be specified: 0 <= rating <= 5", db)
  else if (businessCount db businessId <? 1)%nat
  then Some (NotFound404 parent_missing, db)
  else
    rating ← write number_cell (review !! "rating");
    comment ← write text_cell (review !! "comment");
    let rejected :=
      match review !! "comment" with
      | Some JNull => negb default_keyword
      | _ => false
      end in
    if rejected then Some (Error500, db)
    else
      let matching r :=
        String.eqb (r_id r) id && String.eqb (r_businessId r) businessId in
      if existsb matching (reviews db) && writes_null rating
      then Some (Error500, db)
      else
        Some
          match update_rows review_conflict matching
                  (fun r => mkReview (r_id r) (r_businessId r)
                              (value_after rating (r_rating r))
                              match comment with
                              | Keep => r_comment r
                              | Put c => held c
                              end
                              (r_created_at r) (r_updated_at r))
                  (reviews db) with
          | Some reviews' =>
              (Ok200 tt,
               mkStore (businesses db) (locations db) (hours db) (services db)
                 reviews')
          | None => (Error500, db)
          end.

End Raw.

(** The typed bodies as JSON objects. *)
Definition property {A} (name : string) (json : A -> Json) (v : option A)
    (object : gmap string Json) : gmap string Json :=
  match v with
  | Some a => <[name := json a]> object
  | None => object
  end.

Definition hour_json (i : HourItem) : gmap string Json :=
  property "id" JString (hi_id i)
    (property "businessId" JString (hi_businessId i)
       (property "dayOfWeek" integer (hi_dayOfWeek i)
          (property "open" integer (hi_open i)
             (property "close" integer (hi_close i) ∅)))).

Definition review_json (i : ReviewItem) : gmap string Json :=
  property "id" JString (ri_id i)
    (property "businessId" JString (ri_businessId i)
       (property "rating" (fun q => JNumber (Num q)) (ri_rating i)
          match ri_comment i with
          | Undefined => ∅
          | Null => {[ "comment" := JNull ]}
          | Value c => {[ "comment" := JString c ]}
          end)).

(** The three compared properties of an Hour body are integers, where
    present; the rating of a Review body is a number, where present. *)
Definition is_integer (v : Json) : Prop :=
  exists q z, v = JNumber (Num q) /\ integer_value q = Some z.

Definition integer_fields (hour : gmap string Json) : Prop :=
  forall name v,
    In name ["dayOfWeek"; "open"; "close"] -> hour !! name = Some v -> is_integer v.

Definition number_rating (review : gmap string Json) : Prop :=
  forall v, review !! "rating" = Some v -> exists x, v = JNumber x.

(** A value that is not an array or an object. *)
Definition scalar (v : Json) : Prop :=
  match v with
  | JArray _ | JObject _ => False
  | _ => True
  end.

(** An Hour body that names nothing but columns and whose timestamps, where
    it carries them, are scalars; a Review body that names nothing but
    columns; a comment that is absent, null or a string. *)
Definition insertable_hour (hour : gmap string Json) : Prop :=
  only_columns hour_columns hour = true
  /\ forall name v,
       In name ["created_at"; "updated_at"] -> hour !! name = Some v -> scalar v.

Definition plain_comment (review : gmap string Json) : Prop :=
  forall v, review !! "comment" = Some v -> v = JNull \/ exists s, v = JString s.

Definition insertable_review (review : gmap string Json) : Prop :=
  only_columns review_columns review = true /\ plain_comment review.

(** Bodies for the examples: an Hour that brings its own [created_at], an
    Hour whose open and close are strings, and a Review. *)
Definition hour_with_created_at : gmap string Json :=
  {[ "dayOfWeek" := integer 0; "open" := integer 11; "close" := integer 16;
     "created_at" := JString "2001-01-01 00:00:00" ]}.

Definition hour_of_strings : gmap string Json :=
  {[ "dayOfWeek" := integer 0; "open" := JString "10"; "close" := JString "9" ]}.

Definition review_of_three : gmap string Json :=
  {[ "rating" := integer 3; "comment" := JString "Fine" ]}.

(* ================================================================== *)
(** * Properties *)

(** ** The model against the test suite *)

Example like_case_insensitive : column_like (Some "Sample Business #2") "bUsInESs #2" = true.
Proof. reflexivity. Qed.

Example like_partial : column_like (Some "Henderson") "Enderson" = true.
Proof. reflexivity. Qed.

Example like_no_match : column_like (Some "Denver") "Enderson" = false.
Proof. reflexivity. Qed.

(** Expectations of business.test.js on the seed data. *)
Example seed_default_order :
  Seed.names (post_search no_filters Seed.store)
  = Some ["Sample Business #1"; "Sample Business #2"; "Sample Business #3"].
Proof. vm_compute. reflexivity. Qed.

Example seed_rating_asc :
  let s := mkSearch None None None None None None None None None None None
             (Some "rating") (Some "asc") in
  Seed.names (post_search s Seed.store)
  = Some ["Sample Business #2"; "Sample Business #1"; "Sample Business #3"]
  /\ Seed.ratings (post_search s Seed.store)
     = Some [Some (37 # 10); Some (42 # 10); Some (50 # 10)].
Proof. vm_compute. split; reflexivity. Qed.

Example seed_service_and_hours :
  let s := mkSearch None None None None None None (Some 6) (Some 8) (Some "pack")
             None None None None in
  Seed.names (post_search s Seed.store) = Some ["Sample Business #3"].
Proof. vm_compute. reflexivity. Qed.

Example seed_service_rating_no_match :
  let s := mkSearch None None None None None None None None (Some "clean")
             None (Some (43 # 10)) None None in
  status (response (post_search s Seed.store)) = 404.
Proof. vm_compute. reflexivity. Qed.

Example seed_get_business :
  match get_business "b2" Seed.store with
  | Ok200 v =>
      avgRating v = Some (37 # 10)
      /\ option_map (@length _) (v_locations v) = Some 6%nat
      /\ option_map (map h_dayOfWeek) (v_hours v) = Some [1; 2; 3; 4; 5; 6]
      /\ option_map (map s_name) (v_services v)
         = Some ["House Cleaning"; "Maid Services"; "Moving Services"; "Packing"]
  | _ => False
  end.
Proof. vm_compute. repeat split; reflexivity. Qed.

(* ------------------------------------------------------------------ *)
(** ** ORDER BY *)

Section OrderByFacts.
Context {A : Type}.
Variable le : A -> A -> bool.

Lemma insert_row_perm (x : A) (rows : list A) :
  Permutation (x :: rows) (insert_row le x rows).
Proof.
  induction rows as [|y rows IH]; simpl.
  - apply Permutation_refl.
  - destruct (le x y).
    + apply Permutation_refl.
    + eapply perm_trans; [apply perm_swap|]. apply perm_skip, IH.
Qed.

Lemma orderBy_perm (rows : list A) : Permutation rows (orderBy le rows).
Proof.
  induction rows as [|x rows IH]; simpl.
  - apply perm_nil.
  - eapply perm_trans; [apply perm_skip, IH|]. apply insert_row_perm.
Qed.

Lemma orderBy_length (rows : list A) : length (orderBy le rows) = length rows.
Proof. symmetry. apply Permutation_length, orderBy_perm. Qed.

Lemma orderBy_In (rows : list A) (x : A) : In x (orderBy le rows) <-> In x rows.
Proof.
  split; apply Permutation_in;
    [apply Permutation_sym|]; apply orderBy_perm.
Qed.

Lemma orderBy_nil (rows : list A) : orderBy le rows = [] <-> rows = [].
Proof.
  split; intros H.
  - apply length_zero_iff_nil. rewrite <- orderBy_length, H. reflexivity.
  - subst. reflexivity.
Qed.

Hypothesis le_total : forall a b, le a b = false -> le b a = true.

Let R (a b : A) : Prop := le a b = true.

Lemma insert_row_HdRel (x y : A) (rows : list A) :
  R y x -> HdRel R y rows -> HdRel R y (insert_row le x rows).
Proof.
  intros Hyx Hhd. destruct rows as [|z rows]; simpl.
  - constructor. exact Hyx.
  - destruct (le x z); constructor.
    + exact Hyx.
    + inversion Hhd; assumption.
Qed.

Lemma insert_row_sorted (x : A) (rows : list A) :
  Sorted R rows -> Sorted R (insert_row le x rows).
Proof.
  induction rows as [|y rows IH]; intros Hs; simpl.
  - repeat constructor.
  - destruct (le x y) eqn:E.
    + constructor; [exact Hs | constructor; exact E].
    + inversion Hs as [|? ? Hs' Hhd]; subst.
      constructor; [apply IH; exact Hs'|].
      apply insert_row_HdRel; [apply le_total; exact E | exact Hhd].
Qed.

Lemma orderBy_sorted (rows : list A) : Sorted R (orderBy le rows).
Proof.
  induction rows as [|x rows IH]; simpl.
  - constructor.
  - apply insert_row_sorted, IH.
Qed.
End OrderByFacts.

Lemma Sorted_firstn {A} (R : A -> A -> Prop) (n : nat) (l : list A) :
  Sorted R l -> Sorted R (firstn n l).
Proof.
  revert l. induction n as [|n IH]; intros l Hs; simpl.
  - constructor.
  - destruct l as [|x l]; [constructor|].
    inversion Hs as [|? ? Hs' Hhd]; subst.
    constructor; [apply IH; exact Hs'|].
    destruct l as [|y l]; simpl.
    + destruct n; constructor.
    + destruct n; simpl; constructor. inversion Hhd; assumption.
Qed.

Lemma Sorted_map {A B} (f : A -> B) (R : B -> B -> Prop) (l : list A) :
  Sorted (fun a b => R (f a) (f b)) l -> Sorted R (map f l).
Proof.
  induction 1 as [|x l Hs IH Hhd]; simpl; constructor.
  - exact IH.
  - destruct Hhd; simpl; constructor. assumption.
Qed.

Lemma string_leb_total (a b : string) : String.leb a b = false -> String.leb b a = true.
Proof.
  intros H. destruct (String.leb_total a b) as [H1|H1]; congruence.
Qed.

Lemma Z_leb_total (a b : Z) : (a <=? b) = false -> (b <=? a) = true.
Proof. lia. Qed.

Lemma null_first_le_total (x y : option Q) :
  null_first_le x y = false -> null_first_le y x = true.
Proof.
  destruct x as [a|], y as [b|]; simpl; try congruence.
  intros H. apply Qle_bool_iff. apply Qlt_le_weak, Qnot_le_lt.
  intros Hle. apply Qle_bool_iff in Hle. congruence.
Qed.

(* ------------------------------------------------------------------ *)
(** ** The aggregate fetchers *)

Lemma present_if_nonempty_fetched {A} (le : A -> A -> bool) (rows : list A) :
  (forall a b, le a b = false -> le b a = true) ->
  fetched (present_if_nonempty (orderBy le rows)) (fun a b => le a b = true) rows.
Proof.
  intros Htotal. unfold fetched, present_if_nonempty.
  destruct (orderBy le rows) as [|x items] eqn:E.
  - apply (orderBy_nil le). exact E.
  - rewrite <- E. split; [rewrite E; discriminate|].
    split; [apply orderBy_sorted; exact Htotal | apply orderBy_perm].
Qed.

(** C8. For every businessId, each of the four fetchers returns the rows of
    that business from its own table, Locations and Services by name
    ascending, Hours by dayOfWeek ascending, Reviews by creation time
    ascending, and returns no value at all (never an empty list) exactly when
    the business has no such rows. *)
Theorem fetchers_ordered_and_absent_when_empty (db : Store) (businessId : string) :
  fetched (getLocations db businessId)
    (fun a b => String.leb (l_name a) (l_name b) = true)
    (filter (fun l => String.eqb (l_businessId l) businessId) (locations db))
  /\ fetched (getHours db businessId)
       (fun a b => (h_dayOfWeek a <=? h_dayOfWeek b) = true)
       (filter (fun h => String.eqb (h_businessId h) businessId) (hours db))
  /\ fetched (getServices db businessId)
       (fun a b => String.leb (s_name a) (s_name b) = true)
       (filter (fun s => String.eqb (s_businessId s) businessId) (services db))
  /\ fetched (getReviews db businessId)
       (fun a b => (r_created_at a <=? r_created_at b) = true)
       (filter (fun r => String.eqb (r_businessId r) businessId) (reviews db)).
Proof.
  unfold getLocations, getHours, getServices, getReviews.
  repeat split.
  - apply present_if_nonempty_fetched.
    intros a b. apply string_leb_total.
  - apply present_if_nonempty_fetched.
    intros a b. apply Z_leb_total.
  - apply present_if_nonempty_fetched.
    intros a b. apply string_leb_total.
  - apply present_if_nonempty_fetched.
    intros a b. apply Z_leb_total.
Qed.

(* ------------------------------------------------------------------ *)
(** ** Search: the shape of the answer *)

(** Past the validation the handler runs the query once, hydrates every row
    and answers 404 on an empty list. *)
Lemma post_search_accepted (search : Search) (db : Store) :
  status (response (post_search search db)) <> 400 ->
  post_search search db
  = let results :=
      search_query search (sortBy_of search) (sortDirection_of search) db in
    mkOutcome
      (match map (hydrate db) results with
       | [] => NotFound404 no_match
       | _ => Ok200 (map (hydrate db) results)
       end)
      (1 + 4 * length results).
Proof.
  unfold post_search, sortBy_of, sortDirection_of, no_match.
  intros H.
  repeat match type of H with
         | context [if ?c then _ else _] =>
             destruct c eqn:?; cbn [response status] in H; try congruence
         end.
  all: reflexivity.
Qed.

Lemma firstn_In {A} (n : nat) (l : list A) (x : A) : In x (firstn n l) -> In x l.
Proof.
  intros H. rewrite <- (firstn_skipn n l). apply in_or_app. left. exact H.
Qed.


Lemma search_query_In (search : Search) (sortBy sortDirection : string) (db : Store)
    (b : BusinessRow) :
  In b (search_query search sortBy sortDirection db) ->
  In b (select_businesses db) /\ where_clause search db b = true.
Proof.
  unfold search_query. intros H.
  apply firstn_In in H.
  apply orderBy_In in H. apply filter_In in H. exact H.
Qed.


Lemma returned_accepted (search : Search) (db : Store) :
  status (response (post_search search db)) <> 400 ->
  returned (post_search search db)
  = map (hydrate db)
      (search_query search (sortBy_of search) (sortDirection_of search) db).
Proof.
  intros H. rewrite (post_search_accepted search db H).
  unfold returned. cbn [response].
  destruct (map (hydrate db) _); reflexivity.
Qed.

Lemma returned_rejected (search : Search) (db : Store) :
  status (response (post_search search db)) = 400 ->
  returned (post_search search db) = [].
Proof.
  unfold returned. destruct (response (post_search search db)); simpl; congruence.
Qed.

(** Every business sent back is the hydration of a stored row that passes
    the WHERE clause. *)
Lemma returned_In (search : Search) (db : Store) (v : BusinessView) :
  In v (returned (post_search search db)) ->
  exists b, v = hydrate db b /\ In b (select_businesses db)
            /\ where_clause search db b = true.
Proof.
  intros Hv.
  destruct (Z.eq_dec (status (response (post_search search db))) 400) as [E|E].
  - rewrite (returned_rejected _ _ E) in Hv. destruct Hv.
  - rewrite (returned_accepted _ _ E) in Hv.
    apply in_map_iff in Hv. destruct Hv as [b [Hb Hin]].
    apply search_query_In in Hin. exists b. split; [symmetry; exact Hb | exact Hin].
Qed.



(* ------------------------------------------------------------------ *)
(** ** Search: no filters, and the page size *)

Lemma filter_all {A} (f : A -> bool) (l : list A) :
  (forall x, f x = true) -> filter f l = l.
Proof.
  intros Hf. induction l as [|x l IH]; simpl.
  - reflexivity.
  - rewrite Hf, IH. reflexivity.
Qed.

Lemma map_insert_row {A B} (f : A -> B) (le : B -> B -> bool) (x : A) (l : list A) :
  map f (insert_row (fun a b => le (f a) (f b)) x l) = insert_row le (f x) (map f l).
Proof.
  induction l as [|y l IH]; simpl.
  - reflexivity.
  - destruct (le (f x) (f y)); simpl; [reflexivity | rewrite IH; reflexivity].
Qed.

Lemma map_orderBy {A B} (f : A -> B) (le : B -> B -> bool) (l : list A) :
  map f (orderBy (fun a b => le (f a) (f b)) l) = orderBy le (map f l).
Proof.
  induction l as [|x l IH]; simpl.
  - reflexivity.
  - rewrite map_insert_row, IH. reflexivity.
Qed.

Lemma select_businesses_rows (db : Store) :
  map row (select_businesses db) = businesses db.
Proof.
  unfold select_businesses. rewrite map_map. simpl. apply map_id.
Qed.

Lemma hydrate_rows (db : Store) (rows : list BusinessRow) :
  map v_business (map (hydrate db) rows) = map row rows.
Proof. rewrite map_map. reflexivity. Qed.

Lemma no_filters_accepted (db : Store) :
  status (response (post_search no_filters db)) <> 400.
Proof.
  unfold post_search. cbn [no_filters q_dayOfWeek q_hour q_sortBy q_sortDirection
    defined js_lt js_gt truthy negb andb orb response].
  destruct (map (hydrate db) _); cbn; discriminate.
Qed.

Lemma search_page_size (search : Search) (db : Store) :
  (length (returned (post_search search db)) <= MAX_BUSINESS_PER_PAGE)%nat.
Proof.
  destruct (Z.eq_dec (status (response (post_search search db))) 400) as [E|E].
  - rewrite (returned_rejected _ _ E). simpl. lia.
  - rewrite (returned_accepted _ _ E), length_map.
    unfold search_query. apply firstn_le_length.
Qed.

(** C9. A search without any filter field answers with the stored businesses
    sorted by name ascending, cut after the first 25 (all of them when there
    are at most 25); and no search ever sends back more than 25 businesses. *)
Theorem unfiltered_search_page (db : Store) :
  response (post_search no_filters db)
  = match returned (post_search no_filters db) with
    | [] => NotFound404 no_match
    | _ => Ok200 (returned (post_search no_filters db))
    end
  /\ map v_business (returned (post_search no_filters db))
     = firstn MAX_BUSINESS_PER_PAGE
         (orderBy (fun a b => String.leb (b_name a) (b_name b)) (businesses db))
  /\ Sorted (fun a b => String.leb (b_name a) (b_name b) = true)
       (map v_business (returned (post_search no_filters db)))
  /\ length (returned (post_search no_filters db))
     = Nat.min 25 (length (businesses db))
  /\ (exists rest,
        Permutation (businesses db)
          (map v_business (returned (post_search no_filters db)) ++ rest)
        /\ length rest = (length (businesses db) - 25)%nat)
  /\ forall search, (length (returned (post_search search db)) <= 25)%nat.
Proof.
  set (body := returned (post_search no_filters db)).
  set (by_name := fun a b => String.leb (b_name a) (b_name b)).
  pose proof (no_filters_accepted db) as Hvalid.
  assert (Hrows : map v_business body
                  = firstn MAX_BUSINESS_PER_PAGE (orderBy by_name (businesses db))).
  { unfold body. rewrite (returned_accepted _ _ Hvalid), hydrate_rows.
    unfold search_query. rewrite <- firstn_map. f_equal.
    rewrite filter_all by reflexivity.
    change (search_order (sortBy_of no_filters) (sortDirection_of no_filters))
      with (fun x y : BusinessRow => by_name (row x) (row y)).
    rewrite map_orderBy, select_businesses_rows. reflexivity. }
  split; [|split; [exact Hrows|split; [|split; [|split]]]].
  - unfold body, returned.
    rewrite (post_search_accepted _ _ Hvalid). cbn [response].
    destruct (map (hydrate db) _); reflexivity.
  - rewrite Hrows. apply Sorted_firstn.
    apply (orderBy_sorted by_name). intros a b. apply string_leb_total.
  - rewrite <- (length_map v_business), Hrows, length_firstn, orderBy_length.
    reflexivity.
  - exists (skipn MAX_BUSINESS_PER_PAGE (orderBy by_name (businesses db))).
    rewrite Hrows, firstn_skipn. split.
    + apply orderBy_perm.
    + rewrite length_skipn, orderBy_length. reflexivity.
  - intros search. apply search_page_size.
Qed.

(* ------------------------------------------------------------------ *)
(** ** Search: the hours filter *)




(** The example of the test suite: on Saturday at 8 the business whose only
    Saturday row is 9 to 12 is left out, the one open 8 to 18 is kept. *)
Example saturday_at_eight :
  let s := with_hours (Some 6) (Some 8) no_filters in
  Seed.names (post_search s Seed.store) = Some ["Sample Business #3"]
  /\ map (fun h => (h_dayOfWeek h, h_open h, h_close h))
       (filter (fun h => String.eqb (h_businessId h) "b2" && (h_dayOfWeek h =? 6))
          (hours Seed.store)) = [(6, 9, 12)]
  /\ map (fun h => (h_dayOfWeek h, h_open h, h_close h))
       (filter (fun h => String.eqb (h_businessId h) "b3" && (h_dayOfWeek h =? 6))
          (hours Seed.store)) = [(6, 8, 18)].
Proof. vm_compute. repeat split; reflexivity. Qed.

(* ------------------------------------------------------------------ *)
(** ** avgRating *)

Lemma round_half_away_close (x : Q) :
  (Qabs (inject_Z (round_half_away x) - x) <= 1 # 2)%Q.
Proof.
  apply Qabs_Qle_condition. unfold round_half_away.
  destruct (Qle_bool 0 x).
  - pose proof (Qfloor_le (x + (1 # 2))) as Hlo.
    pose proof (Qlt_floor (x + (1 # 2))) as Hhi.
    rewrite inject_Z_plus in Hhi. change (inject_Z 1) with 1%Q in Hhi.
    split; lra.
  - pose proof (Qfloor_le (- x + (1 # 2))) as Hlo.
    pose proof (Qlt_floor (- x + (1 # 2))) as Hhi.
    rewrite inject_Z_plus in Hhi. change (inject_Z 1) with 1%Q in Hhi.
    rewrite inject_Z_opp. split; lra.
Qed.

Lemma sql_round1_rounds (x : Q) : rounded_to_one_decimal x (sql_round1 x).
Proof.
  split.
  - exists (round_half_away (x * 10)). reflexivity.
  - pose proof (round_half_away_close (x * 10)) as H.
    apply Qabs_Qle_condition in H. apply Qabs_Qle_condition.
    unfold sql_round1.
    rewrite (Qmake_Qdiv (round_half_away (x * 10)) 10).
    change (inject_Z (Z.pos 10)) with 10%Q.
    unfold Qdiv. change (/ 10)%Q with (1 # 10)%Q.
    set (r := inject_Z (round_half_away (x * 10))) in *.
    split; lra.
Qed.

Lemma sql_avg_mean (l : list Q) :
  match sql_avg l with
  | None => l = []
  | Some m => l <> [] /\ is_mean l m
  end.
Proof.
  destruct l as [|x l]; [reflexivity|].
  unfold sql_avg, is_mean. split; [discriminate|].
  set (n := inject_Z (Z.of_nat (length (x :: l)))).
  rewrite Qmult_comm. apply Qmult_div_r.
  unfold n. intros H. apply (f_equal Qnum) in H || idtac.
  revert H. unfold Qeq, inject_Z. cbn [Qnum Qden length]. lia.
Qed.

Lemma avgRating_subquery_attached (db : Store) (id : string) :
  match ratings_of db id with
  | [] => avgRating_subquery db id = None
  | ratings =>
      exists q m,
        avgRating_subquery db id = Some q
        /\ is_mean ratings m /\ rounded_to_one_decimal m q
  end.
Proof.
  unfold avgRating_subquery. fold (ratings_of db id).
  pose proof (sql_avg_mean (ratings_of db id)) as H.
  destruct (ratings_of db id) as [|x l] eqn:E; [reflexivity|].
  destruct (sql_avg (x :: l)) as [m|] eqn:Em; [|discriminate H].
  exists (sql_round1 m), m. repeat split.
  - apply H.
  - exists (round_half_away (m * 10)). reflexivity.
  - apply sql_round1_rounds.
Qed.

Lemma select_businesses_avgRating (db : Store) (b : BusinessRow) :
  In b (select_businesses db) ->
  row_avgRating b = avgRating_subquery db (b_id (row b)).
Proof.
  unfold select_businesses. intros H. apply in_map_iff in H.
  destruct H as [x [<- _]]. reflexivity.
Qed.

Lemma hydrate_average_attached (db : Store) (b : BusinessRow) :
  In b (select_businesses db) -> average_attached db (hydrate db b).
Proof.
  intros H. unfold average_attached. cbn [hydrate v_business avgRating].
  rewrite (select_businesses_avgRating db b H).
  apply avgRating_subquery_attached.
Qed.

(** C2. The avgRating sent back by get-by-id and by search is, for a business
    with reviews, the arithmetic mean of its ratings rounded to one decimal
    place, and has no value for a business without reviews. *)
Theorem avgRating_is_rounded_mean (db : Store) :
  (forall id,
      match get_business id db with
      | Ok200 v => b_id (v_business v) = id /\ average_attached db v
      | NotFound404 _ => businessCount db id = 0%nat
      | _ => False
      end)
  /\ (forall search,
        Forall (average_attached db) (returned (post_search search db))).
Proof.
  split.
  - intros id. unfold get_business, businessCount.
    destruct (filter (fun b => String.eqb (b_id (row b)) id) (select_businesses db))
      as [|b rest] eqn:E.
    + cbn [map].
      assert (Hlen : length (map row (filter (fun b => String.eqb (b_id (row b)) id)
                                        (select_businesses db))) = 0%nat)
        by (rewrite E; reflexivity).
      unfold select_businesses in Hlen.
      clear E. induction (businesses db) as [|x l IH]; [reflexivity|].
      cbn [map filter row] in Hlen |- *.
      destruct (String.eqb (b_id x) id); [discriminate Hlen|].
      apply IH. exact Hlen.
    + cbn [map].
      assert (Hb : In b (filter (fun b => String.eqb (b_id (row b)) id)
                           (select_businesses db)))
        by (rewrite E; left; reflexivity).
      apply filter_In in Hb. destruct Hb as [Hin Hid].
      split.
      * apply String.eqb_eq. exact Hid.
      * apply hydrate_average_attached. exact Hin.
  - intros search. apply Forall_forall. intros v Hv.
    apply returned_In in Hv. destruct Hv as [b [-> [Hin _]]].
    apply hydrate_average_attached. exact Hin.
Qed.

Example seed_averages :
  map (fun b => avgRating_subquery Seed.store (b_id b)) (businesses Seed.store)
  = [Some (42 # 10); Some (37 # 10); Some (50 # 10)]
  /\ avgRating_subquery Seed.store "nobody" = None.
Proof. vm_compute. split; reflexivity. Qed.

(* ------------------------------------------------------------------ *)
(** ** Search: the rating filter *)

(** C6. With a rating in the search, every business sent back has an
    avgRating, that avgRating is the computed one and is at least the given
    value; a business without reviews is never sent back, whatever the
    value, 0 included. *)
Theorem rating_filter_needs_average (search : Search) (db : Store) (rating : Q) :
  Forall
    (fun v =>
       (exists avg,
           avgRating v = Some avg
           /\ avgRating_subquery db (b_id (v_business v)) = Some avg
           /\ (rating <= avg)%Q)
       /\ ratings_of db (b_id (v_business v)) <> [])
    (returned (post_search (with_rating (Some rating) search) db)).
Proof.
  apply Forall_forall. intros v Hv.
  apply returned_In in Hv. destruct Hv as [b [-> [Hin Hw]]].
  unfold where_clause in Hw. apply andb_true_iff in Hw. destruct Hw as [_ Hr].
  unfold rating_filter in Hr. cbn [with_rating q_rating] in Hr.
  cbn [hydrate v_business avgRating].
  pose proof (select_businesses_avgRating db b Hin) as Havg.
  pose proof (avgRating_subquery_attached db (b_id (row b))) as Hsub.
  destruct (row_avgRating b) as [avg|] eqn:E; [|discriminate Hr].
  split.
  - exists avg. repeat split.
    + symmetry. exact Havg.
    + apply Qle_bool_iff. exact Hr.
  - intros Hnone. rewrite Hnone in Hsub. congruence.
Qed.

Example seed_service_and_rating :
  Seed.names
    (post_search
       (mkSearch None None None None None None None None (Some "clean") None
          (Some (37 # 10)%Q) (Some "rating") (Some "desc"))
       Seed.store)
  = Some ["Sample Business #1"; "Sample Business #2"].
Proof. vm_compute. reflexivity. Qed.

Example rating_zero_leaves_out_unreviewed :
  let db := mkStore
              [Seed.business "b9" "New Business" "1 Main St" "" "Denver" "CO" "80000"]
              [] [] [] [] in
  Seed.names (post_search no_filters db) = Some ["New Business"]
  /\ status (response (post_search (with_rating (Some 0%Q) no_filters) db)) = 404.
Proof. vm_compute. split; reflexivity. Qed.

(* ------------------------------------------------------------------ *)
(** ** Search: validation *)

Lemma post_search_rejects (search : Search) (db : Store) :
  match response (post_search search db) with
  | BadRequest400 _ => rejects search = true /\ queries (post_search search db) = 0%nat
  | Ok200 _ | NotFound404 _ =>
      rejects search = false /\ (1 <= queries (post_search search db))%nat
  | Error500 => False
  end.
Proof.
  unfold post_search, rejects, sortBy_of, sortDirection_of.
  repeat match goal with
         | |- context [if ?c then mkOutcome _ _ else _] =>
             destruct c eqn:?; cbn [response queries];
             [split; [rewrite ?orb_true_r; reflexivity | reflexivity]|]
         end.
  cbn [orb].
  destruct (map (hydrate db) _); cbn [response queries]; split;
    solve [reflexivity | lia].
Qed.

Lemma status_400_rejects (search : Search) (db : Store) :
  status (response (post_search search db)) = 400 <-> rejects search = true.
Proof.
  pose proof (post_search_rejects search db) as H.
  destruct (response (post_search search db)); cbn [status];
    split; intros E; try discriminate; try tauto;
    destruct H as [H _]; congruence.
Qed.

Lemma defined_iff {A} (v : option A) : defined v = true <-> v <> None.
Proof. destruct v; simpl; split; congruence. Qed.

Lemma not_defined_iff {A} (v : option A) : negb (defined v) = true <-> v = None.
Proof. destruct v; simpl; split; congruence. Qed.

Lemma outside_iff (v : option Z) (lo hi : Z) :
  js_lt v lo || js_gt v hi = true <-> exists x, v = Some x /\ (x < lo \/ hi < x).
Proof.
  destruct v as [x|]; simpl.
  - rewrite orb_true_iff. split.
    + intros H. exists x. split; [reflexivity | lia].
    + intros [y [E H]]. inversion E; subst. lia.
  - split; [discriminate | intros [y [E _]]; discriminate].
Qed.

Lemma sort_guard_iff (v : option string) (fallback allowed1 allowed2 : string) :
  truthy v
  && negb (String.eqb (if truthy v then toLowerCase (or_default v "") else fallback)
             allowed1)
  && negb (String.eqb (if truthy v then toLowerCase (or_default v "") else fallback)
             allowed2) = true
  <-> exists s, v = Some s /\ s <> "" /\ unsupported allowed1 allowed2 s.
Proof.
  unfold unsupported. destruct v as [s|]; cbn [truthy or_default].
  - destruct (String.eqb_spec s "") as [E|E]; cbn [negb andb].
    + split; [discriminate | intros [s' [E' [Hne _]]]]. inversion E'; subst. tauto.
    + rewrite andb_true_iff, !negb_true_iff, !String.eqb_neq.
      split.
      * intros [H1 H2]. exists s. tauto.
      * intros [s' [E' [_ H]]]. inversion E'; subst. exact H.
  - split; [discriminate | intros [s' [E' _]]; discriminate].
Qed.

Lemma rejects_invalid (search : Search) :
  rejects search = true <-> invalid_search search.
Proof.
  unfold rejects, invalid_search, hours_invalid, sortBy_of, sortDirection_of.
  rewrite !orb_true_iff.
  rewrite !(andb_true_iff (defined _)), !(andb_true_iff (negb (defined _))).
  rewrite !defined_iff, !not_defined_iff.
  rewrite <- !orb_true_iff, !outside_iff, !sort_guard_iff.
  tauto.
Qed.

(** C4 (as amended). A search is answered 400 exactly when exactly one of
    dayOfWeek and hour is supplied, or dayOfWeek is outside [0,6], or hour is
    outside [0,23], or sortBy is a non-empty string whose lowercase form is
    neither 'name' nor 'rating', or sortDirection is a non-empty string whose
    lowercase form is neither 'asc' nor 'desc'; a 400 answer sends no query
    to the store and every other answer sends at least one; an absent or
    empty sortBy stands for 'name', an absent or empty sortDirection for
    'asc'. *)
Theorem search_validation (search : Search) (db : Store) :
  (status (response (post_search search db)) = 400 <-> invalid_search search)
  /\ match response (post_search search db) with
     | BadRequest400 _ => queries (post_search search db) = 0%nat
     | _ => (1 <= queries (post_search search db))%nat
     end
  /\ post_search (with_sort None (q_sortDirection search) search) db
     = post_search (with_sort (Some "name") (q_sortDirection search) search) db
  /\ post_search (with_sort (Some "") (q_sortDirection search) search) db
     = post_search (with_sort (Some "name") (q_sortDirection search) search) db
  /\ post_search (with_sort (q_sortBy search) None search) db
     = post_search (with_sort (q_sortBy search) (Some "asc") search) db
  /\ post_search (with_sort (q_sortBy search) (Some "") search) db
     = post_search (with_sort (q_sortBy search) (Some "asc") search) db.
Proof.
  split; [|split].
  - rewrite status_400_rejects. apply rejects_invalid.
  - pose proof (post_search_rejects search db) as H.
    destruct (response (post_search search db)); tauto.
  - repeat split; reflexivity.
Qed.

(** An empty sortBy is supplied and is not a supported value, yet the search
    is answered 200: the claim as the specification words it fails. *)
Lemma empty_sortBy_is_accepted :
  q_sortBy empty_sortBy = Some ""
  /\ stated_invalid_search empty_sortBy
  /\ status (response (post_search empty_sortBy Seed.store)) = 200.
Proof.
  split; [reflexivity|split].
  - right. left. exists "". repeat split; discriminate.
  - vm_compute. reflexivity.
Qed.

(* ------------------------------------------------------------------ *)
(** ** Create: the transaction *)

Section InsertFacts.
Context {A : Type}.
Variable conflict : A -> A -> bool.

Lemma insert_rows_clear (rows table table' : list A) :
  insert_rows conflict rows table = Some table' ->
  forall r x, In r rows -> In x table -> conflict r x = false.
Proof.
  revert table. induction rows as [|r0 rows IH]; intros table H r x Hr Hx.
  - destruct Hr.
  - cbn [insert_rows] in H.
    destruct (existsb (conflict r0) table) eqn:E; [discriminate|].
    destruct Hr as [<-|Hr].
    + destruct (conflict r0 x) eqn:Ec; [|reflexivity].
      assert (existsb (conflict r0) table = true)
        by (apply existsb_exists; exists x; split; assumption).
      congruence.
    + apply (IH _ H r x Hr). apply in_or_app. left. exact Hx.
Qed.

Lemma insert_rows_pairwise (rows table table' : list A) (i j : nat) (ri rj : A) :
  insert_rows conflict rows table = Some table' ->
  (i < j)%nat -> rows !! i = Some ri -> rows !! j = Some rj ->
  conflict rj ri = false.
Proof.
  revert table i j. induction rows as [|r0 rows IH]; intros table i j H Hij Hi Hj.
  - discriminate Hi.
  - cbn [insert_rows] in H.
    destruct (existsb (conflict r0) table) eqn:E; [discriminate|].
    destruct j as [|j]; [lia|]. cbn in Hj.
    destruct i as [|i].
    + cbn in Hi. inversion Hi; subst r0.
      apply (insert_rows_clear _ _ _ H).
      * apply list_elem_of_In. eapply list_elem_of_lookup_2. exact Hj.
      * apply in_or_app. right. left. reflexivity.
    + cbn in Hi. apply (IH _ i j H); [lia | exact Hi | exact Hj].
Qed.
End InsertFacts.

Lemma hour_row_keys (now : Timestamp) (id businessId : string) (x : HourItem) (h : Hour) :
  hour_row now (assign_ids id businessId x) = Some h ->
  h_businessId h = businessId /\ Some (h_dayOfWeek h) = hi_dayOfWeek x.
Proof.
  unfold hour_row, assign_ids, HourItem_ids. cbn.
  destruct (hi_dayOfWeek x), (hi_open x), (hi_close x); cbn; try discriminate.
  intros H. inversion H; subst. cbn. split; reflexivity.
Qed.

(** Two nested Hours for the same day make the insert into [hours] fail. *)
Lemma insert_hours_duplicate_day (uuid : nat -> string) (next : nat)
    (now : Timestamp) (businessId : string) (items : list HourItem)
    (table : list Hour) (i j : nat) (x y : HourItem) :
  (i < j)%nat -> items !! i = Some x -> items !! j = Some y ->
  hi_dayOfWeek x = hi_dayOfWeek y ->
  insert_if_any (hour_row now) hour_conflict
    (addIds uuid next (Some items) businessId) table = None.
Proof.
  intros Hij Hi Hj Hday.
  destruct items as [|x0 items0] eqn:Eitems; [discriminate Hi|].
  rewrite <- Eitems in *. clear x0 items0 Eitems.
  set (f := fun (k : nat) (item : HourItem) =>
              assign_ids (uuid (next + k)%nat) businessId item).
  assert (Hadd : addIds uuid next (Some items) businessId = Some (imap f items)).
  { destruct items; [discriminate Hi | reflexivity]. }
  rewrite Hadd.
  assert (Hins : insert_if_any (hour_row now) hour_conflict (Some (imap f items)) table
                 = insert_items (hour_row now) hour_conflict (imap f items) table).
  { destruct items; [discriminate Hi | reflexivity]. }
  rewrite Hins. unfold insert_items.
  destruct (mapM (hour_row now) (imap f items)) as [rows|] eqn:Erows; [|reflexivity].
  cbn. destruct (insert_rows hour_conflict rows table) as [table'|] eqn:E;
    [exfalso|reflexivity].
  apply mapM_Some in Erows.
  assert (Hfi : imap f items !! i = Some (f i x))
    by (rewrite list_lookup_imap, Hi; reflexivity).
  assert (Hfj : imap f items !! j = Some (f j y))
    by (rewrite list_lookup_imap, Hj; reflexivity).
  destruct (Forall2_lookup_l _ _ _ _ _ Erows Hfi) as [ri [Hri Hrow_i]].
  destruct (Forall2_lookup_l _ _ _ _ _ Erows Hfj) as [rj [Hrj Hrow_j]].
  apply hour_row_keys in Hrow_i. apply hour_row_keys in Hrow_j.
  destruct Hrow_i as [Hbi Hdi], Hrow_j as [Hbj Hdj].
  pose proof (insert_rows_pairwise hour_conflict _ _ _ _ _ _ _ E Hij Hri Hrj) as Hc.
  unfold hour_conflict in Hc. apply orb_false_iff in Hc. destruct Hc as [_ Hc].
  rewrite Hbi, Hbj, String.eqb_refl in Hc. cbn in Hc.
  assert (h_dayOfWeek rj = h_dayOfWeek ri) by congruence.
  lia.
Qed.

(** A create that does not answer 200 leaves the store as it was. *)
Lemma create_failure_leaves_store (uuid : nat -> string) (now : Timestamp)
    (body : BusinessBody) (db : Store) :
  status (fst (post_business uuid now body db)) <> 200 ->
  snd (post_business uuid now body db) = db.
Proof.
  unfold post_business.
  destruct (negb (truthy (p_name body))); [reflexivity|].
  match goal with |- context [match ?t with Some _ => _ | None => _ end] =>
    destruct t end; cbn; [congruence | reflexivity].
Qed.

(** X24. For every POST /businesses request whose body holds two nested
    Hours with the same dayOfWeek, the create rolls back the whole
    transaction and leaves no partial state: the store after the request is
    the store before it, so neither the Business nor any nested row exists,
    and the answer is 500 (400 when the name is missing). *)
Theorem duplicate_day_rolls_back (uuid : nat -> string) (now : Timestamp)
    (body : BusinessBody) (db : Store) (items : list HourItem) (i j : nat)
    (x y : HourItem) :
  p_hours body = Some items ->
  (i < j)%nat -> items !! i = Some x -> items !! j = Some y ->
  hi_dayOfWeek x = hi_dayOfWeek y ->
  post_business uuid now body db
  = (if truthy (p_name body)
     then Error500
     else BadRequest400 "Business name must be specified",
     db).
Proof.
  intros Hitems Hij Hi Hj Hday.
  unfold post_business.
  destruct (truthy (p_name body)); cbn [negb]; [|reflexivity].
  rewrite Hitems.
  rewrite (insert_hours_duplicate_day uuid _ now (uuid 0%nat) items (hours db)
             i j x y Hij Hi Hj Hday).
  destruct (insert_rows business_conflict _ (businesses db)); cbn; [|reflexivity].
  destruct (insert_if_any (location_row now) location_conflict _ (locations db));
    reflexivity.
Qed.

Lemma duplicate_day_rolls_back_witness :
  p_hours duplicate_day_body
  = Some [mkHourItem None None (Some 1) (Some 8) (Some 13);
          mkHourItem None None (Some 1) (Some 14) (Some 18)]
  /\ post_business sample_uuid 7 duplicate_day_body Seed.store
     = (Error500, Seed.store).
Proof.
  split; [reflexivity|].
  apply (duplicate_day_rolls_back sample_uuid 7 duplicate_day_body Seed.store
           [mkHourItem None None (Some 1) (Some 8) (Some 13);
            mkHourItem None None (Some 1) (Some 14) (Some 18)]
           0%nat 1%nat
           (mkHourItem None None (Some 1) (Some 8) (Some 13))
           (mkHourItem None None (Some 1) (Some 14) (Some 18))
           eq_refl).
  - lia.
  - reflexivity.
  - reflexivity.
  - reflexivity.
Defined.

(** C1. The create does not check a nested Hour: on the seed data a body
    whose only nested Hour has open 18 and close 9 is answered 200, and the
    Business and that Hour, with open >= close, are in the store afterwards.
    Nothing is rolled back; the hours routes refuse the same Hour with 400
    ([inverted_hour_is_refused_by_the_hours_routes]). *)
Lemma create_with_inverted_hour_is_stored :
  Exists (fun h => hi_open h = Some 18 /\ hi_close h = Some 9)
    (match p_hours inverted_hour_body with Some items => items | None => [] end)
  /\ fst (post_business sample_uuid 7 inverted_hour_body Seed.store) = Ok200 "a"
  /\ existsb (fun b => String.eqb (b_id b) "a")
       (businesses (snd (post_business sample_uuid 7 inverted_hour_body Seed.store)))
     = true
  /\ existsb (fun h => String.eqb (h_businessId h) "a" && (h_open h >=? h_close h))
       (hours (snd (post_business sample_uuid 7 inverted_hour_body Seed.store)))
     = true.
Proof.
  split; [left; split; reflexivity|].
  vm_compute. repeat split; reflexivity.
Qed.

(** The same for any name, day, open and close: nothing in the create reads
    [open] or [close], so a lone nested Hour is stored as it is whenever the
    keys of the two new rows are free. *)
Lemma create_stores_a_lone_hour (uuid : nat -> string) (now : Timestamp)
    (name : string) (d o c : Z) (db : Store) :
  name <> "" ->
  existsb (business_conflict (mkBusiness (uuid 0%nat) name None None None None None now now))
    (businesses db) = false ->
  existsb (hour_conflict (mkHour (uuid 1%nat) (uuid 0%nat) d o c now now)) (hours db)
  = false ->
  post_business uuid now
    (mkBody (Some name) None None None None None None
       (Some [mkHourItem None None (Some d) (Some o) (Some c)]) None None) db
  = (Ok200 (uuid 0%nat),
     mkStore
       (businesses db ++ [mkBusiness (uuid 0%nat) name None None None None None now now])
       (locations db)
       (hours db ++ [mkHour (uuid 1%nat) (uuid 0%nat) d o c now now])
       (services db) (reviews db)).
Proof.
  intros Hname Hb Hh. unfold post_business.
  cbn [p_name p_locations p_hours p_services p_reviews p_addressLine1 p_addressLine2
         p_city p_state p_postal truthy or_default drawn addIds imap length Nat.add].
  apply String.eqb_neq in Hname. rewrite Hname. cbn [negb].
  cbn [insert_rows]. rewrite Hb. cbn [mbind option_bind insert_if_any].
  unfold insert_items.
  cbn [mapM hour_row assign_ids HourItem_ids hi_id hi_businessId hi_dayOfWeek hi_open
         hi_close mbind option_bind mret option_ret fmap option_fmap option_map].
  cbn [insert_rows]. rewrite Hh. reflexivity.
Qed.

(** The same Hour sent to the hours routes of an existing business is
    answered 400 by the POST and by the PUT, and nothing is stored. *)
Example inverted_hour_is_refused_by_the_hours_routes :
  post_hour sample_uuid 7 "b2" inverted_hour Seed.store
  = (BadRequest400 "Hour open must be < close", Seed.store)
  /\ Hours.put "b2" "h21" inverted_hour Seed.store
     = (BadRequest400 "Hour open must be < close", Seed.store).
Proof. split; reflexivity. Qed.

Example seed_create_with_dependant_data :
  let body :=
    mkBody (Some "ZZZ") (Some "123 Main Street") None (Some "Denver") (Some "CO") None
      (Some [mkLocationItem None None (Some "Denver");
             mkLocationItem None None (Some "Colorado Springs");
             mkLocationItem None None (Some "Durango")])
      (Some [mkHourItem None None (Some 1) (Some 8) (Some 13);
             mkHourItem None None (Some 3) (Some 8) (Some 13);
             mkHourItem None None (Some 5) (Some 8) (Some 13)])
      (Some [mkServiceItem None None (Some "Drywall");
             mkServiceItem None None (Some "Snow Removal");
             mkServiceItem None None (Some "Gardening")])
      (Some [mkReviewItem None None (Some 2%Q) (Value "Late and expensive");
             mkReviewItem None None (Some 5%Q) (Value "Simply Great!")]) in
  let r := post_business sample_uuid 7 body Seed.store in
  fst r = Ok200 "a"
  /\ match get_business "a" (snd r) with
     | Ok200 v =>
         option_map (map l_name) (v_locations v)
         = Some ["Colorado Springs"; "Denver"; "Durango"]
         /\ option_map (map h_dayOfWeek) (v_hours v) = Some [1; 3; 5]
         /\ option_map (map s_name) (v_services v)
            = Some ["Drywall"; "Gardening"; "Snow Removal"]
         /\ option_map (map r_comment) (v_reviews v)
            = Some [Some "Late and expensive"; Some "Simply Great!"]
         /\ avgRating v = Some (35 # 10)
     | _ => False
     end.
Proof. vm_compute. repeat split; reflexivity. Qed.

Example seed_create_without_dependant_data :
  let body := mkBody (Some "ZZZ") (Some "123 Main Street") None (Some "Denver")
                (Some "CO") None None None None None in
  match get_business "a" (snd (post_business sample_uuid 7 body Seed.store)) with
  | Ok200 v =>
      v_locations v = None /\ v_hours v = None /\ v_services v = None
      /\ v_reviews v = None /\ avgRating v = None
  | _ => False
  end.
Proof. vm_compute. repeat split; reflexivity. Qed.

(* ------------------------------------------------------------------ *)
(** ** Update of a business: the guard *)

(** C3. A PUT whose body supplies addressLine2 and nothing else is answered
    400 and the store is left as it was: the guard reads the property
    [addressline2], which such a body does not have. *)
Theorem put_addressLine2_only_is_rejected (now : Timestamp) (id value : string)
    (db : Store) :
  put_business now id {[ "addressLine2" := value ]} db
  = (BadRequest400 no_attribute, db).
Proof.
  unfold put_business.
  rewrite !lookup_singleton_ne by discriminate.
  reflexivity.
Qed.

(** The other side of the same slip: a body with only the property
    [addressline2] passes the guard, and then changes nothing but
    [updated_at]. *)
Example put_addressline2_lowercase_passes :
  fst (put_business 9 "b2" {[ "addressline2" := "Suite 9" ]} Seed.store) = Ok200 tt
  /\ map b_addressLine2
       (businesses (snd (put_business 9 "b2" {[ "addressline2" := "Suite 9" ]}
                           Seed.store)))
     = map b_addressLine2 (businesses Seed.store).
Proof. vm_compute. split; reflexivity. Qed.

Example put_name_renames :
  map b_name (businesses (snd (put_business 9 "b2" {[ "name" := "ZZZ" ]} Seed.store)))
  = ["Sample Business #1"; "ZZZ"; "Sample Business #3"].
Proof. vm_compute. reflexivity. Qed.

Lemma put_business_400_leaves_store (now : Timestamp) (id : string)
    (body : gmap string string) (db : Store) :
  status (fst (put_business now id body db)) = 400 ->
  snd (put_business now id body db) = db.
Proof.
  unfold put_business.
  repeat match goal with
         | |- context [if ?c then (_, _) else _] => destruct c; [reflexivity|]
         end.
  destruct (update_rows _ _ _ _); cbn; [discriminate | reflexivity].
Qed.

(* ------------------------------------------------------------------ *)
(** ** The child routes: a write that matches no row *)

Section StatementFacts.
Context {A : Type}.
Variable conflict : A -> A -> bool.

Lemma update_rows_no_match (matching : A -> bool) (set : A -> A) (table : list A) :
  Forall (fun r => matching r = false) table ->
  update_rows conflict matching set table = Some table.
Proof.
  intros H. unfold update_rows.
  assert (Hmap : map (fun r => if matching r then set r else r) table = table).
  { induction H as [|r table Hr _ IH]; cbn; [reflexivity|].
    rewrite Hr, IH. reflexivity. }
  rewrite Hmap.
  assert (Hex : forall g : A -> bool,
             existsb (fun r => matching r && g r) table = false).
  { intros g. clear Hmap.
    induction H as [|r table Hr _ IH]; cbn; [reflexivity|].
    rewrite Hr, IH. reflexivity. }
  rewrite Hex. reflexivity.
Qed.

Lemma delete_rows_no_match (matching : A -> bool) (table : list A) :
  Forall (fun r => matching r = false) table ->
  delete_rows matching table = table.
Proof.
  intros H. unfold delete_rows.
  induction H as [|r table Hr _ IH]; cbn; [reflexivity|].
  rewrite Hr, IH. reflexivity.
Qed.
End StatementFacts.

Lemma no_match_keys {A} (key_id key_businessId : A -> string)
    (businessId id : string) (table : list A) :
  Forall (fun r => ~ (key_id r = id /\ key_businessId r = businessId)) table ->
  Forall (fun r => String.eqb (key_id r) id
                   && String.eqb (key_businessId r) businessId = false) table.
Proof.
  apply Forall_impl. intros r Hr.
  destruct (String.eqb_spec (key_id r) id), (String.eqb_spec (key_businessId r) businessId);
    cbn; try reflexivity.
  exfalso. apply Hr. split; assumption.
Qed.

Lemma store_eta (db : Store) :
  mkStore (businesses db) (locations db) (hours db) (services db) (reviews db) = db.
Proof. destruct db; reflexivity. Qed.

(** C10 (as amended). For every child DELETE, and for every child PUT whose
    body passes the field validation of its route and whose statement the
    store takes, if the parent business exists but no child row with the
    given id belongs to that business, the answer is 200, not 404, and the
    store is left unchanged. *)
Theorem write_to_missing_child_succeeds (default_keyword : bool) (now : Timestamp)
    (w : ChildWrite) (businessId id : string) (db : Store) :
  (1 <= businessCount db businessId)%nat ->
  no_such_child w businessId id db ->
  status (fst (child_write default_keyword now w businessId id db)) <> 400 ->
  statement_accepted default_keyword w ->
  child_write default_keyword now w businessId id db = (Ok200 tt, db).
Proof.
  intros Hparent Hnone Hvalid Haccepted.
  assert (Hcount : (businessCount db businessId <? 1)%nat = false)
    by (apply Nat.ltb_ge; exact Hparent).
  destruct w; cbn [child_write no_such_child statement_accepted] in *.
  - apply (no_match_keys h_id h_businessId) in Hnone.
    unfold Hours.put in *.
    repeat match goal with
           | |- context [if ?c then (BadRequest400 _, _) else _] =>
               destruct c; [cbn in Hvalid; congruence|]
           end.
    rewrite Hcount, (update_rows_no_match _ _ _ _ Hnone), store_eta. reflexivity.
  - apply (no_match_keys h_id h_businessId) in Hnone.
    unfold Hours.del.
    rewrite Hcount, (delete_rows_no_match _ _ Hnone), store_eta. reflexivity.
  - apply (no_match_keys l_id l_businessId) in Hnone.
    unfold Locations.put in *.
    destruct (negb (truthy (li_name location))); [cbn in Hvalid; congruence|].
    rewrite Hcount, (update_rows_no_match _ _ _ _ Hnone), store_eta. reflexivity.
  - apply (no_match_keys l_id l_businessId) in Hnone.
    unfold Locations.del.
    rewrite Hcount, (delete_rows_no_match _ _ Hnone), store_eta. reflexivity.
  - apply (no_match_keys s_id s_businessId) in Hnone.
    unfold Services.put in *.
    destruct (negb (truthy (si_name service))); [cbn in Hvalid; congruence|].
    rewrite Hcount, (update_rows_no_match _ _ _ _ Hnone), store_eta. reflexivity.
  - apply (no_match_keys s_id s_businessId) in Hnone.
    unfold Services.del.
    rewrite Hcount, (delete_rows_no_match _ _ Hnone), store_eta. reflexivity.
  - apply (no_match_keys r_id r_businessId) in Hnone.
    unfold Reviews.put in *.
    destruct (Reviews.rating_invalid (ri_rating review)); [cbn in Hvalid; congruence|].
    rewrite Hcount.
    assert (Hsent : match ri_comment review with
                    | Null => negb default_keyword
                    | _ => false
                    end = false).
    { destruct (ri_comment review); try reflexivity.
      rewrite Haccepted; reflexivity. }
    rewrite Hsent, (update_rows_no_match _ _ _ _ Hnone), store_eta. reflexivity.
  - apply (no_match_keys r_id r_businessId) in Hnone.
    unfold Reviews.del.
    rewrite Hcount, (delete_rows_no_match _ _ Hnone), store_eta. reflexivity.
Qed.

Lemma write_to_missing_child_succeeds_witness :
  (1 <= businessCount Seed.store "b2")%nat
  /\ child_write false 9 (PutHour valid_hour) "b2" "h11" Seed.store
     = (Ok200 tt, Seed.store).
Proof.
  split; [vm_compute; lia|].
  apply (write_to_missing_child_succeeds false 9 (PutHour valid_hour) "b2" "h11"
           Seed.store).
  - vm_compute. lia.
  - cbn [no_such_child]. apply Forall_forall. intros h Hin [Hid Hb].
    revert Hin. cbn. intros Hin.
    repeat (destruct Hin as [<-|Hin]; [cbn in Hid, Hb; congruence|]).
    destruct Hin.
  - vm_compute. discriminate.
  - exact I.
Defined.

(** A PUT on an hour that does not exist under an existing business, with a
    body that closes before it opens, is answered 400, not 200. *)
Lemma put_missing_hour_with_invalid_body :
  (1 <= businessCount Seed.store "b2")%nat
  /\ forallb (fun h => negb (String.eqb (h_id h) "nope" && String.eqb (h_businessId h) "b2"))
       (hours Seed.store) = true
  /\ status (fst (child_write false 9 (PutHour inverted_hour) "b2" "nope" Seed.store))
     = 400.
Proof. vm_compute. repeat split; solve [reflexivity | lia]. Qed.

(* ================================================================== *)
(** * Further properties of the routes *)

(** ** The child routes against their test suites *)

Example seed_list_hours :
  match list_hours "b2" Seed.store with
  | Ok200 l => map (fun h => (h_dayOfWeek h, h_open h, h_close h)) l
               = [(1, 10, 19); (2, 9, 19); (3, 10, 19); (4, 9, 19); (5, 10, 19); (6, 9, 12)]
  | _ => False
  end.
Proof. vm_compute. reflexivity. Qed.

Example seed_post_hour :
  match list_hours "b2" (snd (post_hour sample_uuid 7 "b2" valid_hour Seed.store)) with
  | Ok200 l => length l = 7%nat
               /\ option_map (fun h => (h_dayOfWeek h, h_open h, h_close h)) (head l)
                  = Some (0, 11, 16)
  | _ => False
  end.
Proof. vm_compute. split; reflexivity. Qed.

Example seed_post_location :
  match list_locations "b2"
          (snd (post_location sample_uuid 7 "b2" (mkLocationItem None None (Some "AAA"))
                  Seed.store)) with
  | Ok200 l => length l = 7%nat /\ option_map l_name (head l) = Some "AAA"
  | _ => False
  end.
Proof. vm_compute. split; reflexivity. Qed.

Example seed_delete_business :
  fst (delete_business true "b2" Seed.store) = Ok200 tt
  /\ status (get_business "b2" (snd (delete_business true "b2" Seed.store))) = 404.
Proof. vm_compute. split; reflexivity. Qed.

(* ------------------------------------------------------------------ *)
(** ** What a business looks like from outside *)

(** The answer of get-by-id only depends on the rows of the five tables that
    carry the id. *)
Lemma get_business_rows (id : string) (db : Store) :
  get_business id db
  = match map (fun b => mkView b (avgRating_subquery db id) (getLocations db id)
                          (getHours db id) (getServices db id) (getReviews db id))
            (filter (fun b => String.eqb (b_id b) id) (businesses db)) with
    | v :: _ => Ok200 v
    | [] => NotFound404 "The specified business does not exist"
    end.
Proof.
  unfold get_business, select_businesses.
  induction (businesses db) as [|b l IH]; [reflexivity|].
  cbn [map filter row].
  destruct (String.eqb_spec (b_id b) id) as [E|E].
  - cbn [map]. unfold hydrate. cbn [row row_avgRating]. rewrite E. reflexivity.
  - exact IH.
Qed.

Lemma get_business_ext (id : string) (db1 db2 : Store) :
  filter (fun b => String.eqb (b_id b) id) (businesses db1)
  = filter (fun b => String.eqb (b_id b) id) (businesses db2) ->
  filter (fun l => String.eqb (l_businessId l) id) (locations db1)
  = filter (fun l => String.eqb (l_businessId l) id) (locations db2) ->
  filter (fun h => String.eqb (h_businessId h) id) (hours db1)
  = filter (fun h => String.eqb (h_businessId h) id) (hours db2) ->
  filter (fun s => String.eqb (s_businessId s) id) (services db1)
  = filter (fun s => String.eqb (s_businessId s) id) (services db2) ->
  filter (fun r => String.eqb (r_businessId r) id) (reviews db1)
  = filter (fun r => String.eqb (r_businessId r) id) (reviews db2) ->
  get_business id db1 = get_business id db2.
Proof.
  intros Hb Hl Hh Hs Hr. rewrite !get_business_rows.
  unfold avgRating_subquery, getLocations, getHours, getServices, getReviews.
  rewrite Hb, Hl, Hh, Hs, Hr. reflexivity.
Qed.

Lemma businessCount_zero_not_found (id : string) (db : Store) :
  businessCount db id = 0%nat ->
  get_business id db = NotFound404 "The specified business does not exist".
Proof.
  unfold businessCount. intros H. rewrite get_business_rows.
  apply length_zero_iff_nil in H. rewrite H. reflexivity.
Qed.

Lemma filter_delete_rows_same {A} (p : A -> bool) (table : list A) :
  filter p (delete_rows p table) = [].
Proof.
  unfold delete_rows. induction table as [|x l IH]; [reflexivity|].
  cbn [filter]. destruct (p x) eqn:E; cbn [negb filter]; [exact IH|].
  rewrite E. exact IH.
Qed.

Lemma filter_delete_rows_other {A} (p q : A -> bool) (table : list A) :
  (forall x, p x = true -> q x = false) ->
  filter p (delete_rows q table) = filter p table.
Proof.
  intros H. unfold delete_rows. induction table as [|x l IH]; [reflexivity|].
  cbn [filter]. destruct (q x) eqn:Eq; cbn [negb filter].
  - destruct (p x) eqn:Ep; [|exact IH].
    rewrite (H x Ep) in Eq. discriminate.
  - rewrite IH. reflexivity.
Qed.

Lemma filter_cascade_other {A} (foreign_keys : bool) (owner : A -> string)
    (id id' : string) (table : list A) :
  id' <> id ->
  filter (fun r => String.eqb (owner r) id') (cascade foreign_keys owner id table)
  = filter (fun r => String.eqb (owner r) id') table.
Proof.
  intros Hne. unfold cascade. destruct foreign_keys; [|reflexivity].
  apply filter_delete_rows_other. intros x Hx.
  apply String.eqb_eq in Hx. apply String.eqb_neq. congruence.
Qed.

(* ------------------------------------------------------------------ *)
(** ** Delete of a business *)

Lemma delete_business_count (foreign_keys : bool) (id : string) (db : Store) :
  businessCount (snd (delete_business foreign_keys id db)) id = 0%nat.
Proof.
  unfold delete_business.
  destruct (businessCount db id <? 1)%nat eqn:E; cbn [snd].
  - apply Nat.ltb_lt in E. lia.
  - unfold businessCount. cbn [businesses].
    rewrite filter_delete_rows_same. reflexivity.
Qed.

(** X1. DELETE answers 404 and leaves the store alone when no business has
    the id, and 200 otherwise; either way a GET of the business, and the list
    of any of its child collections, is answered 404 afterwards. *)
Theorem delete_business_then_not_found (foreign_keys : bool) (id : string)
    (db : Store) :
  (delete_business foreign_keys id db = (NotFound404 parent_missing, db)
   /\ businessCount db id = 0%nat
   \/ fst (delete_business foreign_keys id db) = Ok200 tt
      /\ (1 <= businessCount db id)%nat)
  /\ get_business id (snd (delete_business foreign_keys id db))
     = NotFound404 "The specified business does not exist"
  /\ list_locations id (snd (delete_business foreign_keys id db))
     = NotFound404 parent_missing
  /\ list_hours id (snd (delete_business foreign_keys id db))
     = NotFound404 parent_missing
  /\ list_services id (snd (delete_business foreign_keys id db))
     = NotFound404 parent_missing
  /\ list_reviews id (snd (delete_business foreign_keys id db))
     = NotFound404 parent_missing.
Proof.
  pose proof (delete_business_count foreign_keys id db) as Hcount.
  split.
  - unfold delete_business.
    destruct (businessCount db id <? 1)%nat eqn:E.
    + left. split; [reflexivity|]. apply Nat.ltb_lt in E. lia.
    + right. split; [reflexivity|]. apply Nat.ltb_ge in E. exact E.
  - split; [apply businessCount_zero_not_found; exact Hcount|].
    unfold list_locations, list_hours, list_services, list_reviews.
    rewrite Hcount. repeat split; reflexivity.
Qed.

(** X2. DELETE of a business leaves every other business exactly as it was:
    a GET of another id gives the same answer before and after. *)
Theorem delete_business_keeps_others (foreign_keys : bool) (id id' : string)
    (db : Store) :
  id' <> id ->
  get_business id' (snd (delete_business foreign_keys id db)) = get_business id' db.
Proof.
  intros Hne. unfold delete_business.
  destruct (businessCount db id <? 1)%nat; cbn [snd]; [reflexivity|].
  apply get_business_ext; cbn [businesses locations hours services reviews].
  - apply filter_delete_rows_other. intros x Hx.
    apply String.eqb_eq in Hx. apply String.eqb_neq. congruence.
  - apply filter_cascade_other. exact Hne.
  - apply filter_cascade_other. exact Hne.
  - apply filter_cascade_other. exact Hne.
  - apply filter_cascade_other. exact Hne.
Qed.

Lemma delete_business_keeps_others_witness :
  "b1" <> "b2"
  /\ get_business "b1" (snd (delete_business true "b2" Seed.store))
     = get_business "b1" Seed.store.
Proof.
  split; [discriminate|].
  apply (delete_business_keeps_others true "b2" "b1" Seed.store). discriminate.
Defined.

(** X3. Where the store enforces its foreign keys, a successful DELETE of a
    business leaves no Location, Hour, Service or Review that refers to it,
    and does not remove a single row of another business. *)
Theorem delete_business_cascades (id : string) (db : Store) :
  (1 <= businessCount db id)%nat ->
  (Forall (fun l => l_businessId l <> id)
     (locations (snd (delete_business true id db)))
   /\ Forall (fun h => h_businessId h <> id)
        (hours (snd (delete_business true id db)))
   /\ Forall (fun s => s_businessId s <> id)
        (services (snd (delete_business true id db)))
   /\ Forall (fun r => r_businessId r <> id)
        (reviews (snd (delete_business true id db))))
  /\ (forall l, In l (locations db) -> l_businessId l <> id ->
                In l (locations (snd (delete_business true id db))))
  /\ (forall h, In h (hours db) -> h_businessId h <> id ->
                In h (hours (snd (delete_business true id db))))
  /\ (forall s, In s (services db) -> s_businessId s <> id ->
                In s (services (snd (delete_business true id db))))
  /\ (forall r, In r (reviews db) -> r_businessId r <> id ->
                In r (reviews (snd (delete_business true id db)))).
Proof.
  intros Hcount. unfold delete_business.
  assert (E : (businessCount db id <? 1)%nat = false) by (apply Nat.ltb_ge; exact Hcount).
  rewrite E. cbn [snd locations hours services reviews cascade].
  assert (Hgone : forall A (owner : A -> string) (table : list A),
             Forall (fun r => owner r <> id)
               (delete_rows (fun r => String.eqb (owner r) id) table)).
  { intros A owner table. apply Forall_forall. intros r Hr.
    unfold delete_rows in Hr. apply filter_In in Hr. destruct Hr as [_ Hr].
    apply negb_true_iff, String.eqb_neq in Hr. exact Hr. }
  assert (Hkept : forall A (owner : A -> string) (table : list A) (r : A),
             In r table -> owner r <> id ->
             In r (delete_rows (fun r => String.eqb (owner r) id) table)).
  { intros A owner table r Hin Hr. unfold delete_rows. apply filter_In.
    split; [exact Hin|]. apply negb_true_iff, String.eqb_neq. exact Hr. }
  repeat split; try apply Hgone; intros; apply Hkept; assumption.
Qed.

Lemma delete_business_cascades_witness :
  (1 <= businessCount Seed.store "b2")%nat
  /\ Forall (fun h => h_businessId h <> "b2")
       (hours (snd (delete_business true "b2" Seed.store))).
Proof.
  assert (H : (1 <= businessCount Seed.store "b2")%nat) by (vm_compute; lia).
  split; [exact H|].
  pose proof (delete_business_cascades "b2" Seed.store H) as [[_ [Hh _]] _].
  exact Hh.
Defined.

(* ------------------------------------------------------------------ *)
(** ** Create of a child *)

Lemma insert_rows_app {A} (conflict : A -> A -> bool) (rows table table' : list A) :
  insert_rows conflict rows table = Some table' -> table' = table ++ rows.
Proof.
  revert table. induction rows as [|r rows IH]; intros table H; cbn in H.
  - inversion H. rewrite app_nil_r. reflexivity.
  - destruct (existsb (conflict r) table); [discriminate|].
    apply IH in H. rewrite H, <- app_assoc. reflexivity.
Qed.

Lemma insert_items_single {I A} (to_row : I -> option A) (conflict : A -> A -> bool)
    (i : I) (table table' : list A) :
  insert_items to_row conflict [i] table = Some table' ->
  exists r, to_row i = Some r /\ table' = table ++ [r]
            /\ Forall (fun x => conflict r x = false) table.
Proof.
  unfold insert_items. cbn. destruct (to_row i) as [r|]; cbn; [|discriminate].
  destruct (existsb (conflict r) table) eqn:E; [discriminate|].
  intros H. inversion H. exists r. repeat split.
  apply Forall_forall. intros x Hx.
  destruct (conflict r x) eqn:Ec; [|reflexivity].
  assert (existsb (conflict r) table = true)
    by (apply existsb_exists; exists x; split; assumption).
  congruence.
Qed.

Lemma filter_none {A} (p : A -> bool) (l : list A) :
  Forall (fun x => p x = false) l -> filter p l = [].
Proof.
  induction 1 as [|x l Hx _ IH]; cbn; [reflexivity|]. rewrite Hx. exact IH.
Qed.

(** The four guards of the POST and PUT of an hour pass exactly on a body
    with 0 <= dayOfWeek <= 6 and 0 <= open < close <= 23. *)
Lemma hour_guards (hour : HourItem) :
  missing_or_outside (hi_dayOfWeek hour) 0 6 = false ->
  missing_or_outside (hi_open hour) 0 23 = false ->
  missing_or_outside (hi_close hour) 0 23 = false ->
  (number (hi_open hour) >=? number (hi_close hour)) = false ->
  exists d o c,
    hi_dayOfWeek hour = Some d /\ hi_open hour = Some o /\ hi_close hour = Some c
    /\ 0 <= d <= 6 /\ 0 <= o /\ o < c /\ c <= 23.
Proof.
  unfold missing_or_outside, number.
  destruct (hi_dayOfWeek hour) as [d|], (hi_open hour) as [o|],
    (hi_close hour) as [c|]; try discriminate.
  intros H1 H2 H3 H4. exists d, o, c. repeat split; lia.
Qed.

(* ------------------------------------------------------------------ *)
(** ** Raw JSON: numbers and comparisons *)

Lemma integer_value_eq (q : Q) (z : Z) :
  integer_value q = Some z -> (q == inject_Z z)%Q.
Proof.
  unfold integer_value. destruct q as [n d]. cbn [Qnum Qden].
  destruct (n mod Z.pos d =? 0) eqn:E; [|discriminate].
  intros H. inversion H; subst z. clear H.
  apply Z.eqb_eq in E.
  unfold Qeq, inject_Z. cbn [Qnum Qden].
  rewrite Z.mul_1_r.
  pose proof (Z.div_mod n (Z.pos d) ltac:(lia)) as Hdm.
  rewrite E, Z.add_0_r in Hdm. lia.
Qed.

Lemma integer_value_inject (z : Z) : integer_value (inject_Z z) = Some z.
Proof.
  unfold integer_value, inject_Z. cbn [Qnum Qden].
  rewrite Z.mod_1_r, Z.div_1_r. reflexivity.
Qed.

Lemma Qle_bool_integers (p q : Q) (a b : Z) :
  (p == inject_Z a)%Q -> (q == inject_Z b)%Q -> Qle_bool p q = (a <=? b).
Proof.
  intros Hp Hq.
  destruct (Qle_bool p q) eqn:E.
  - apply Qle_bool_iff in E. rewrite Hp, Hq in E. rewrite <- Zle_Qle in E.
    symmetry. apply Z.leb_le. exact E.
  - symmetry. apply Z.leb_gt. apply Z.lt_nge. intros Hle.
    rewrite Zle_Qle in Hle. rewrite <- Hp, <- Hq in Hle.
    apply Qle_bool_iff in Hle. congruence.
Qed.

Lemma number_lt_integers (p q : Q) (a b : Z) :
  (p == inject_Z a)%Q -> (q == inject_Z b)%Q ->
  number_lt (Num p) (Num q) = (a <? b).
Proof.
  intros Hp Hq. cbn [number_lt]. rewrite (Qle_bool_integers q p b a Hq Hp).
  rewrite Z.ltb_antisym. reflexivity.
Qed.

(** The range guard on an integer: [v < lo || v > hi]. *)
Lemma undefined_or_outside_integer (q : Q) (z lo hi : Z) :
  integer_value q = Some z ->
  undefined_or_outside (Some (JNumber (Num q))) lo hi
  = Some ((z <? lo) || (z >? hi)).
Proof.
  intros Hq. apply integer_value_eq in Hq.
  unfold undefined_or_outside, json_gt, json_lt, compare_json, integer.
  cbn -[number_lt].
  rewrite (number_lt_integers q (inject_Z lo) z lo Hq (Qeq_refl _)).
  rewrite (number_lt_integers (inject_Z hi) q hi z (Qeq_refl _) Hq).
  rewrite Z.gtb_ltb.
  destruct (z <? lo); cbn; [reflexivity|].
  destruct (hi <? z); reflexivity.
Qed.

Lemma json_ge_integers (p q : Q) (a b : Z) :
  integer_value p = Some a -> integer_value q = Some b ->
  json_ge (Some (JNumber (Num p))) (Some (JNumber (Num q))) = Some (a >=? b).
Proof.
  intros Hp Hq. apply integer_value_eq in Hp, Hq.
  unfold json_ge, compare_json. cbn -[number_lt].
  rewrite (number_lt_integers p q a b Hp Hq).
  rewrite Z.geb_leb, Z.leb_antisym.
  destruct (a <? b); reflexivity.
Qed.

(** The range guard on any number. *)
Lemma undefined_or_outside_number (x : Number) (lo hi : Z) :
  undefined_or_outside (Some (JNumber x)) lo hi
  = Some match x with
         | Num q => negb (Qle_bool (inject_Z lo) q) || negb (Qle_bool q (inject_Z hi))
         | Inf _ => true
         end.
Proof.
  unfold undefined_or_outside, json_gt, json_lt, compare_json, integer.
  destruct x as [q|[|]]; cbn -[Qle_bool inject_Z]; try reflexivity.
  destruct (Qle_bool (inject_Z lo) q); cbn; [|reflexivity].
  destruct (Qle_bool q (inject_Z hi)); reflexivity.
Qed.

(* ------------------------------------------------------------------ *)
(** ** Raw JSON: the typed bodies *)

Lemma lookup_property {A} (name key : string) (json : A -> Json) (v : option A)
    (object : gmap string Json) :
  property name json v object !! key
  = if String.eqb name key
    then match v with Some a => Some (json a) | None => object !! key end
    else object !! key.
Proof.
  unfold property. destruct (String.eqb_spec name key) as [->|Hne].
  - destruct v; [apply lookup_insert_eq | reflexivity].
  - destruct v; [apply lookup_insert_ne; exact Hne | reflexivity].
Qed.

Lemma only_columns_empty (columns : list string) : only_columns columns ∅ = true.
Proof. apply bool_decide_eq_true_2. apply map_Forall_empty. Qed.

Lemma only_columns_insert (columns : list string) (name : string) (v : Json)
    (object : gmap string Json) :
  In name columns ->
  only_columns columns object = true ->
  only_columns columns (<[name := v]> object) = true.
Proof.
  unfold only_columns. intros Hin H. apply bool_decide_eq_true_1 in H.
  apply bool_decide_eq_true_2. apply map_Forall_insert_2; [|exact H].
  apply list_elem_of_In. exact Hin.
Qed.

Lemma only_columns_property {A} (columns : list string) (name : string)
    (json : A -> Json) (v : option A) (object : gmap string Json) :
  In name columns ->
  only_columns columns object = true ->
  only_columns columns (property name json v object) = true.
Proof.
  intros Hin H. destruct v; [apply only_columns_insert; assumption | exact H].
Qed.

Lemma only_columns_delete (columns : list string) (name : string)
    (object : gmap string Json) :
  only_columns columns object = true ->
  only_columns columns (delete name object) = true.
Proof.
  unfold only_columns. intros H. apply bool_decide_eq_true_1 in H.
  apply bool_decide_eq_true_2. apply map_Forall_delete. exact H.
Qed.

Lemma hour_json_lookup (i : HourItem) :
  hour_json i !! "dayOfWeek" = integer <$> hi_dayOfWeek i
  /\ hour_json i !! "open" = integer <$> hi_open i
  /\ hour_json i !! "close" = integer <$> hi_close i
  /\ hour_json i !! "created_at" = None
  /\ hour_json i !! "updated_at" = None.
Proof.
  unfold hour_json. rewrite !lookup_property. cbn [String.eqb Ascii.eqb Bool.eqb].
  cbn. rewrite !lookup_empty.
  destruct (hi_dayOfWeek i), (hi_open i), (hi_close i); repeat split; reflexivity.
Qed.

Lemma undefined_or_outside_typed (v : option Z) (lo hi : Z) :
  undefined_or_outside (integer <$> v) lo hi = Some (missing_or_outside v lo hi).
Proof.
  destruct v as [z|]; [|reflexivity]. cbn [fmap option_fmap option_map].
  unfold integer. rewrite (undefined_or_outside_integer _ z lo hi (integer_value_inject z)).
  reflexivity.
Qed.

Lemma json_ge_typed (o c : Z) :
  json_ge (Some (integer o)) (Some (integer c)) = Some (o >=? c).
Proof.
  unfold integer.
  apply json_ge_integers; apply integer_value_inject.
Qed.

Lemma integer_cell_integer (z : Z) : integer_cell (integer z) = Some (Held z).
Proof. unfold integer, integer_cell. rewrite integer_value_inject. reflexivity. Qed.

Lemma lookup_with_ids (id businessId : Json) (object : gmap string Json)
    (key : string) :
  <["businessId" := businessId]> (<["id" := id]> object) !! key
  = if String.eqb key "businessId" then Some businessId
    else if String.eqb key "id" then Some id else object !! key.
Proof.
  destruct (String.eqb_spec key "businessId") as [->|Hb].
  - apply lookup_insert_eq.
  - rewrite lookup_insert_ne by congruence.
    destruct (String.eqb_spec key "id") as [->|Hi].
    + apply lookup_insert_eq.
    + apply lookup_insert_ne. congruence.
Qed.

Lemma hour_of_json_typed (stored_time : Json -> Timestamp) (now : Timestamp)
    (id businessId : string) (i : HourItem) :
  hour_of_json stored_time now
    (<["businessId" := JString businessId]> (<["id" := JString id]> (hour_json i)))
  = Some (hour_row now (assign_ids id businessId i)).
Proof.
  unfold hour_of_json.
  rewrite only_columns_insert; cycle 1.
  { cbn. tauto. }
  { apply only_columns_insert; [cbn; tauto|].
    unfold hour_json.
    repeat (apply only_columns_property; [cbn; tauto|]).
    apply only_columns_empty. }
  rewrite !lookup_with_ids. cbn [String.eqb Ascii.eqb Bool.eqb].
  destruct (hour_json_lookup i) as (-> & -> & -> & -> & ->).
  unfold hour_row, assign_ids, HourItem_ids. cbn [hi_id hi_businessId hi_dayOfWeek hi_open hi_close].
  destruct (hi_dayOfWeek i) as [d|], (hi_open i) as [o|], (hi_close i) as [c|];
    cbn [fmap option_fmap option_map write text_cell mbind option_bind];
    rewrite ?integer_cell_integer; reflexivity.
Qed.

(** On a typed body the handler on raw JSON is [post_hour]. *)
Lemma post_hour_on_typed_body (stored_time : Json -> Timestamp)
    (uuid : nat -> string) (now : Timestamp) (businessId : string) (i : HourItem)
    (db : Store) :
  Raw.post_hour stored_time uuid now businessId (hour_json i) db
  = Some (post_hour uuid now businessId i db).
Proof.
  unfold Raw.post_hour, post_hour.
  destruct (hour_json_lookup i) as (Hd & Ho & Hc & _).
  rewrite Hd, Ho, Hc, !undefined_or_outside_typed.
  cbn [mbind option_bind].
  destruct (missing_or_outside (hi_dayOfWeek i) 0 6); [reflexivity|].
  destruct (missing_or_outside (hi_open i) 0 23) eqn:Eo; [reflexivity|].
  destruct (missing_or_outside (hi_close i) 0 23) eqn:Ec; [reflexivity|].
  destruct (hi_open i) as [o|] eqn:Hopen; [|discriminate Eo].
  destruct (hi_close i) as [c|] eqn:Hclose; [|discriminate Ec].
  cbn [fmap option_fmap option_map number]. rewrite json_ge_typed.
  cbn [mbind option_bind].
  destruct (o >=? c); [reflexivity|].
  cbv zeta.
  destruct (businessCount db businessId <? 1)%nat; [reflexivity|].
  rewrite hour_of_json_typed. cbn [mbind option_bind].
  unfold insert_items. cbn [mapM].
  destruct (hour_row now (assign_ids (uuid 0%nat) businessId i)) as [h|];
    cbn [mbind option_bind mret option_ret fmap option_fmap option_map]; reflexivity.
Qed.

Lemma put_hour_on_typed_body (businessId id : string) (i : HourItem) (db : Store) :
  Raw.put_hour businessId id (hour_json i) db = Some (Hours.put businessId id i db).
Proof.
  unfold Raw.put_hour, Hours.put.
  destruct (hour_json_lookup i) as (Hd & Ho & Hc & _).
  rewrite Hd, Ho, Hc, !undefined_or_outside_typed.
  cbn [mbind option_bind].
  destruct (missing_or_outside (hi_dayOfWeek i) 0 6) eqn:Ed; [reflexivity|].
  destruct (missing_or_outside (hi_open i) 0 23) eqn:Eo; [reflexivity|].
  destruct (missing_or_outside (hi_close i) 0 23) eqn:Ec; [reflexivity|].
  destruct (hi_dayOfWeek i) as [d|] eqn:Hday; [|discriminate Ed].
  destruct (hi_open i) as [o|] eqn:Hopen; [|discriminate Eo].
  destruct (hi_close i) as [c|] eqn:Hclose; [|discriminate Ec].
  cbn [fmap option_fmap option_map number]. rewrite json_ge_typed.
  cbn [mbind option_bind].
  destruct (o >=? c); [reflexivity|].
  destruct (businessCount db businessId <? 1)%nat; [reflexivity|].
  cbn [write]. rewrite !integer_cell_integer.
  cbn [mbind option_bind writes_null value_after orb]. rewrite andb_false_r.
  reflexivity.
Qed.

Lemma review_json_lookup (i : ReviewItem) :
  review_json i !! "rating" = (fun q => JNumber (Num q)) <$> ri_rating i
  /\ review_json i !! "comment"
     = match ri_comment i with
       | Undefined => None
       | Null => Some JNull
       | Value c => Some (JString c)
       end.
Proof.
  unfold review_json. rewrite !lookup_property. cbn [String.eqb Ascii.eqb Bool.eqb].
  cbn.
  destruct (ri_rating i), (ri_comment i); split;
    rewrite ?lookup_empty, ?lookup_singleton_eq, ?lookup_singleton_ne by discriminate;
    reflexivity.
Qed.

Lemma rating_guard_typed (v : option Q) :
  undefined_or_outside ((fun q => JNumber (Num q)) <$> v) 0 5
  = Some (Reviews.rating_invalid v).
Proof.
  destruct v as [q|]; [|reflexivity]. cbn [fmap option_fmap option_map].
  rewrite undefined_or_outside_number. reflexivity.
Qed.

Lemma put_review_on_typed_body (default_keyword : bool) (businessId id : string)
    (i : ReviewItem) (db : Store) :
  Raw.put_review default_keyword businessId id (review_json i) db
  = Some (Reviews.put default_keyword businessId id i db).
Proof.
  unfold Raw.put_review, Reviews.put.
  destruct (review_json_lookup i) as (Hr & Hc).
  rewrite Hr, Hc, rating_guard_typed. cbn [mbind option_bind].
  destruct (Reviews.rating_invalid (ri_rating i)) eqn:Ev; [reflexivity|].
  destruct (businessCount db businessId <? 1)%nat; [reflexivity|].
  destruct (ri_rating i) as [q|] eqn:Hq; [|discriminate Ev].
  cbn [fmap option_fmap option_map write number_cell mbind option_bind
         writes_null value_after Reviews.rating_of].
  rewrite andb_false_r.
  destruct (ri_comment i) as [| |c];
    cbn [write text_cell mbind option_bind held];
    try (destruct (negb default_keyword)); reflexivity.
Qed.

Lemma review_of_json_typed (now : Timestamp) (id businessId : string)
    (i : ReviewItem) :
  review_of_json now
    (delete "updated_at"
       (delete "created_at"
          (<["businessId" := JString businessId]>
             (<["id" := JString id]> (review_json i)))))
  = Some (review_row now (assign_ids id businessId i)).
Proof.
  unfold review_of_json.
  rewrite only_columns_delete; cycle 1.
  { apply only_columns_delete.
    apply only_columns_insert; [cbn; tauto|].
    apply only_columns_insert; [cbn; tauto|].
    unfold review_json.
    repeat (apply only_columns_property; [cbn; tauto|]).
    destruct (ri_comment i).
    - apply only_columns_empty.
    - apply only_columns_insert; [cbn; tauto | apply only_columns_empty].
    - apply only_columns_insert; [cbn; tauto | apply only_columns_empty]. }
  rewrite !(lookup_delete_ne _ "updated_at") by discriminate.
  rewrite !(lookup_delete_ne _ "created_at") by discriminate.
  rewrite !lookup_with_ids. cbn [String.eqb Ascii.eqb Bool.eqb].
  destruct (review_json_lookup i) as (-> & ->).
  unfold review_row, assign_ids, ReviewItem_ids.
  cbn [ri_id ri_businessId ri_rating ri_comment].
  destruct (ri_rating i) as [q|], (ri_comment i) as [| |c]; reflexivity.
Qed.

Lemma post_review_on_typed_body (uuid : nat -> string) (now : Timestamp)
    (businessId : string) (i : ReviewItem) (db : Store) :
  Raw.post_review uuid now businessId (review_json i) db
  = Some (post_review uuid now businessId i db).
Proof.
  unfold Raw.post_review, post_review.
  destruct (review_json_lookup i) as (Hr & _).
  rewrite Hr, rating_guard_typed. cbn [mbind option_bind].
  destruct (Reviews.rating_invalid (ri_rating i)); [reflexivity|].
  cbv zeta.
  destruct (businessCount db businessId <? 1)%nat; [reflexivity|].
  rewrite review_of_json_typed. cbn [mbind option_bind].
  unfold insert_items. cbn [mapM].
  destruct (review_row now (assign_ids (uuid 0%nat) businessId i)) as [r|];
    cbn [mbind option_bind mret option_ret fmap option_fmap option_map]; reflexivity.
Qed.

(* ------------------------------------------------------------------ *)
(** ** Create of an hour *)

Lemma write_held {A} (cell : Json -> option (Cell A)) (v : option Json)
    (w : Write A) (a : A) :
  write cell v = Some w -> held (written w IsNull) = Some a ->
  v ≫= cell = Some (Held a).
Proof.
  destruct v as [x|]; cbn.
  - destruct (cell x) as [c|]; cbn; [|discriminate].
    intros H. inversion H; subst w. cbn. destruct c; cbn; [|discriminate].
    intros Ha. inversion Ha. reflexivity.
  - intros H. inversion H; subst w. cbn. discriminate.
Qed.

Lemma write_datetime_held (stored_time : Json -> Timestamp) (now t : Timestamp)
    (v : option Json) (w : Write Timestamp) :
  write (datetime_cell stored_time) v = Some w ->
  held (written w (Held now)) = Some t ->
  t = match v with Some x => stored_time x | None => now end.
Proof.
  destruct v as [x|]; cbn.
  - destruct x; cbn; try discriminate;
      intros H; inversion H; subst w; cbn; intros Ht; inversion Ht; reflexivity.
  - intros H. inversion H; subst w. cbn. intros Ht. inversion Ht. reflexivity.
Qed.

(** The row that the insert of a body sends once the ids are assigned. *)
Lemma hour_of_json_row (stored_time : Json -> Timestamp) (now : Timestamp)
    (id businessId : string) (body : gmap string Json) (h : Hour) :
  hour_of_json stored_time now
    (<["businessId" := JString businessId]> (<["id" := JString id]> body))
  = Some (Some h) ->
  h_id h = id /\ h_businessId h = businessId
  /\ body !! "dayOfWeek" ≫= integer_cell = Some (Held (h_dayOfWeek h))
  /\ body !! "open" ≫= integer_cell = Some (Held (h_open h))
  /\ body !! "close" ≫= integer_cell = Some (Held (h_close h))
  /\ h_created_at h
     = match body !! "created_at" with Some v => stored_time v | None => now end
  /\ h_updated_at h
     = match body !! "updated_at" with Some v => stored_time v | None => now end.
Proof.
  unfold hour_of_json.
  destruct (only_columns hour_columns _); [|discriminate].
  rewrite !lookup_with_ids. cbn [String.eqb Ascii.eqb Bool.eqb].
  cbn [write text_cell mbind option_bind written held].
  destruct (write integer_cell (body !! "dayOfWeek")) as [wd|] eqn:Ed; [|discriminate].
  destruct (write integer_cell (body !! "open")) as [wo|] eqn:Eo; [|discriminate].
  destruct (write integer_cell (body !! "close")) as [wc|] eqn:Ec; [|discriminate].
  destruct (write (datetime_cell stored_time) (body !! "created_at")) as [w1|] eqn:E1;
    [|discriminate].
  destruct (write (datetime_cell stored_time) (body !! "updated_at")) as [w2|] eqn:E2;
    [|discriminate].
  cbn [mbind option_bind].
  destruct (held (written wd IsNull)) as [d|] eqn:Hd; [|discriminate].
  destruct (held (written wo IsNull)) as [o|] eqn:Ho; [|discriminate].
  destruct (held (written wc IsNull)) as [c|] eqn:Hc; [|discriminate].
  destruct (held (written w1 (Held now))) as [t1|] eqn:H1; [|discriminate].
  destruct (held (written w2 (Held now))) as [t2|] eqn:H2; [|discriminate].
  cbn [mbind option_bind]. intros H. inversion H; subst h. cbn.
  repeat split.
  - exact (write_held _ _ _ _ Ed Hd).
  - exact (write_held _ _ _ _ Eo Ho).
  - exact (write_held _ _ _ _ Ec Hc).
  - exact (write_datetime_held _ _ _ _ _ E1 H1).
  - exact (write_datetime_held _ _ _ _ _ E2 H2).
Qed.

(** What is behind an answer 200 of the POST of an hour. *)
Lemma post_hour_200 (stored_time : Json -> Timestamp) (uuid : nat -> string)
    (now : Timestamp) (businessId : string) (body : gmap string Json)
    (db db' : Store) :
  Raw.post_hour stored_time uuid now businessId body db = Some (Ok200 tt, db') ->
  (businessCount db businessId <? 1)%nat = false
  /\ json_ge (body !! "open") (body !! "close") = Some false
  /\ exists h,
       hour_of_json stored_time now
         (<["businessId" := JString businessId]>
            (<["id" := JString (uuid 0%nat)]> body)) = Some (Some h)
       /\ existsb (hour_conflict h) (hours db) = false
       /\ db' = mkStore (businesses db) (locations db) (hours db ++ [h])
                  (services db) (reviews db).
Proof.
  unfold Raw.post_hour.
  destruct (undefined_or_outside (body !! "dayOfWeek") 0 6) as [[|]|];
    cbn [mbind option_bind]; try discriminate.
  destruct (undefined_or_outside (body !! "open") 0 23) as [[|]|];
    cbn [mbind option_bind]; try discriminate.
  destruct (undefined_or_outside (body !! "close") 0 23) as [[|]|];
    cbn [mbind option_bind]; try discriminate.
  destruct (json_ge (body !! "open") (body !! "close")) as [[|]|];
    cbn [mbind option_bind]; try discriminate.
  cbv zeta.
  destruct (businessCount db businessId <? 1)%nat; [discriminate|].
  destruct (hour_of_json _ _ _) as [[h|]|]; cbn [mbind option_bind]; try discriminate.
  cbn [insert_rows].
  destruct (existsb (hour_conflict h) (hours db)) eqn:E; [discriminate|].
  intros H. inversion H. split; [reflexivity|]. split; [reflexivity|].
  exists h. repeat split. exact E.
Qed.

(** X4. When POST of an hour answers 200, on a body that names nothing but
    columns of the table and whose dayOfWeek, open and close the store takes
    as integers, one row is added to the hours and nothing else changes.
    The row has the id drawn by the server and the business of the path,
    whatever ids the body carries; its dayOfWeek, open and close are what
    the store makes of the body's; [created_at] and [updated_at] are the
    body's where it carries them (the handler inserts the body whole) and
    the time of the insert otherwise.  GET by the new id answers that row,
    it answered 404 before, and the list of the business's hours gains
    exactly that row. *)
Theorem post_hour_then_get (stored_time : Json -> Timestamp) (uuid : nat -> string)
    (now : Timestamp) (businessId : string) (body : gmap string Json)
    (db db' : Store) :
  Raw.post_hour stored_time uuid now businessId body db = Some (Ok200 tt, db') ->
  exists h,
    db' = mkStore (businesses db) (locations db) (hours db ++ [h]) (services db)
            (reviews db)
    /\ h_id h = uuid 0%nat
    /\ h_businessId h = businessId
    /\ body !! "dayOfWeek" ≫= integer_cell = Some (Held (h_dayOfWeek h))
    /\ body !! "open" ≫= integer_cell = Some (Held (h_open h))
    /\ body !! "close" ≫= integer_cell = Some (Held (h_close h))
    /\ h_created_at h
       = match body !! "created_at" with Some v => stored_time v | None => now end
    /\ h_updated_at h
       = match body !! "updated_at" with Some v => stored_time v | None => now end
    /\ get_hour businessId (uuid 0%nat) db' = Ok200 h
    /\ get_hour businessId (uuid 0%nat) db = NotFound404 parent_missing
    /\ exists before after,
         list_hours businessId db = Ok200 before
         /\ list_hours businessId db' = Ok200 after
         /\ Permutation after (h :: before).
Proof.
  intros H. apply post_hour_200 in H.
  destruct H as (Ecount & _ & h & Hrow & Hfresh & ->).
  apply hour_of_json_row in Hrow.
  destruct Hrow as (Hid & Hb & Hd & Ho & Hc & H1 & H2).
  assert (Hnone : filter (fun x => String.eqb (h_id x) (uuid 0%nat)
                                   && String.eqb (h_businessId x) businessId)
                    (hours db) = []).
  { apply filter_none. apply Forall_forall. intros x Hx.
    destruct (String.eqb (h_id x) (uuid 0%nat)) eqn:Ex; [|reflexivity].
    exfalso.
    assert (existsb (hour_conflict h) (hours db) = true); [|congruence].
    apply existsb_exists. exists x. split; [exact Hx|].
    unfold hour_conflict. rewrite Hid, String.eqb_sym, Ex. reflexivity. }
  exists h. repeat split; try assumption.
  - unfold get_hour. cbn [hours]. rewrite filter_app, Hnone.
    cbn. rewrite Hid, Hb, !String.eqb_refl. reflexivity.
  - unfold get_hour. rewrite Hnone. reflexivity.
  - unfold list_hours. cbn [businesses hours]. unfold businessCount in *.
    cbn [businesses]. rewrite Ecount.
    eexists. eexists. split; [reflexivity|]. split; [reflexivity|].
    rewrite filter_app. cbn [filter]. rewrite Hb, String.eqb_refl.
    eapply perm_trans; [apply Permutation_sym, orderBy_perm|].
    eapply perm_trans; [apply Permutation_sym, Permutation_cons_append|].
    apply perm_skip. apply orderBy_perm.
Qed.

Lemma post_hour_then_get_witness :
  exists db',
    Raw.post_hour (fun _ => 1) sample_uuid 7 "b2" hour_with_created_at Seed.store
    = Some (Ok200 tt, db')
    /\ get_hour "b2" "a" db' = Ok200 (mkHour "a" "b2" 0 11 16 1 7).
Proof.
  assert (H : exists db',
             Raw.post_hour (fun _ => 1) sample_uuid 7 "b2" hour_with_created_at
               Seed.store = Some (Ok200 tt, db'))
    by (eexists; vm_compute; reflexivity).
  destruct H as [db' H]. exists db'. split; [exact H|].
  destruct (post_hour_then_get _ _ _ _ _ _ _ H)
    as (h & _ & Hid & Hb & Hd & Ho & Hc & H1 & H2 & Hget & _).
  change (sample_uuid 0%nat) with "a" in Hid, Hget.
  rewrite Hget. f_equal. destruct h. cbn in Hid, Hb, Hd, Ho, Hc, H1, H2.
  vm_compute in Hd, Ho, Hc, H1, H2.
  inversion Hd. inversion Ho. inversion Hc. subst. reflexivity.
Defined.

(** A body may bring strings where the schema has integers: the guards then
    compare "10" with "9" as strings, the POST answers 200, and the store
    holds an Hour with open 10 and close 9. *)
Example post_hour_of_strings :
  exists db',
    Raw.post_hour (fun _ => 1) sample_uuid 7 "b2" hour_of_strings Seed.store
    = Some (Ok200 tt, db')
    /\ last (hours db') (mkHour "" "" 0 0 0 0 0) = mkHour "a" "b2" 0 10 9 7 7.
Proof. eexists. vm_compute. split; reflexivity. Qed.

(* ------------------------------------------------------------------ *)
(** ** The hours routes keep their rows well-formed *)

Lemma update_rows_map {A} (conflict : A -> A -> bool) (matching : A -> bool)
    (set : A -> A) (table table' : list A) :
  update_rows conflict matching set table = Some table' ->
  table' = map (fun r => if matching r then set r else r) table.
Proof.
  unfold update_rows. destruct (existsb _ table); [discriminate|].
  intros H. inversion H. reflexivity.
Qed.

Lemma integer_field (body : gmap string Json) (name : string) :
  (forall v, body !! name = Some v -> is_integer v) ->
  body !! name = None
  \/ exists q z, body !! name = Some (JNumber (Num q)) /\ integer_value q = Some z.
Proof.
  intros H. destruct (body !! name) as [v|]; [|left; reflexivity].
  destruct (H v eq_refl) as (q & z & -> & Hz). right. exists q, z. split; [reflexivity | exact Hz].
Qed.

(** The four guards of the hours routes on a body whose dayOfWeek, open and
    close are integers: each comes to a verdict, and when all four let the
    body pass, the store receives integers with 0 <= dayOfWeek <= 6 and
    0 <= open < close <= 23. *)
Lemma hour_guards_json (body : gmap string Json) :
  integer_fields body ->
  exists g1 g2 g3 g4 : bool,
    undefined_or_outside (body !! "dayOfWeek") 0 6 = Some g1
    /\ undefined_or_outside (body !! "open") 0 23 = Some g2
    /\ undefined_or_outside (body !! "close") 0 23 = Some g3
    /\ json_ge (body !! "open") (body !! "close") = Some g4
    /\ (g1 = false -> g2 = false -> g3 = false -> g4 = false ->
        exists vd vo vc d o c,
          body !! "dayOfWeek" = Some vd /\ integer_cell vd = Some (Held d)
          /\ body !! "open" = Some vo /\ integer_cell vo = Some (Held o)
          /\ body !! "close" = Some vc /\ integer_cell vc = Some (Held c)
          /\ 0 <= d <= 6 /\ 0 <= o /\ o < c /\ c <= 23).
Proof.
  intros Hint.
  assert (Hd := integer_field body "dayOfWeek"
                  (fun v => Hint "dayOfWeek" v ltac:(cbn; tauto))).
  assert (Ho := integer_field body "open" (fun v => Hint "open" v ltac:(cbn; tauto))).
  assert (Hc := integer_field body "close" (fun v => Hint "close" v ltac:(cbn; tauto))).
  destruct Hd as [Hd|(qd & d & Hd & Hvd)], Ho as [Ho|(qo & o & Ho & Hvo)],
    Hc as [Hc|(qc & c & Hc & Hvc)]; rewrite Hd, Ho, Hc;
    rewrite ?(undefined_or_outside_integer _ _ _ _ Hvd),
      ?(undefined_or_outside_integer _ _ _ _ Hvo),
      ?(undefined_or_outside_integer _ _ _ _ Hvc);
    try rewrite (json_ge_integers _ _ _ _ Hvo Hvc);
    do 4 eexists; (split; [reflexivity|]); (split; [reflexivity|]);
    (split; [reflexivity|]); (split; [reflexivity|]);
    intros E1 E2 E3 E4; try discriminate.
  exists (JNumber (Num qd)), (JNumber (Num qo)), (JNumber (Num qc)), d, o, c.
  cbn [integer_cell]. rewrite Hvd, Hvo, Hvc. cbn [mbind option_bind].
  repeat split; try reflexivity; lia.
Qed.

Lemma hour_wellformed_appended (table : list Hour) (h : Hour) :
  Forall hour_wellformed table -> hour_wellformed h ->
  Forall hour_wellformed (table ++ [h]).
Proof. intros Ht Hh. apply Forall_app. split; [exact Ht | constructor; [exact Hh | constructor]]. Qed.

(** X5. The hours routes never store a malformed Hour on a request whose
    dayOfWeek, open and close are integers where present: if every stored
    Hour has 0 <= dayOfWeek <= 6 and 0 <= open < close <= 23, then
    - the PUT comes to an answer and every Hour is so afterwards;
    - the POST does, when its body names nothing but columns of the table
      (the whole body is inserted, and a property such as [OPEN] would name
      the column [open] past the guards);
    - every Hour is so after a DELETE.
    Without the condition on the three properties the statement fails:
    see [post_hour_of_strings]. *)
Theorem hours_routes_keep_wellformed (stored_time : Json -> Timestamp)
    (uuid : nat -> string) (now : Timestamp) (businessId id : string)
    (body : gmap string Json) (db : Store) :
  integer_fields body ->
  Forall hour_wellformed (hours db) ->
  (insertable_hour body ->
   exists r db',
     Raw.post_hour stored_time uuid now businessId body db = Some (r, db')
     /\ Forall hour_wellformed (hours db'))
  /\ (exists r db',
        Raw.put_hour businessId id body db = Some (r, db')
        /\ Forall hour_wellformed (hours db'))
  /\ Forall hour_wellformed (hours (snd (Hours.del businessId id db))).
Proof.
  intros Hint Hwf.
  destruct (hour_guards_json body Hint) as (g1 & g2 & g3 & g4 & E1 & E2 & E3 & E4 & Hpass).
  split; [|split].
  - intros [Hcols Htimes]. unfold Raw.post_hour. rewrite E1, E2, E3, E4.
    cbn [mbind option_bind].
    destruct g1; [eexists; eexists; split; [reflexivity | exact Hwf]|].
    destruct g2; [eexists; eexists; split; [reflexivity | exact Hwf]|].
    destruct g3; [eexists; eexists; split; [reflexivity | exact Hwf]|].
    destruct g4; [eexists; eexists; split; [reflexivity | exact Hwf]|].
    cbv zeta.
    destruct (businessCount db businessId <? 1)%nat;
      [eexists; eexists; split; [reflexivity | exact Hwf]|].
    destruct (Hpass eq_refl eq_refl eq_refl eq_refl)
      as (vd & vo & vc & d & o & c & Bd & Cd & Bo & Co & Bc & Cc & Hrange).
    assert (Hrow : exists t1 t2,
               hour_of_json stored_time now
                 (<["businessId" := JString businessId]>
                    (<["id" := JString (uuid 0%nat)]> body))
               = Some (t1 ← t1; t2 ← t2;
                       Some (mkHour (uuid 0%nat) businessId d o c t1 t2))).
    { unfold hour_of_json.
      rewrite only_columns_insert;
        [| cbn; tauto | apply only_columns_insert; [cbn; tauto | exact Hcols]].
      rewrite !lookup_with_ids. cbn [String.eqb Ascii.eqb Bool.eqb].
      rewrite Bd, Bo, Bc. cbn [write text_cell mbind option_bind].
      rewrite Cd, Co, Cc. cbn [mbind option_bind].
      assert (Ht : forall name, In name ["created_at"; "updated_at"] ->
                 exists w, write (datetime_cell stored_time) (body !! name) = Some w).
      { intros name Hin. specialize (Htimes name).
        destruct (body !! name) as [v|]; [|eexists; reflexivity].
        specialize (Htimes v Hin eq_refl).
        destruct v; cbn in Htimes; try contradiction; eexists; reflexivity. }
      destruct (Ht "created_at" ltac:(cbn; tauto)) as [w1 ->].
      destruct (Ht "updated_at" ltac:(cbn; tauto)) as [w2 ->].
      cbn [mbind option_bind written held].
      exists (held (written w1 (Held now))), (held (written w2 (Held now))).
      reflexivity. }
    destruct Hrow as (t1 & t2 & ->). cbn [mbind option_bind].
    destruct t1 as [t1|]; cbn [mbind option_bind];
      [|eexists; eexists; split; [reflexivity | exact Hwf]].
    destruct t2 as [t2|]; cbn [mbind option_bind];
      [|eexists; eexists; split; [reflexivity | exact Hwf]].
    cbn [insert_rows].
    destruct (existsb _ (hours db));
      [eexists; eexists; split; [reflexivity | exact Hwf]|].
    eexists. eexists. split; [reflexivity|]. cbn [hours].
    apply hour_wellformed_appended; [exact Hwf|].
    unfold hour_wellformed. cbn. lia.
  - unfold Raw.put_hour. rewrite E1, E2, E3, E4. cbn [mbind option_bind].
    destruct g1; [eexists; eexists; split; [reflexivity | exact Hwf]|].
    destruct g2; [eexists; eexists; split; [reflexivity | exact Hwf]|].
    destruct g3; [eexists; eexists; split; [reflexivity | exact Hwf]|].
    destruct g4; [eexists; eexists; split; [reflexivity | exact Hwf]|].
    destruct (businessCount db businessId <? 1)%nat;
      [eexists; eexists; split; [reflexivity | exact Hwf]|].
    destruct (Hpass eq_refl eq_refl eq_refl eq_refl)
      as (vd & vo & vc & d & o & c & Bd & Cd & Bo & Co & Bc & Cc & Hrange).
    rewrite Bd, Bo, Bc. cbn [write]. rewrite Cd, Co, Cc.
    cbn [mbind option_bind writes_null value_after orb]. rewrite andb_false_r.
    destruct (update_rows _ _ _ _) as [hours'|] eqn:Eup;
      [|eexists; eexists; split; [reflexivity | exact Hwf]].
    eexists. eexists. split; [reflexivity|]. cbn [hours].
    apply update_rows_map in Eup. subst hours'.
    apply Forall_map. revert Hwf. apply Forall_impl. intros h Hh.
    destruct (String.eqb (h_id h) id && String.eqb (h_businessId h) businessId);
      [|exact Hh].
    unfold hour_wellformed. cbn. lia.
  - unfold Hours.del. destruct (businessCount db businessId <? 1)%nat; [exact Hwf|].
    cbn [snd hours]. unfold delete_rows.
    apply Forall_forall. intros h Hh. apply filter_In in Hh.
    rewrite Forall_forall in Hwf. apply Hwf, Hh.
Qed.

Lemma hours_routes_keep_wellformed_witness :
  integer_fields hour_with_created_at
  /\ Forall hour_wellformed (hours Seed.store)
  /\ insertable_hour hour_with_created_at
  /\ exists r db',
       Raw.post_hour (fun _ => 1) sample_uuid 7 "b2" hour_with_created_at Seed.store
       = Some (r, db')
       /\ Forall hour_wellformed (hours db').
Proof.
  assert (Hint : integer_fields hour_with_created_at).
  { intros name v Hin Hv. cbn in Hin.
    destruct Hin as [<-|[<-|[<-|[]]]]; vm_compute in Hv; inversion Hv; subst v;
      eexists; eexists; (split; [reflexivity | vm_compute; reflexivity]). }
  assert (H : Forall hour_wellformed (hours Seed.store)).
  { cbn. repeat constructor; cbn; lia. }
  assert (Hins : insertable_hour hour_with_created_at).
  { split; [vm_compute; reflexivity|].
    intros name v Hin Hv. cbn in Hin.
    destruct Hin as [<-|[<-|[]]]; vm_compute in Hv; inversion Hv; exact I. }
  split; [exact Hint|]. split; [exact H|]. split; [exact Hins|].
  exact (proj1 (hours_routes_keep_wellformed (fun _ => 1) sample_uuid 7
                  "b2" "h21" hour_with_created_at Seed.store Hint H) Hins).
Defined.

(* ------------------------------------------------------------------ *)
(** ** Update of an hour *)

Lemma filter_update_rows {A} (matching : A -> bool) (set : A -> A) (table : list A) :
  (forall r, matching (set r) = matching r) ->
  filter matching (map (fun r => if matching r then set r else r) table)
  = map set (filter matching table).
Proof.
  intros Hset. induction table as [|r l IH]; [reflexivity|].
  cbn [map filter]. destruct (matching r) eqn:E.
  - rewrite Hset, E. cbn [map]. rewrite IH. reflexivity.
  - rewrite E. exact IH.
Qed.

(** X6. When PUT of an hour answers 200 for an hour that GET finds, GET
    afterwards answers that hour with the dayOfWeek, open and close of the
    body and with its id, its business and its timestamps untouched. *)
Theorem put_hour_then_get (businessId id : string) (hour : HourItem) (db : Store)
    (h : Hour) :
  fst (Hours.put businessId id hour db) = Ok200 tt ->
  get_hour businessId id db = Ok200 h ->
  exists d o c,
    hi_dayOfWeek hour = Some d /\ hi_open hour = Some o /\ hi_close hour = Some c
    /\ get_hour businessId id (snd (Hours.put businessId id hour db))
       = Ok200 (mkHour (h_id h) (h_businessId h) d o c (h_created_at h) (h_updated_at h)).
Proof.
  unfold Hours.put.
  destruct (missing_or_outside (hi_dayOfWeek hour) 0 6) eqn:E1; [discriminate|].
  destruct (missing_or_outside (hi_open hour) 0 23) eqn:E2; [discriminate|].
  destruct (missing_or_outside (hi_close hour) 0 23) eqn:E3; [discriminate|].
  destruct (number (hi_open hour) >=? number (hi_close hour)) eqn:E4; [discriminate|].
  destruct (hour_guards hour E1 E2 E3 E4) as [d [o [c [Hd [Ho [Hc _]]]]]].
  destruct (businessCount db businessId <? 1)%nat; [discriminate|].
  destruct (update_rows _ _ _ _) as [hours'|] eqn:Eup; [|discriminate].
  intros _ Hget. cbn [snd]. apply update_rows_map in Eup. subst hours'.
  exists d, o, c. repeat split; try assumption.
  unfold get_hour in *. cbn [hours].
  rewrite (filter_update_rows
             (fun x => String.eqb (h_id x) id && String.eqb (h_businessId x) businessId))
    by reflexivity.
  destruct (filter _ (hours db)) as [|h0 rest]; [discriminate|].
  inversion Hget; subst h0. cbn [map]. rewrite Hd, Ho, Hc. reflexivity.
Qed.

Lemma put_hour_then_get_witness :
  get_hour "b2" "h26" Seed.store = Ok200 (Seed.hour "h26" "b2" 6 9 12)
  /\ get_hour "b2" "h26" (snd (Hours.put "b2" "h26" valid_hour Seed.store))
     = Ok200 (mkHour "h26" "b2" 0 11 16 0 0).
Proof.
  split; [reflexivity|].
  destruct (put_hour_then_get "b2" "h26" valid_hour Seed.store
              (Seed.hour "h26" "b2" 6 9 12) eq_refl eq_refl)
    as [d [o [c [Hd [Ho [Hc Hget]]]]]].
  cbn in Hd, Ho, Hc. inversion Hd; inversion Ho; inversion Hc; subst.
  exact Hget.
Defined.

(* ------------------------------------------------------------------ *)
(** ** No route leaves an orphan *)

Lemma owners_In (db : Store) (id : string) :
  In id (owners db)
  <-> (exists l, In l (locations db) /\ l_businessId l = id)
      \/ (exists h, In h (hours db) /\ h_businessId h = id)
      \/ (exists s, In s (services db) /\ s_businessId s = id)
      \/ (exists r, In r (reviews db) /\ r_businessId r = id).
Proof.
  unfold owners. rewrite !in_app_iff, !in_map_iff.
  split.
  - intros [[x [E H]]|[[x [E H]]|[[x [E H]]|[x [E H]]]]]; eauto 6.
  - intros [[x [H E]]|[[x [H E]]|[[x [H E]]|[x [H E]]]]]; eauto 6.
Qed.

Lemma no_orphans_step (db db' : Store) :
  (forall id, In id (owners db') ->
              In id (owners db) /\ (businessCount db id <= businessCount db' id)%nat
              \/ (1 <= businessCount db' id)%nat) ->
  no_orphans db -> no_orphans db'.
Proof.
  unfold no_orphans. rewrite !Forall_forall. intros Hstep H id Hid.
  destruct (Hstep id Hid) as [[Hin Hle]|Hnew]; [|exact Hnew].
  specialize (H id Hin). lia.
Qed.

(** A write to one child table that only appends rows of an existing
    business, rewrites rows in place or removes rows. *)
Lemma no_orphans_child_table {A} (owner : A -> string) (table table' : list A)
    (businessId : string) (db db' : Store) :
  businesses db' = businesses db ->
  (1 <= businessCount db businessId)%nat \/ table' = table ->
  (forall r, In r table' ->
             (exists r0, In r0 table /\ owner r0 = owner r) \/ owner r = businessId) ->
  (forall id, In id (owners db') ->
              In id (owners db) \/ exists r, In r table' /\ owner r = id) ->
  (forall r, In r table -> In (owner r) (owners db)) ->
  no_orphans db -> no_orphans db'.
Proof.
  intros Hb Hparent Hrows Howners Htable.
  assert (Hcount : forall id, businessCount db' id = businessCount db id)
    by (intros id; unfold businessCount; rewrite Hb; reflexivity).
  apply no_orphans_step. intros id Hid. rewrite Hcount.
  destruct (Howners id Hid) as [Hin|[r [Hr <-]]]; [left; split; [exact Hin|lia]|].
  destruct (Hrows r Hr) as [[r0 [H0 E]]|E].
  - left. rewrite <- E. split; [apply Htable; exact H0|lia].
  - destruct Hparent as [Hp|Hsame].
    + right. rewrite E. exact Hp.
    + left. split; [|lia]. apply Htable. rewrite <- Hsame. exact Hr.
Qed.

Ltac owners_cases H :=
  apply owners_In in H; cbn [locations hours services reviews] in H;
  destruct H as [[x [Hx Ex]]|[[x [Hx Ex]]|[[x [Hx Ex]]|[x [Hx Ex]]]]].

Ltac owners_solve :=
  first [ solve [left; apply owners_In; eauto 7]
        | solve [right; eauto] ].

Lemma in_append_one {A} (owner : A -> string) (table : list A) (r x : A)
    (businessId : string) :
  owner r = businessId -> In x (table ++ [r]) ->
  (exists r0, In r0 table /\ owner r0 = owner x) \/ owner x = businessId.
Proof.
  intros Hr Hx. apply in_app_iff in Hx. destruct Hx as [Hx|[<-|[]]].
  - left. exists x. split; [exact Hx | reflexivity].
  - right. exact Hr.
Qed.

Lemma in_updated {A} (owner : A -> string) (matching : A -> bool) (set : A -> A)
    (table : list A) (x : A) (businessId : string) :
  (forall r, owner (set r) = owner r) ->
  In x (map (fun r => if matching r then set r else r) table) ->
  (exists r0, In r0 table /\ owner r0 = owner x) \/ owner x = businessId.
Proof.
  intros Hset Hx. apply in_map_iff in Hx. destruct Hx as [r [<- Hr]].
  left. exists r. split; [exact Hr|]. destruct (matching r); [rewrite Hset|]; reflexivity.
Qed.

Lemma in_deleted {A} (owner : A -> string) (matching : A -> bool)
    (table : list A) (x : A) (businessId : string) :
  In x (delete_rows matching table) ->
  (exists r0, In r0 table /\ owner r0 = owner x) \/ owner x = businessId.
Proof.
  unfold delete_rows. intros Hx. apply filter_In in Hx.
  left. exists x. split; [apply Hx | reflexivity].
Qed.

Lemma post_hour_no_orphans (uuid : nat -> string) (now : Timestamp)
    (businessId : string) (hour : HourItem) (db : Store) :
  no_orphans db -> no_orphans (snd (post_hour uuid now businessId hour db)).
Proof.
  intros H. unfold post_hour.
  repeat match goal with
         | |- context [if ?c then (BadRequest400 _, _) else _] =>
             destruct c; [exact H|]
         end.
  cbv zeta. destruct (businessCount db businessId <? 1)%nat eqn:E; [exact H|].
  apply Nat.ltb_ge in E.
  destruct (insert_items _ _ _ _) as [t'|] eqn:Eins; [|exact H]. cbn [snd].
  apply insert_items_single in Eins. destruct Eins as [r [Hrow [-> _]]].
  assert (Hr : h_businessId r = businessId).
  { apply (hour_row_keys now (uuid 0%nat) businessId hour r Hrow). }
  revert H.
  apply (no_orphans_child_table h_businessId (hours db) (hours db ++ [r]) businessId).
  - reflexivity.
  - left. exact E.
  - intros x Hx. apply (in_append_one h_businessId _ r); assumption.
  - intros id Hid. owners_cases Hid; owners_solve.
  - intros x Hx. apply owners_In. eauto 7.
Qed.

Lemma location_row_owner (now : Timestamp) (id businessId : string)
    (x : LocationItem) (l : Location) :
  location_row now (assign_ids id businessId x) = Some l -> l_businessId l = businessId.
Proof.
  unfold location_row, assign_ids, LocationItem_ids. cbn.
  destruct (li_name x); cbn; [|discriminate]. intros H. inversion H. reflexivity.
Qed.

Lemma service_row_owner (now : Timestamp) (id businessId : string)
    (x : ServiceItem) (s : Service) :
  service_row now (assign_ids id businessId x) = Some s -> s_businessId s = businessId.
Proof.
  unfold service_row, assign_ids, ServiceItem_ids. cbn.
  destruct (si_name x); cbn; [|discriminate]. intros H. inversion H. reflexivity.
Qed.

Lemma review_row_owner (now : Timestamp) (id businessId : string)
    (x : ReviewItem) (r : Review) :
  review_row now (assign_ids id businessId x) = Some r -> r_businessId r = businessId.
Proof.
  unfold review_row, assign_ids, ReviewItem_ids. cbn.
  destruct (ri_rating x); cbn; [|discriminate]. intros H. inversion H. reflexivity.
Qed.

Lemma post_location_no_orphans (uuid : nat -> string) (now : Timestamp)
    (businessId : string) (location : LocationItem) (db : Store) :
  no_orphans db -> no_orphans (snd (post_location uuid now businessId location db)).
Proof.
  intros H. unfold post_location.
  destruct (negb (truthy (li_name location))); [exact H|].
  cbv zeta. destruct (businessCount db businessId <? 1)%nat eqn:E; [exact H|].
  apply Nat.ltb_ge in E.
  destruct (insert_items _ _ _ _) as [t'|] eqn:Eins; [|exact H]. cbn [snd].
  apply insert_items_single in Eins. destruct Eins as [r [Hrow [-> _]]].
  apply location_row_owner in Hrow.
  revert H.
  apply (no_orphans_child_table l_businessId (locations db) (locations db ++ [r])
           businessId).
  - reflexivity.
  - left. exact E.
  - intros x Hx. apply (in_append_one l_businessId _ r); assumption.
  - intros id Hid. owners_cases Hid; owners_solve.
  - intros x Hx. apply owners_In. eauto 7.
Qed.

Lemma post_service_no_orphans (uuid : nat -> string) (now : Timestamp)
    (businessId : string) (service : ServiceItem) (db : Store) :
  no_orphans db -> no_orphans (snd (post_service uuid now businessId service db)).
Proof.
  intros H. unfold post_service.
  destruct (negb (truthy (si_name service))); [exact H|].
  cbv zeta. destruct (businessCount db businessId <? 1)%nat eqn:E; [exact H|].
  apply Nat.ltb_ge in E.
  destruct (insert_items _ _ _ _) as [t'|] eqn:Eins; [|exact H]. cbn [snd].
  apply insert_items_single in Eins. destruct Eins as [r [Hrow [-> _]]].
  apply service_row_owner in Hrow.
  revert H.
  apply (no_orphans_child_table s_businessId (services db) (services db ++ [r])
           businessId).
  - reflexivity.
  - left. exact E.
  - intros x Hx. apply (in_append_one s_businessId _ r); assumption.
  - intros id Hid. owners_cases Hid; owners_solve.
  - intros x Hx. apply owners_In. eauto 7.
Qed.

Lemma post_review_no_orphans (uuid : nat -> string) (now : Timestamp)
    (businessId : string) (review : ReviewItem) (db : Store) :
  no_orphans db -> no_orphans (snd (post_review uuid now businessId review db)).
Proof.
  intros H. unfold post_review.
  destruct (Reviews.rating_invalid (ri_rating review)); [exact H|].
  cbv zeta. destruct (businessCount db businessId <? 1)%nat eqn:E; [exact H|].
  apply Nat.ltb_ge in E.
  destruct (insert_items _ _ _ _) as [t'|] eqn:Eins; [|exact H]. cbn [snd].
  apply insert_items_single in Eins. destruct Eins as [r [Hrow [-> _]]].
  apply review_row_owner in Hrow.
  revert H.
  apply (no_orphans_child_table r_businessId (reviews db) (reviews db ++ [r])
           businessId).
  - reflexivity.
  - left. exact E.
  - intros x Hx. apply (in_append_one r_businessId _ r); assumption.
  - intros id Hid. owners_cases Hid; owners_solve.
  - intros x Hx. apply owners_In. eauto 7.
Qed.

Lemma no_orphans_child_rewrite (db db' : Store) :
  businesses db' = businesses db ->
  (forall id, In id (owners db') -> In id (owners db)) ->
  no_orphans db -> no_orphans db'.
Proof.
  intros Hb Hin. apply no_orphans_step. intros id Hid. left.
  split; [apply Hin; exact Hid|]. unfold businessCount. rewrite Hb. lia.
Qed.

Lemma in_updated_owner {A} (owner : A -> string) (matching : A -> bool)
    (set : A -> A) (table : list A) (x : A) :
  (forall r, owner (set r) = owner r) ->
  In x (map (fun r => if matching r then set r else r) table) ->
  exists r0, In r0 table /\ owner r0 = owner x.
Proof.
  intros Hset Hx. apply in_map_iff in Hx. destruct Hx as [r [<- Hr]].
  exists r. split; [exact Hr|]. destruct (matching r); [rewrite Hset|]; reflexivity.
Qed.

Lemma in_deleted_owner {A} (owner : A -> string) (matching : A -> bool)
    (table : list A) (x : A) :
  In x (delete_rows matching table) -> exists r0, In r0 table /\ owner r0 = owner x.
Proof.
  unfold delete_rows. intros Hx. apply filter_In in Hx.
  exists x. split; [apply Hx | reflexivity].
Qed.

Ltac skip_guards H :=
  repeat match goal with
         | |- context [if ?c then (_, ?db) else _] => destruct c; [exact H|]
         end.

Ltac owners_from_old :=
  match goal with
  | Hx : In ?x (map _ _), Ex : ?owner ?x = _ |- _ =>
      apply (in_updated_owner owner) in Hx; [|reflexivity];
      destruct Hx as [r0 [Hr0 E0]]; rewrite <- Ex, <- E0; apply owners_In; eauto 7
  | Hx : In ?x (delete_rows _ _), Ex : ?owner ?x = _ |- _ =>
      apply (in_deleted_owner owner) in Hx;
      destruct Hx as [r0 [Hr0 E0]]; rewrite <- Ex, <- E0; apply owners_In; eauto 7
  | _ => apply owners_In; eauto 7
  end.

Lemma child_write_no_orphans (default_keyword : bool) (now : Timestamp)
    (w : ChildWrite) (businessId id : string) (db : Store) :
  no_orphans db ->
  no_orphans (snd (child_write default_keyword now w businessId id db)).
Proof.
  intros H.
  destruct w; cbn [child_write];
    unfold Hours.put, Hours.del, Locations.put, Locations.del, Services.put,
      Services.del, Reviews.put, Reviews.del;
    skip_guards H;
    try (destruct (update_rows _ _ _ _) as [t'|] eqn:E; [|exact H];
         apply update_rows_map in E; subst t');
    cbn [snd]; revert H; apply no_orphans_child_rewrite;
    try reflexivity;
    intros i Hi; owners_cases Hi; owners_from_old.
Qed.

Lemma filter_map_same {A} (p : A -> bool) (f : A -> A) (l : list A) :
  (forall x, p (f x) = p x) ->
  length (filter p (map f l)) = length (filter p l).
Proof.
  intros Hf. induction l as [|x l IH]; [reflexivity|].
  cbn [map filter]. rewrite Hf. destruct (p x); cbn [length]; rewrite IH; reflexivity.
Qed.

Lemma put_business_count (now : Timestamp) (id i : string)
    (body : gmap string string) (db : Store) :
  businessCount (snd (put_business now id body db)) i = businessCount db i.
Proof.
  unfold put_business.
  repeat match goal with
         | |- context [if ?c then (_, db) else _] => destruct c; [reflexivity|]
         end.
  destruct (update_rows _ _ _ _) as [t'|] eqn:E; [|reflexivity].
  apply update_rows_map in E. subst t'. cbn [snd].
  unfold businessCount. cbn [businesses].
  apply filter_map_same. intros b. destruct (String.eqb (b_id b) id); reflexivity.
Qed.

Lemma put_business_children (now : Timestamp) (id : string)
    (body : gmap string string) (db : Store) :
  locations (snd (put_business now id body db)) = locations db
  /\ hours (snd (put_business now id body db)) = hours db
  /\ services (snd (put_business now id body db)) = services db
  /\ reviews (snd (put_business now id body db)) = reviews db.
Proof.
  unfold put_business.
  repeat match goal with
         | |- context [if ?c then (_, db) else _] => destruct c; [tauto|]
         end.
  destruct (update_rows _ _ _ _); cbn; tauto.
Qed.

Lemma put_business_no_orphans (now : Timestamp) (id : string)
    (body : gmap string string) (db : Store) :
  no_orphans db -> no_orphans (snd (put_business now id body db)).
Proof.
  apply no_orphans_step. intros i Hi. left. split.
  - destruct (put_business_children now id body db) as [Hl [Hh [Hs Hr]]].
    unfold owners in *. rewrite Hl, Hh, Hs, Hr in Hi. exact Hi.
  - rewrite put_business_count. lia.
Qed.

Lemma delete_business_no_orphans (id : string) (db : Store) :
  no_orphans db -> no_orphans (snd (delete_business true id db)).
Proof.
  intros H. unfold delete_business.
  destruct (businessCount db id <? 1)%nat; [exact H|]. cbn [snd cascade]. revert H.
  apply no_orphans_step. intros i Hi. left.
  assert (Hne : i <> id /\ In i (owners db)).
  { owners_cases Hi; unfold delete_rows in Hx; apply filter_In in Hx;
      destruct Hx as [Hx Hk]; apply negb_true_iff, String.eqb_neq in Hk;
      (split; [congruence | apply owners_In; eauto 7]). }
  destruct Hne as [Hne Hin]. split; [exact Hin|].
  unfold businessCount. cbn [businesses].
  rewrite filter_delete_rows_other; [lia|].
  intros x Hx. apply String.eqb_eq in Hx. apply String.eqb_neq. congruence.
Qed.

(* ------------------------------------------------------------------ *)
(** ** Create of a business: what is stored *)

(** The nested objects of one kind end up as rows appended to their table,
    one row per object, each owned by the new business. *)
Lemma insert_if_any_appends {I A} `{HasIds I} (to_row : I -> option A)
    (conflict : A -> A -> bool) (owner : A -> string) (uuid : nat -> string)
    (next : nat) (items : option (list I)) (id : string) (table table' : list A) :
  (forall u i r, to_row (assign_ids u id i) = Some r -> owner r = id) ->
  insert_if_any to_row conflict (addIds uuid next items id) table = Some table' ->
  exists rows,
    table' = table ++ rows
    /\ Forall (fun r => owner r = id) rows
    /\ length rows = drawn items.
Proof.
  intros Hrow Hins.
  destruct items as [[|x l]|].
  - cbn in Hins. inversion Hins. exists []. rewrite app_nil_r. repeat split.
    constructor.
  - set (f := fun (k : nat) (item : I) => assign_ids (uuid (next + k)%nat) id item).
    change (insert_items to_row conflict (imap f (x :: l)) table = Some table')
      in Hins.
    unfold insert_items in Hins.
    destruct (mapM to_row (imap f (x :: l))) as [rows|] eqn:Erows;
      [|discriminate Hins].
    cbn in Hins. apply insert_rows_app in Hins. apply mapM_Some in Erows.
    exists rows. split; [exact Hins|]. split.
    + apply Forall_forall. intros r Hr.
      apply list_elem_of_In, list_elem_of_lookup in Hr. destruct Hr as [k Hk].
      destruct (Forall2_lookup_r _ _ _ _ _ Erows Hk) as [y [Hy Hto]].
      rewrite list_lookup_imap in Hy.
      destruct ((x :: l) !! k) as [z|]; [|discriminate].
      cbn in Hy. inversion Hy; subst y. apply (Hrow _ _ _ Hto).
    + apply Forall2_length in Erows. rewrite <- Erows, length_imap. reflexivity.
  - cbn in Hins. inversion Hins. exists []. rewrite app_nil_r. repeat split.
    constructor.
Qed.

(** What a create that answers 200 has done to the store. *)
Lemma post_business_stored (uuid : nat -> string) (now : Timestamp)
    (body : BusinessBody) (db : Store) :
  status (fst (post_business uuid now body db)) = 200 ->
  exists name ls hs ss rs,
    p_name body = Some name /\ name <> ""
    /\ fst (post_business uuid now body db) = Ok200 (uuid 0%nat)
    /\ snd (post_business uuid now body db)
       = mkStore
           (businesses db
            ++ [mkBusiness (uuid 0%nat) name (p_addressLine1 body) (p_addressLine2 body)
                  (p_city body) (p_state body) (p_postal body) now now])
           (locations db ++ ls) (hours db ++ hs) (services db ++ ss)
           (reviews db ++ rs)
    /\ Forall (fun b => b_id b <> uuid 0%nat) (businesses db)
    /\ (Forall (fun l => l_businessId l = uuid 0%nat) ls
        /\ length ls = drawn (p_locations body))
    /\ (Forall (fun h => h_businessId h = uuid 0%nat) hs
        /\ length hs = drawn (p_hours body))
    /\ (Forall (fun s => s_businessId s = uuid 0%nat) ss
        /\ length ss = drawn (p_services body))
    /\ (Forall (fun r => r_businessId r = uuid 0%nat) rs
        /\ length rs = drawn (p_reviews body)).
Proof.
  unfold post_business.
  destruct (p_name body) as [name|] eqn:Ename; cbn [truthy negb or_default];
    [|discriminate].
  destruct (String.eqb_spec name "") as [E|E]; cbn [negb]; [discriminate|].
  destruct (insert_rows business_conflict _ (businesses db)) as [bs|] eqn:Eb;
    cbn; [|discriminate].
  destruct (insert_if_any (location_row now) _ _ _) as [ls'|] eqn:El; cbn; [|discriminate].
  destruct (insert_if_any (hour_row now) _ _ _) as [hs'|] eqn:Eh; cbn; [|discriminate].
  destruct (insert_if_any (service_row now) _ _ _) as [ss'|] eqn:Es; cbn; [|discriminate].
  destruct (insert_if_any (review_row now) _ _ _) as [rs'|] eqn:Er; cbn; [|discriminate].
  intros _.
  pose proof (insert_rows_clear _ _ _ _ Eb) as Hclear.
  apply insert_rows_app in Eb.
  apply (insert_if_any_appends _ _ l_businessId) in El;
    [|intros u i r; apply location_row_owner].
  apply (insert_if_any_appends _ _ h_businessId) in Eh;
    [|intros u i r Hr; apply (hour_row_keys _ _ _ _ _ Hr)].
  apply (insert_if_any_appends _ _ s_businessId) in Es;
    [|intros u i r; apply service_row_owner].
  apply (insert_if_any_appends _ _ r_businessId) in Er;
    [|intros u i r; apply review_row_owner].
  destruct El as [ls [-> Hls]], Eh as [hs [-> Hhs]], Es as [ss [-> Hss]],
    Er as [rs [-> Hrs]].
  subst bs. exists name, ls, hs, ss, rs.
  repeat split; try tauto.
  apply Forall_forall. intros b Hb.
  specialize (Hclear _ b (or_introl eq_refl) Hb).
  unfold business_conflict in Hclear. apply orb_false_iff in Hclear.
  destruct Hclear as [Hid _]. cbn in Hid. apply String.eqb_neq in Hid. congruence.
Qed.

Lemma businessCount_app (db : Store) (bs extra : list Business) (rest : Store)
    (id : string) :
  businesses rest = businesses db ++ extra ->
  (businessCount db id <= businessCount rest id)%nat.
Proof.
  intros E. unfold businessCount. rewrite E, filter_app, length_app. lia.
Qed.

Lemma post_business_no_orphans (uuid : nat -> string) (now : Timestamp)
    (body : BusinessBody) (db : Store) :
  no_orphans db -> no_orphans (snd (post_business uuid now body db)).
Proof.
  intros H.
  destruct (Z.eq_dec (status (fst (post_business uuid now body db))) 200) as [E|E].
  - destruct (post_business_stored uuid now body db E)
      as (name & ls & hs & ss & rs & _ & _ & _ & Hdb & _ & (Hls & _) & (Hhs & _)
          & (Hss & _) & (Hrs & _)).
    rewrite Hdb. clear Hdb. revert H. apply no_orphans_step. intros i Hi.
    assert (Hnew : (1 <= businessCount
                           (mkStore
                              (businesses db
                               ++ [mkBusiness (uuid 0%nat) name (p_addressLine1 body)
                                     (p_addressLine2 body) (p_city body) (p_state body)
                                     (p_postal body) now now])
                              (locations db ++ ls) (hours db ++ hs) (services db ++ ss)
                              (reviews db ++ rs)) (uuid 0%nat))%nat).
    { unfold businessCount. cbn [businesses]. rewrite filter_app, length_app.
      cbn. rewrite String.eqb_refl. cbn. lia. }
    assert (Hold : In i (owners db) ->
                   In i (owners db)
                   /\ (businessCount db i
                       <= businessCount
                            (mkStore
                               (businesses db
                                ++ [mkBusiness (uuid 0%nat) name (p_addressLine1 body)
                                      (p_addressLine2 body) (p_city body) (p_state body)
                                      (p_postal body) now now])
                               (locations db ++ ls) (hours db ++ hs) (services db ++ ss)
                               (reviews db ++ rs)) i)%nat).
    { intros Hin. split; [exact Hin|].
      eapply (businessCount_app db (businesses db)). reflexivity. }
    rewrite Forall_forall in Hls, Hhs, Hss, Hrs.
    owners_cases Hi; apply in_app_iff in Hx; destruct Hx as [Hx|Hx];
      solve [ left; apply Hold; apply owners_In; eauto 7
            | right; rewrite <- Ex;
              first [rewrite (Hls _ Hx) | rewrite (Hhs _ Hx)
                    | rewrite (Hss _ Hx) | rewrite (Hrs _ Hx)];
              exact Hnew ].
  - rewrite (create_failure_leaves_store uuid now body db); [exact H|].
    intros E'. apply E. exact E'.
Qed.

(** X7. No route leaves a child row without its business: if every Location,
    Hour, Service and Review refers to a stored business, the same holds
    after every create, update and delete of a child, after the create and
    the update of a business, and, where the store enforces its foreign
    keys, after the delete of a business. *)
Theorem routes_keep_no_orphans (uuid : nat -> string) (now : Timestamp)
    (default_keyword : bool) (businessId id : string) (hour : HourItem)
    (location : LocationItem) (service : ServiceItem) (review : ReviewItem)
    (w : ChildWrite) (update : gmap string string) (body : BusinessBody)
    (db : Store) :
  no_orphans db ->
  no_orphans (snd (post_hour uuid now businessId hour db))
  /\ no_orphans (snd (post_location uuid now businessId location db))
  /\ no_orphans (snd (post_service uuid now businessId service db))
  /\ no_orphans (snd (post_review uuid now businessId review db))
  /\ no_orphans (snd (child_write default_keyword now w businessId id db))
  /\ no_orphans (snd (post_business uuid now body db))
  /\ no_orphans (snd (put_business now id update db))
  /\ no_orphans (snd (delete_business true id db)).
Proof.
  intros H. repeat split.
  - apply post_hour_no_orphans, H.
  - apply post_location_no_orphans, H.
  - apply post_service_no_orphans, H.
  - apply post_review_no_orphans, H.
  - apply child_write_no_orphans, H.
  - apply post_business_no_orphans, H.
  - apply put_business_no_orphans, H.
  - apply delete_business_no_orphans, H.
Qed.

Lemma routes_keep_no_orphans_witness :
  no_orphans Seed.store
  /\ no_orphans (snd (delete_business true "b2" Seed.store)).
Proof.
  assert (H : no_orphans Seed.store).
  { unfold no_orphans. cbn. repeat constructor. }
  split; [exact H|].
  apply (routes_keep_no_orphans sample_uuid 7 false "b2" "b2" valid_hour
           (mkLocationItem None None (Some "AAA"))
           (mkServiceItem None None (Some "AAA"))
           (mkReviewItem None None (Some 4%Q) Undefined)
           DeleteHour ∅ duplicate_day_body Seed.store H).
Defined.

(** Without enforced foreign keys the delete of a business does leave its
    children behind. *)
Example delete_without_foreign_keys_orphans :
  ~ no_orphans (snd (delete_business false "b2" Seed.store)).
Proof.
  unfold no_orphans. intros H. rewrite Forall_forall in H.
  specialize (H "b2"). cbn in H.
  assert (Hin : In "b2" (owners Seed.store)).
  { cbn. do 7 right. left. reflexivity. }
  specialize (H Hin). vm_compute in H. lia.
Qed.

Lemma drawn_present_if_nonempty {A} (l : list A) :
  drawn (present_if_nonempty l) = length l.
Proof. destruct l; reflexivity. Qed.

Lemma filter_every {A} (p : A -> bool) (l : list A) :
  Forall (fun x => p x = true) l -> filter p l = l.
Proof.
  induction 1 as [|x l Hx _ IH]; cbn; [reflexivity|]. rewrite Hx, IH. reflexivity.
Qed.

Lemma filter_owned {A} (owner : A -> string) (id : string) (old new : list A) :
  Forall (fun r => owner r <> id) old ->
  Forall (fun r => owner r = id) new ->
  filter (fun r => String.eqb (owner r) id) (old ++ new) = new.
Proof.
  intros Hold Hnew. rewrite filter_app.
  rewrite (filter_none _ old), (filter_every _ new); [reflexivity| |].
  - revert Hnew. apply Forall_impl. intros x Hx. apply String.eqb_eq. exact Hx.
  - revert Hold. apply Forall_impl. intros x Hx. apply String.eqb_neq. exact Hx.
Qed.

Lemma owners_Forall (P : string -> Prop) (db : Store) :
  Forall P (owners db) ->
  Forall (fun l => P (l_businessId l)) (locations db)
  /\ Forall (fun h => P (h_businessId h)) (hours db)
  /\ Forall (fun s => P (s_businessId s)) (services db)
  /\ Forall (fun r => P (r_businessId r)) (reviews db).
Proof.
  unfold owners. rewrite !Forall_app, !Forall_map. tauto.
Qed.

(** X8. When the create of a business answers 200 and no child row referred
    to the new id beforehand, a GET of the id in the answer gives the business
    with the name and address of the body, the server's id and timestamps,
    and as many Locations, Hours, Services and Reviews as the body nested. *)
Theorem create_then_get (uuid : nat -> string) (now : Timestamp)
    (body : BusinessBody) (db : Store) :
  status (fst (post_business uuid now body db)) = 200 ->
  Forall (fun id => id <> uuid 0%nat) (owners db) ->
  fst (post_business uuid now body db) = Ok200 (uuid 0%nat)
  /\ exists v,
       get_business (uuid 0%nat) (snd (post_business uuid now body db)) = Ok200 v
       /\ v_business v
          = mkBusiness (uuid 0%nat) (or_default (p_name body) "")
              (p_addressLine1 body) (p_addressLine2 body) (p_city body)
              (p_state body) (p_postal body) now now
       /\ drawn (v_locations v) = drawn (p_locations body)
       /\ drawn (v_hours v) = drawn (p_hours body)
       /\ drawn (v_services v) = drawn (p_services body)
       /\ drawn (v_reviews v) = drawn (p_reviews body).
Proof.
  intros Hok Hfresh.
  destruct (post_business_stored uuid now body db Hok)
    as (name & ls & hs & ss & rs & Hname & _ & Hresp & Hdb & Hids & (Hls & Nls)
        & (Hhs & Nhs) & (Hss & Nss) & (Hrs & Nrs)).
  split; [exact Hresp|].
  apply owners_Forall in Hfresh. destruct Hfresh as (Fl & Fh & Fs & Fr).
  rewrite Hdb, get_business_rows. cbn [businesses].
  rewrite filter_app, (filter_none _ (businesses db)).
  2:{ revert Hids. apply Forall_impl. intros b Hb. apply String.eqb_neq. exact Hb. }
  cbn [filter b_id app]. rewrite String.eqb_refl. cbn [map].
  eexists. split; [reflexivity|]. cbn [v_business v_locations v_hours v_services v_reviews].
  rewrite Hname. cbn [or_default]. split; [reflexivity|].
  unfold getLocations, getHours, getServices, getReviews.
  cbn [locations hours services reviews].
  rewrite !drawn_present_if_nonempty, !orderBy_length.
  rewrite (filter_owned l_businessId), (filter_owned h_businessId),
    (filter_owned s_businessId), (filter_owned r_businessId) by assumption.
  repeat split; assumption.
Qed.

Lemma create_then_get_witness :
  status (fst (post_business sample_uuid 7 inverted_hour_body Seed.store)) = 200
  /\ exists v,
       get_business "a" (snd (post_business sample_uuid 7 inverted_hour_body Seed.store))
       = Ok200 v
       /\ drawn (v_hours v) = 1%nat.
Proof.
  assert (H : status (fst (post_business sample_uuid 7 inverted_hour_body Seed.store))
              = 200) by reflexivity.
  split; [exact H|].
  assert (Hfresh : Forall (fun id => id <> sample_uuid 0) (owners Seed.store)).
  { cbn. repeat constructor; discriminate. }
  destruct (create_then_get sample_uuid 7 inverted_hour_body Seed.store H Hfresh)
    as (_ & v & Hget & _ & _ & Hh & _).
  exists v. split; [exact Hget | exact Hh].
Defined.

(* ------------------------------------------------------------------ *)
(** ** Ids come from the server *)

Lemma addIds_without_ids {I} `{HasIds I} (strip : I -> I) (uuid : nat -> string)
    (next : nat) (items : option (list I)) (id : string) :
  (forall u b i, assign_ids u b (strip i) = assign_ids u b i) ->
  addIds uuid next (option_map (map strip) items) id = addIds uuid next items id.
Proof.
  intros Hstrip. destruct items as [[|x l]|]; [reflexivity| |reflexivity].
  cbn [option_map map]. unfold addIds. f_equal.
  change (strip x :: map strip l) with (map strip (x :: l)).
  generalize (x :: l) as items. intros items. revert next.
  induction items as [|y items IH]; intros next; [reflexivity|].
  cbn [map imap]. rewrite Hstrip. f_equal.
  pose proof (IH (S next)) as IH'.
  erewrite (imap_ext _ (fun i item => assign_ids (uuid (S next + i)%nat) id item)
              (map strip items)) by (intros; cbn; f_equal; f_equal; lia).
  rewrite IH'. apply imap_ext. intros. cbn. f_equal. f_equal. lia.
Qed.

Lemma drawn_map {I} (strip : I -> I) (items : option (list I)) :
  drawn (option_map (map strip) items) = drawn items.
Proof. destruct items; cbn; [apply length_map | reflexivity]. Qed.

(** X9. The ids of a request are never stored: a create of a business, and a
    create of a child, do exactly the same whether or not the nested objects
    (or the child) carry an id or a businessId of their own. *)
Theorem client_ids_are_ignored (uuid : nat -> string) (now : Timestamp)
    (businessId : string) (body : BusinessBody) (hour : HourItem)
    (location : LocationItem) (service : ServiceItem) (review : ReviewItem)
    (db : Store) :
  post_business uuid now (body_without_ids body) db = post_business uuid now body db
  /\ post_hour uuid now businessId (hour_without_ids hour) db
     = post_hour uuid now businessId hour db
  /\ post_location uuid now businessId (location_without_ids location) db
     = post_location uuid now businessId location db
  /\ post_service uuid now businessId (service_without_ids service) db
     = post_service uuid now businessId service db
  /\ post_review uuid now businessId (review_without_ids review) db
     = post_review uuid now businessId review db.
Proof.
  split; [|repeat split; reflexivity].
  unfold post_business, body_without_ids.
  cbn [p_name p_addressLine1 p_addressLine2 p_city p_state p_postal p_locations
         p_hours p_services p_reviews].
  rewrite !drawn_map.
  rewrite (addIds_without_ids location_without_ids),
    (addIds_without_ids hour_without_ids),
    (addIds_without_ids service_without_ids),
    (addIds_without_ids review_without_ids) by reflexivity.
  reflexivity.
Qed.

(* ------------------------------------------------------------------ *)
(** ** Update of a business *)

Lemma filter_update_other {A} (p matching : A -> bool) (set : A -> A) (table : list A) :
  (forall r, matching r = true -> p r = false /\ p (set r) = false) ->
  filter p (map (fun r => if matching r then set r else r) table) = filter p table.
Proof.
  intros H. induction table as [|r l IH]; [reflexivity|].
  cbn [map filter]. destruct (matching r) eqn:E.
  - destruct (H r E) as [H1 H2]. rewrite H1, H2. exact IH.
  - rewrite IH. reflexivity.
Qed.

(** X10. PUT on a business touches that business only: no row of a child
    table changes, no business is added or removed, and a GET of any other
    id gives the same answer before and after. *)
Theorem put_business_touches_one_business (now : Timestamp) (id id' : string)
    (body : gmap string string) (db : Store) :
  id' <> id ->
  locations (snd (put_business now id body db)) = locations db
  /\ hours (snd (put_business now id body db)) = hours db
  /\ services (snd (put_business now id body db)) = services db
  /\ reviews (snd (put_business now id body db)) = reviews db
  /\ map b_id (businesses (snd (put_business now id body db)))
     = map b_id (businesses db)
  /\ get_business id' (snd (put_business now id body db)) = get_business id' db.
Proof.
  intros Hne.
  destruct (put_business_children now id body db) as (Hl & Hh & Hs & Hr).
  repeat split; try assumption.
  - unfold put_business.
    repeat match goal with
           | |- context [if ?c then (_, db) else _] => destruct c; [reflexivity|]
           end.
    destruct (update_rows _ _ _ _) as [t'|] eqn:E; [|reflexivity].
    apply update_rows_map in E. subst t'. cbn [snd businesses].
    rewrite map_map. apply map_ext. intros b.
    destruct (String.eqb (b_id b) id); reflexivity.
  - apply get_business_ext; rewrite ?Hl, ?Hh, ?Hs, ?Hr; try reflexivity.
    unfold put_business.
    repeat match goal with
           | |- context [if ?c then (_, db) else _] => destruct c; [reflexivity|]
           end.
    destruct (update_rows _ _ _ _) as [t'|] eqn:E; [|reflexivity].
    apply update_rows_map in E. subst t'. cbn [snd businesses].
    apply filter_update_other. intros b Hb. cbn [b_id].
    apply String.eqb_eq in Hb.
    assert (String.eqb (b_id b) id' = false) by (apply String.eqb_neq; congruence).
    split; assumption.
Qed.

Lemma put_business_touches_one_business_witness :
  "b1" <> "b2"
  /\ get_business "b1" (snd (put_business 9 "b2" {[ "name" := "ZZZ" ]} Seed.store))
     = get_business "b1" Seed.store.
Proof.
  split; [discriminate|].
  pose proof (put_business_touches_one_business 9 "b2" "b1" {[ "name" := "ZZZ" ]}
                Seed.store ltac:(discriminate)) as (_ & _ & _ & _ & _ & H).
  exact H.
Defined.

Lemma truthy_Some (v : option string) :
  truthy v = true -> exists s, v = Some s /\ s <> "".
Proof.
  destruct v as [s|]; cbn; [|discriminate].
  destruct (String.eqb_spec s ""); cbn; [discriminate|]. eauto.
Qed.

(** X11. PUT on a business cannot blank anything: row by row, the id and the
    creation time are kept, a non-empty name stays non-empty and an address
    column that held a value still holds one, whatever the body. *)
Theorem put_business_never_blanks (now : Timestamp) (id : string)
    (body : gmap string string) (db : Store) :
  Forall2 never_blanked (businesses db)
    (businesses (snd (put_business now id body db))).
Proof.
  assert (Hsame : forall l : list Business, Forall2 never_blanked l l).
  { induction l; constructor; [|assumption]. unfold never_blanked. tauto. }
  unfold put_business.
  repeat match goal with
         | |- context [if ?c then (_, db) else _] => destruct c; [apply Hsame|]
         end.
  destruct (update_rows _ _ _ _) as [t'|] eqn:E; [|apply Hsame].
  apply update_rows_map in E. subst t'. cbn [snd businesses].
  induction (businesses db) as [|b l IH]; cbn [map]; constructor; [|exact IH].
  destruct (String.eqb (b_id b) id); [|unfold never_blanked; tauto].
  unfold never_blanked, set_if_truthy, set_nullable_if_truthy. cbn.
  repeat split; try reflexivity;
    match goal with
    | |- context [truthy ?v] =>
        destruct (truthy v) eqn:Et; [|tauto];
        apply truthy_Some in Et; destruct Et as [s [-> Hs]]; cbn; intros _; congruence
    end.
Qed.

Lemma two_in_filter {A} (p : A -> bool) (l : list A) (x y : A) :
  In x l -> In y l -> x <> y -> p x = true -> p y = true ->
  (2 <= length (filter p l))%nat.
Proof.
  intros Hx Hy Hne Px Py.
  assert (Hone : forall z (k : list A), In z k -> p z = true ->
                                        (1 <= length (filter p k))%nat).
  { intros z k Hz Pz. induction k as [|a k IH]; [destruct Hz|].
    cbn [filter]. destruct Hz as [->|Hz].
    - rewrite Pz. cbn. lia.
    - specialize (IH Hz). destruct (p a); cbn; lia. }
  induction l as [|a l IH]; [destruct Hx|].
  cbn [filter]. destruct Hx as [->|Hx], Hy as [->|Hy].
  - congruence.
  - rewrite Px. cbn. specialize (Hone y l Hy Py). lia.
  - rewrite Py. cbn. specialize (Hone x l Hx Px). lia.
  - specialize (IH Hx Hy). destruct (p a); cbn; lia.
Qed.

(** X12. PUT that would give a business the name of another business is
    answered 500 and changes nothing. *)
Theorem put_business_duplicate_name (now : Timestamp) (id name : string)
    (body : gmap string string) (db : Store) (target other : Business) :
  body !! "name" = Some name -> name <> "" ->
  In target (businesses db) -> b_id target = id ->
  In other (businesses db) -> b_id other <> id -> b_name other = name ->
  put_business now id body db = (Error500, db).
Proof.
  intros Hname Hne Htarget Hid Hother Hoid Honame. subst id.
  unfold put_business. rewrite Hname.
  assert (Htruthy : truthy (Some name) = true).
  { cbn. destruct (String.eqb_spec name ""); [contradiction|reflexivity]. }
  rewrite Htruthy. cbn [negb andb].
  assert (Hcount : (businessCount db (b_id target) <? 1)%nat = false).
  { apply Nat.ltb_ge. unfold businessCount.
    assert (Hin : In target (filter (fun b => String.eqb (b_id b) (b_id target))
                               (businesses db)))
      by (apply filter_In; split; [exact Htarget | apply String.eqb_refl]).
    destruct (filter _ (businesses db)); [destruct Hin | cbn; lia]. }
  rewrite Hcount.
  assert (E : String.eqb (b_id other) (b_id target) = false)
    by (apply String.eqb_neq; exact Hoid).
  match goal with
  | |- context [update_rows ?c ?m ?f ?t] =>
      assert (Hnone : update_rows c m f t = None); [|rewrite Hnone; reflexivity]
  end.
  unfold update_rows.
  match goal with
  | |- (if ?e then _ else _) = None => assert (He : e = true); [|rewrite He; reflexivity]
  end.
  apply existsb_exists. exists target. split; [exact Htarget|].
  rewrite String.eqb_refl. cbn [andb].
  apply Nat.ltb_lt.
  match goal with
  | |- (1 < length (filter ?p (map ?g _)))%nat =>
      apply (two_in_filter p _ (g target) (g other));
        [exact (in_map g _ _ Htarget) | exact (in_map g _ _ Hother) | | |]
  end.
  - cbn beta. rewrite String.eqb_refl, E.
    intros Heq. apply Hoid. rewrite <- Heq. reflexivity.
  - cbn beta. rewrite String.eqb_refl.
    unfold business_conflict. cbn. rewrite String.eqb_refl. reflexivity.
  - cbn beta. rewrite E.
    unfold business_conflict, set_if_truthy. cbn [b_id b_name].
    rewrite Htruthy. cbn [or_default].
    rewrite Honame, String.eqb_refl. apply orb_true_r.
Qed.

Lemma put_business_duplicate_name_witness :
  put_business 9 "b2" {[ "name" := "Sample Business #3" ]} Seed.store
  = (Error500, Seed.store).
Proof.
  apply (put_business_duplicate_name 9 "b2" "Sample Business #3" _ Seed.store
           (Seed.business "b2" "Sample Business #2" "1234 Foobar St" "Suite 500"
              "Denver" "CO" "80201")
           (Seed.business "b3" "Sample Business #3" "23456 5th Ave" "Suite A"
              "Henderson" "CO" "80640")).
  - reflexivity.
  - discriminate.
  - right. left. reflexivity.
  - reflexivity.
  - right. right. left. reflexivity.
  - discriminate.
  - reflexivity.
Defined.

(* ------------------------------------------------------------------ *)
(** ** Search: the order of the answer *)

(** X13. The businesses a search sends back are in the order asked for: by
    rating, ascending with the unrated first or descending with the unrated
    last, or else by name, ascending or descending. *)
Theorem search_answer_is_sorted (search : Search) (db : Store) :
  status (response (post_search search db)) <> 400 ->
  (sortBy_of search = "rating" ->
   Sorted (fun x y => if String.eqb (sortDirection_of search) "desc"
                      then null_first_le y x = true
                      else null_first_le x y = true)
     (map avgRating (returned (post_search search db))))
  /\ (sortBy_of search = "name" ->
      Sorted (fun x y => if String.eqb (sortDirection_of search) "desc"
                         then String.leb y x = true
                         else String.leb x y = true)
        (map (fun v => b_name (v_business v)) (returned (post_search search db)))).
Proof.
  intros Hvalid. rewrite (returned_accepted _ _ Hvalid).
  rewrite !map_map. unfold search_query, search_order, direction.
  split; intros Hby; rewrite Hby; cbn [String.eqb Ascii.eqb Bool.eqb];
    apply Sorted_map, Sorted_firstn;
    destruct (String.eqb (sortDirection_of search) "desc");
    match goal with
    | |- Sorted _ (orderBy ?le _) =>
        apply (orderBy_sorted le); intros a b;
          first [apply null_first_le_total | apply string_leb_total]
    end.
Qed.

Lemma search_answer_is_sorted_witness :
  status (response
            (post_search (with_sort (Some "RATING") (Some "Desc") no_filters)
               Seed.store)) <> 400
  /\ Sorted (fun x y => null_first_le y x = true)
       (map avgRating
          (returned (post_search (with_sort (Some "RATING") (Some "Desc") no_filters)
                       Seed.store))).
Proof.
  assert (H : status (response
                        (post_search (with_sort (Some "RATING") (Some "Desc") no_filters)
                           Seed.store)) <> 400) by (vm_compute; discriminate).
  split; [exact H|].
  exact (proj1 (search_answer_is_sorted _ Seed.store H) eq_refl).
Defined.

(* ------------------------------------------------------------------ *)
(** ** Search and get-by-id agree *)

Lemma filter_unique {A} (f : A -> string) (l : list A) (x : A) :
  NoDup (map f l) -> In x l ->
  filter (fun y => String.eqb (f y) (f x)) l = [x].
Proof.
  induction l as [|a l IH]; intros Hnd Hx; [destruct Hx|].
  cbn [map] in Hnd. inversion Hnd as [|? ? Hnot Hnd']; subst.
  cbn [filter]. destruct Hx as [->|Hx].
  - rewrite String.eqb_refl. f_equal. apply filter_none.
    apply Forall_forall. intros y Hy. apply String.eqb_neq. intros E.
    apply Hnot. rewrite <- E. apply in_map. exact Hy.
  - destruct (String.eqb_spec (f a) (f x)) as [E|E].
    + exfalso. apply Hnot. rewrite E. apply in_map. exact Hx.
    + apply IH; assumption.
Qed.

(** X14. Where business ids are unique, every business a search sends back is
    exactly what a GET of its id answers. *)
Theorem search_agrees_with_get (search : Search) (db : Store) :
  NoDup (map b_id (businesses db)) ->
  Forall (fun v => get_business (b_id (v_business v)) db = Ok200 v)
    (returned (post_search search db)).
Proof.
  intros Hnd. apply Forall_forall. intros v Hv.
  apply returned_In in Hv. destruct Hv as [b [-> [Hin _]]].
  cbn [hydrate v_business]. unfold get_business.
  rewrite (filter_unique (fun r => b_id (row r)) (select_businesses db) b).
  - reflexivity.
  - rewrite <- (map_map row b_id), select_businesses_rows. exact Hnd.
  - exact Hin.
Qed.

Lemma search_agrees_with_get_witness :
  NoDup (map b_id (businesses Seed.store))
  /\ Forall (fun v => get_business (b_id (v_business v)) Seed.store = Ok200 v)
       (returned (post_search no_filters Seed.store)).
Proof.
  assert (H : NoDup (map b_id (businesses Seed.store))).
  { cbn. repeat constructor; cbn; intuition discriminate. }
  split; [exact H|].
  apply (search_agrees_with_get no_filters Seed.store H).
Defined.

(* ------------------------------------------------------------------ *)
(** ** Search: the service and location filters *)

(** X15. With a non-empty service text in the search every business sent
    back offers a Service whose name matches it, and with a non-empty
    location text every business sent back serves a Location whose name
    matches it. *)
Theorem service_and_location_filters (search : Search) (db : Store) :
  Forall (fun v =>
            (forall needle, q_service search = Some needle -> needle <> "" ->
                            has_service db needle (v_business v))
            /\ (forall needle, q_location search = Some needle -> needle <> "" ->
                               has_location db needle (v_business v)))
    (returned (post_search search db)).
Proof.
  apply Forall_forall. intros v Hv.
  apply returned_In in Hv. destruct Hv as [b [-> [_ Hw]]].
  cbn [hydrate v_business].
  unfold where_clause in Hw. rewrite !andb_true_iff in Hw.
  destruct Hw as [[[[_ _] Hs] Hl] _].
  split; intros needle Hq Hne.
  - unfold service_filter in Hs. rewrite Hq in Hs. cbn [truthy] in Hs.
    destruct (String.eqb_spec needle ""); [contradiction|]. cbn [negb] in Hs.
    apply existsb_exists in Hs. destruct Hs as [s [Hin Hs]].
    apply andb_true_iff in Hs. destruct Hs as [Hlike Hb].
    exists s. repeat split; [exact Hin | apply String.eqb_eq; exact Hb | exact Hlike].
  - unfold location_filter in Hl. rewrite Hq in Hl. cbn [truthy] in Hl.
    destruct (String.eqb_spec needle ""); [contradiction|]. cbn [negb] in Hl.
    apply existsb_exists in Hl. destruct Hl as [l [Hin Hl]].
    apply andb_true_iff in Hl. destruct Hl as [Hlike Hb].
    exists l. repeat split; [exact Hin | apply String.eqb_eq; exact Hb | exact Hlike].
Qed.

(* ------------------------------------------------------------------ *)
(** ** Search: what a text filter matches *)

Lemma like_percent (p t : string) :
  like (String "%" p) t
  = like p t || match t with
                | EmptyString => false
                | String _ t' => like (String "%" p) t'
                end.
Proof. destruct t; reflexivity. Qed.

Lemma like_literal (c : ascii) (p t : string) :
  c <> "%"%char -> c <> "_"%char ->
  like (String c p) t
  = match t with
    | EmptyString => false
    | String d t' => Ascii.eqb (lower_ascii c) (lower_ascii d) && like p t'
    end.
Proof.
  intros H1 H2. cbn [like].
  apply Ascii.eqb_neq in H1. apply Ascii.eqb_neq in H2. rewrite H1.
  destruct t; [reflexivity|]. rewrite H2. reflexivity.
Qed.

Lemma append_nil_l (s : string) : (EmptyString ++ s)%string = s.
Proof. reflexivity. Qed.

Lemma append_cons (c : ascii) (s t : string) :
  (String c s ++ t)%string = String c (s ++ t)%string.
Proof. reflexivity. Qed.

Lemma append_nil_r (s : string) : (s ++ EmptyString)%string = s.
Proof.
  induction s as [|c s IH]; [reflexivity|]. rewrite append_cons, IH. reflexivity.
Qed.

Lemma like_percent_iff (p t : string) :
  like (String "%" p) t = true
  <-> exists pre suf, t = (pre ++ suf)%string /\ like p suf = true.
Proof.
  induction t as [|c t IH]; rewrite like_percent.
  - rewrite orb_false_r. split.
    + intros H. exists EmptyString, EmptyString. split; [reflexivity | exact H].
    + intros [pre [suf [E H]]].
      destruct pre; [|rewrite append_cons in E; discriminate E].
      rewrite append_nil_l in E. subst suf. exact H.
  - rewrite orb_true_iff, IH. split.
    + intros [H|[pre [suf [E H]]]].
      * exists EmptyString, (String c t). split; [reflexivity | exact H].
      * exists (String c pre), suf.
        split; [rewrite append_cons, E; reflexivity | exact H].
    + intros [pre [suf [E H]]]. destruct pre as [|d pre].
      * left. rewrite append_nil_l in E. subst suf. exact H.
      * right. rewrite append_cons in E. inversion E; subst.
        exists pre, suf. split; [reflexivity | exact H].
Qed.

Lemma like_prefix_iff (p t : string) :
  wildcard_free p ->
  like (p ++ "%")%string t = true
  <-> exists mid rest, t = (mid ++ rest)%string /\ toLowerCase mid = toLowerCase p.
Proof.
  revert t. induction p as [|c p IH]; intros t Hfree.
  - rewrite append_nil_l. split.
    + intros _. exists EmptyString, t. split; reflexivity.
    + intros _. apply like_percent_iff. exists t, EmptyString.
      split; [rewrite append_nil_r; reflexivity | reflexivity].
  - destruct Hfree as [H1 [H2 Hfree]]. rewrite append_cons.
    rewrite (like_literal c _ t H1 H2). destruct t as [|d t].
    + split; [discriminate|]. intros [mid [rest [E Hlow]]].
      destruct mid; [discriminate Hlow | rewrite append_cons in E; discriminate E].
    + rewrite andb_true_iff, (IH t Hfree). split.
      * intros [Hc [mid [rest [E Hlow]]]]. apply Ascii.eqb_eq in Hc.
        exists (String d mid), rest.
        split; [rewrite append_cons, E; reflexivity|].
        cbn [toLowerCase]. rewrite Hlow, Hc. reflexivity.
      * intros [mid [rest [E Hlow]]]. destruct mid as [|d' mid]; [discriminate Hlow|].
        rewrite append_cons in E. inversion E; subst.
        cbn [toLowerCase] in Hlow. injection Hlow as Hc Hrest.
        split; [apply Ascii.eqb_eq; symmetry; exact Hc|].
        exists mid, rest. split; [reflexivity | exact Hrest].
Qed.

Lemma lower_ascii_idempotent (c : ascii) : lower_ascii (lower_ascii c) = lower_ascii c.
Proof. destruct c as [[] [] [] [] [] [] [] []]; reflexivity. Qed.

Lemma lower_ascii_not_wildcard (c : ascii) :
  c <> "%"%char -> c <> "_"%char ->
  lower_ascii c <> "%"%char /\ lower_ascii c <> "_"%char.
Proof.
  destruct c as [[] [] [] [] [] [] [] []]; intros H1 H2; split;
    solve [discriminate | exact H1 | exact H2].
Qed.

Lemma toLowerCase_idempotent (s : string) : toLowerCase (toLowerCase s) = toLowerCase s.
Proof.
  induction s as [|c s IH]; cbn; [reflexivity|].
  rewrite lower_ascii_idempotent, IH. reflexivity.
Qed.

Lemma toLowerCase_wildcard_free (s : string) :
  wildcard_free s -> wildcard_free (toLowerCase s).
Proof.
  induction s as [|c s IH]; cbn; [tauto|].
  intros [H1 [H2 H]]. destruct (lower_ascii_not_wildcard c H1 H2). tauto.
Qed.

Lemma same_up_to_ascii_case_iff (s t : string) :
  same_up_to_ascii_case s t <-> toLowerCase s = toLowerCase t.
Proof.
  revert t. induction s as [|c s IH]; intros [|d t]; cbn.
  - split; reflexivity.
  - split; [contradiction | discriminate].
  - split; [contradiction | discriminate].
  - rewrite IH. split.
    + intros [-> ->]. reflexivity.
    + intros H. injection H as Hc Hs. split; assumption.
Qed.

(** X16. For a search text of ASCII characters without [%] and [_], short
    enough for the pattern to stay within SQLite's limit of 50000 bytes, and
    with no NUL in it or in the column, a text filter is a substring test up
    to the case of ASCII letters: the column matches exactly when some
    stretch of it equals the text up to the case of the letters A-Z and a-z.
    A NULL column never matches.  (A text with other letters is outside this
    statement: JavaScript lowers letters such as an accented capital before
    the query, and [LIKE] does not.) *)
Theorem text_filter_is_substring (needle text : string) :
  ascii_only needle ->
  nul_free needle ->
  nul_free text ->
  Z.of_nat (String.length needle) <= 49998 ->
  wildcard_free needle ->
  (column_like (Some text) needle = true
   <-> exists pre mid post,
         text = (pre ++ mid ++ post)%string
         /\ same_up_to_ascii_case mid needle)
  /\ column_like None needle = false.
Proof.
  intros _ _ _ _ Hfree. split; [|reflexivity].
  unfold column_like.
  change ("%" ++ toLowerCase needle ++ "%")%string
    with (String "%" (toLowerCase needle ++ "%")%string).
  rewrite like_percent_iff. split.
  - intros [pre [suf [E H]]].
    apply like_prefix_iff in H; [|apply toLowerCase_wildcard_free; exact Hfree].
    destruct H as [mid [rest [E' Hlow]]]. rewrite toLowerCase_idempotent in Hlow.
    exists pre, mid, rest. subst.
    split; [reflexivity | apply same_up_to_ascii_case_iff; exact Hlow].
  - intros [pre [mid [post [E Hlow]]]]. apply same_up_to_ascii_case_iff in Hlow.
    exists pre, (mid ++ post)%string.
    split; [exact E|].
    apply like_prefix_iff; [apply toLowerCase_wildcard_free; exact Hfree|].
    exists mid, post. rewrite toLowerCase_idempotent. split; [reflexivity | exact Hlow].
Qed.

Lemma text_filter_is_substring_witness :
  ascii_only "bUsInESs #2"
  /\ nul_free "bUsInESs #2"
  /\ nul_free "Sample Business #2"
  /\ Z.of_nat (String.length "bUsInESs #2") <= 49998
  /\ wildcard_free "bUsInESs #2"
  /\ column_like (Some "Sample Business #2") "bUsInESs #2" = true.
Proof.
  assert (Ha : ascii_only "bUsInESs #2") by reflexivity.
  assert (Hn : nul_free "bUsInESs #2") by (cbn; repeat split; discriminate).
  assert (Ht : nul_free "Sample Business #2") by (cbn; repeat split; discriminate).
  assert (Hl : Z.of_nat (String.length "bUsInESs #2") <= 49998) by (cbn; lia).
  assert (H : wildcard_free "bUsInESs #2") by (cbn; repeat split; discriminate).
  split; [exact Ha|]. split; [exact Hn|]. split; [exact Ht|].
  split; [exact Hl|]. split; [exact H|].
  apply (proj1 (text_filter_is_substring "bUsInESs #2" "Sample Business #2"
                  Ha Hn Ht Hl H)).
  exists "Sample ", "Business #2", "". split; [reflexivity|].
  cbn. repeat split; reflexivity.
Defined.

(** The wildcards are not escaped: a search for "%" passes every business
    and "D_n" finds "Denver". *)
Example text_filter_wildcards :
  Seed.names (post_search (mkSearch (Some "%") None None None None None None None
                             None None None None None) Seed.store)
  = Some ["Sample Business #1"; "Sample Business #2"; "Sample Business #3"]
  /\ column_like (Some "Denver") "D_n" = true
  /\ column_like (Some "Dxn") "D_n" = true.
Proof. vm_compute. repeat split; reflexivity. Qed.

(* ------------------------------------------------------------------ *)
(** ** Ratings stay on the scale *)

Lemma sum_in_scale (l : list Q) :
  Forall rating_in_scale l ->
  (0 <= fold_right Qplus 0 l
   /\ fold_right Qplus 0 l <= 5 * inject_Z (Z.of_nat (length l)))%Q.
Proof.
  induction 1 as [|x l [Hx0 Hx5] _ [IH0 IH5]].
  - split; unfold Qle; cbn; lia.
  - cbn [fold_right length]. rewrite Nat2Z.inj_succ. unfold Z.succ.
    rewrite inject_Z_plus. change (inject_Z 1) with 1%Q. split; lra.
Qed.

Lemma round_in_scale (m : Q) : rating_in_scale m -> rating_in_scale (sql_round1 m).
Proof.
  intros [H0 H5]. unfold sql_round1, round_half_away.
  assert (Hx : (0 <= m * 10)%Q) by lra.
  assert (Hpos : Qle_bool 0 (m * 10) = true) by (apply Qle_bool_iff; exact Hx).
  rewrite Hpos.
  assert (Hlo : 0 <= Qfloor (m * 10 + (1 # 2))).
  { change 0 with (Qfloor (1 # 2)). apply Qfloor_resp_le. lra. }
  assert (Hhi : Qfloor (m * 10 + (1 # 2)) <= 50).
  { change 50 with (Qfloor (101 # 2)). apply Qfloor_resp_le. lra. }
  set (r := Qfloor (m * 10 + (1 # 2))) in *.
  unfold rating_in_scale, Qle. cbn [Qnum Qden]. lia.
Qed.

Lemma mean_in_scale (l : list Q) (m : Q) :
  l <> [] -> is_mean l m -> Forall rating_in_scale l -> rating_in_scale m.
Proof.
  intros Hne Hmean Hall. destruct (sum_in_scale l Hall) as [H0 H5].
  unfold is_mean in Hmean. rewrite <- Hmean in H0, H5.
  assert (Hn : (0 < inject_Z (Z.of_nat (length l)))%Q).
  { destruct l; [contradiction|]. unfold Qlt, inject_Z. cbn [Qnum Qden length]. lia. }
  split.
  - apply (Qmult_le_r _ _ _ Hn). lra.
  - apply (Qmult_le_r _ _ _ Hn). exact H5.
Qed.

(** X17. When every rating of a business's reviews is between 0 and 5, so is
    its avgRating, in get-by-id and in every search answer. *)
Theorem avgRating_in_scale (db : Store) (search : Search) :
  Forall (fun r => rating_in_scale (r_rating r)) (reviews db) ->
  (forall id,
      match avgRating_subquery db id with
      | Some q => rating_in_scale q
      | None => ratings_of db id = []
      end)
  /\ Forall (fun v => match avgRating v with
                      | Some q => rating_in_scale q
                      | None => True
                      end) (returned (post_search search db)).
Proof.
  intros Hall.
  assert (Hsub : forall id,
             match avgRating_subquery db id with
             | Some q => rating_in_scale q
             | None => ratings_of db id = []
             end).
  { intros id. unfold avgRating_subquery. fold (ratings_of db id).
    assert (Hr : Forall rating_in_scale (ratings_of db id)).
    { unfold ratings_of. apply Forall_map. apply Forall_forall. intros r Hr.
      apply filter_In in Hr. rewrite Forall_forall in Hall. apply Hall, Hr. }
    pose proof (sql_avg_mean (ratings_of db id)) as Hm.
    destruct (sql_avg (ratings_of db id)) as [m|]; cbn [option_map]; [|exact Hm].
    destruct Hm as [Hne Hm]. apply round_in_scale.
    apply (mean_in_scale _ _ Hne Hm Hr). }
  split; [exact Hsub|].
  apply Forall_forall. intros v Hv.
  apply returned_In in Hv. destruct Hv as [b [-> [Hin _]]].
  cbn [hydrate avgRating]. rewrite (select_businesses_avgRating db b Hin).
  specialize (Hsub (b_id (row b))).
  destruct (avgRating_subquery db (b_id (row b))); [exact Hsub | exact I].
Qed.

Lemma avgRating_in_scale_witness :
  Forall (fun r => rating_in_scale (r_rating r)) (reviews Seed.store)
  /\ match avgRating_subquery Seed.store "b2" with
     | Some q => rating_in_scale q
     | None => ratings_of Seed.store "b2" = []
     end.
Proof.
  assert (H : Forall (fun r => rating_in_scale (r_rating r)) (reviews Seed.store)).
  { cbn. repeat constructor; cbn; discriminate. }
  split; [exact H|].
  exact (proj1 (avgRating_in_scale Seed.store no_filters H) "b2").
Defined.

Lemma rating_guard (v : option Q) :
  Reviews.rating_invalid v = false -> exists x, v = Some x /\ rating_in_scale x.
Proof.
  unfold Reviews.rating_invalid. destruct v as [x|]; [|discriminate].
  intros H. apply orb_false_iff in H. destruct H as [H0 H5].
  apply negb_false_iff in H0, H5. apply Qle_bool_iff in H0, H5.
  exists x. split; [reflexivity | split; assumption].
Qed.

Lemma lookup_review_object (id businessId : Json) (object : gmap string Json)
    (key : string) :
  delete "updated_at"
    (delete "created_at"
       (<["businessId" := businessId]> (<["id" := id]> object))) !! key
  = if String.eqb key "updated_at" then None
    else if String.eqb key "created_at" then None
    else if String.eqb key "businessId" then Some businessId
    else if String.eqb key "id" then Some id else object !! key.
Proof.
  destruct (String.eqb_spec key "updated_at") as [->|H1].
  - apply lookup_delete_eq.
  - rewrite lookup_delete_ne by congruence.
    destruct (String.eqb_spec key "created_at") as [->|H2].
    + apply lookup_delete_eq.
    + rewrite lookup_delete_ne by congruence. apply lookup_with_ids.
Qed.

(** The guard of the reviews routes on a rating that is a number: it comes
    to a verdict, and when it lets the body pass, the store receives a
    rating between 0 and 5. *)
Lemma rating_guard_json (body : gmap string Json) :
  number_rating body ->
  exists g : bool,
    undefined_or_outside (body !! "rating") 0 5 = Some g
    /\ (g = false ->
        exists q, body !! "rating" = Some (JNumber (Num q)) /\ rating_in_scale q).
Proof.
  intros Hnum. specialize (Hnum).
  destruct (body !! "rating") as [v|] eqn:E.
  - destruct (Hnum v E) as [x ->]. rewrite undefined_or_outside_number.
    eexists. split; [reflexivity|].
    destruct x as [q|negative]; [|discriminate].
    intros H. apply orb_false_iff in H. destruct H as [H0 H5].
    apply negb_false_iff in H0, H5. apply Qle_bool_iff in H0, H5.
    exists q. split; [reflexivity | split; assumption].
  - exists true. split; [reflexivity | discriminate].
Qed.

(** X18. The reviews routes never store a rating off the scale on a request
    whose rating is a JSON number where present: if every stored rating is
    between 0 and 5, then
    - the PUT comes to an answer, when the comment is absent, null or a
      string, and every rating is so afterwards;
    - the POST does, when moreover its body names nothing but columns of
      the table (the body is inserted whole, and a property such as
      [RATING] would name the column [rating] past the guard);
    - every rating is so after a DELETE. *)
Theorem reviews_routes_keep_scale (uuid : nat -> string) (now : Timestamp)
    (default_keyword : bool) (businessId id : string) (body : gmap string Json)
    (db : Store) :
  number_rating body ->
  Forall (fun r => rating_in_scale (r_rating r)) (reviews db) ->
  (insertable_review body ->
   exists r db',
     Raw.post_review uuid now businessId body db = Some (r, db')
     /\ Forall (fun r => rating_in_scale (r_rating r)) (reviews db'))
  /\ (plain_comment body ->
      exists r db',
        Raw.put_review default_keyword businessId id body db = Some (r, db')
        /\ Forall (fun r => rating_in_scale (r_rating r)) (reviews db'))
  /\ Forall (fun r => rating_in_scale (r_rating r))
       (reviews (snd (Reviews.del businessId id db))).
Proof.
  intros Hnum Hall.
  destruct (rating_guard_json body Hnum) as (g & Eg & Hpass).
  split; [|split].
  - intros [Hcols Hcomment]. unfold Raw.post_review. rewrite Eg.
    cbn [mbind option_bind].
    destruct g; [eexists; eexists; split; [reflexivity | exact Hall]|].
    cbv zeta.
    destruct (businessCount db businessId <? 1)%nat;
      [eexists; eexists; split; [reflexivity | exact Hall]|].
    destruct (Hpass eq_refl) as (q & Hq & Hscale).
    unfold review_of_json.
    rewrite only_columns_delete;
      [| apply only_columns_delete;
         apply only_columns_insert; [cbn; tauto|];
         apply only_columns_insert; [cbn; tauto | exact Hcols]].
    rewrite !lookup_review_object. cbn [String.eqb Ascii.eqb Bool.eqb].
    rewrite Hq. cbn [write text_cell number_cell mbind option_bind written held].
    assert (Hw : exists w, write text_cell (body !! "comment") = Some w).
    { unfold plain_comment in Hcomment.
      destruct (body !! "comment") as [v|]; [|eexists; reflexivity].
      destruct (Hcomment v eq_refl) as [->|[s ->]]; eexists; reflexivity. }
    destruct Hw as [w ->]. cbn [mbind option_bind insert_rows].
    destruct (existsb _ (reviews db));
      [eexists; eexists; split; [reflexivity | exact Hall]|].
    eexists. eexists. split; [reflexivity|]. cbn [reviews].
    apply Forall_app. split; [exact Hall|]. constructor; [|constructor].
    cbn. exact Hscale.
  - intros Hcomment. unfold Raw.put_review. rewrite Eg. cbn [mbind option_bind].
    destruct g; [eexists; eexists; split; [reflexivity | exact Hall]|].
    destruct (businessCount db businessId <? 1)%nat;
      [eexists; eexists; split; [reflexivity | exact Hall]|].
    destruct (Hpass eq_refl) as (q & Hq & Hscale).
    rewrite Hq. cbn [write number_cell mbind option_bind].
    assert (Hw : exists w, write text_cell (body !! "comment") = Some w).
    { unfold plain_comment in Hcomment.
      destruct (body !! "comment") as [v|]; [|eexists; reflexivity].
      destruct (Hcomment v eq_refl) as [->|[s ->]]; eexists; reflexivity. }
    destruct Hw as [w ->]. cbn [mbind option_bind].
    match goal with |- context [if ?c then Some (Error500, db) else _] =>
      destruct c; [eexists; eexists; split; [reflexivity | exact Hall]|] end.
    cbn [writes_null value_after]. rewrite andb_false_r.
    destruct (update_rows _ _ _ _) as [t'|] eqn:Eup;
      [|eexists; eexists; split; [reflexivity | exact Hall]].
    eexists. eexists. split; [reflexivity|]. cbn [reviews].
    apply update_rows_map in Eup. subst t'.
    apply Forall_map. revert Hall. apply Forall_impl. intros x Hx.
    destruct (String.eqb (r_id x) id && String.eqb (r_businessId x) businessId);
      [|exact Hx].
    cbn. exact Hscale.
  - unfold Reviews.del. destruct (businessCount db businessId <? 1)%nat; [exact Hall|].
    cbn [snd reviews]. unfold delete_rows.
    apply Forall_forall. intros r Hr. apply filter_In in Hr.
    rewrite Forall_forall in Hall. apply Hall, Hr.
Qed.

Lemma reviews_routes_keep_scale_witness :
  number_rating review_of_three
  /\ Forall (fun r => rating_in_scale (r_rating r)) (reviews Seed.store)
  /\ insertable_review review_of_three
  /\ exists r db',
       Raw.post_review sample_uuid 7 "b2" review_of_three Seed.store = Some (r, db')
       /\ Forall (fun r => rating_in_scale (r_rating r)) (reviews db').
Proof.
  assert (Hnum : number_rating review_of_three).
  { intros v Hv. vm_compute in Hv. inversion Hv. eexists. reflexivity. }
  assert (H : Forall (fun r => rating_in_scale (r_rating r)) (reviews Seed.store)).
  { cbn. repeat constructor; cbn; discriminate. }
  assert (Hins : insertable_review review_of_three).
  { split; [vm_compute; reflexivity|].
    intros v Hv. vm_compute in Hv. inversion Hv. right. eexists. reflexivity. }
  split; [exact Hnum|]. split; [exact H|]. split; [exact Hins|].
  exact (proj1 (reviews_routes_keep_scale sample_uuid 7 false "b2" "r21"
                  review_of_three Seed.store Hnum H) Hins).
Defined.

(** A Review that is stored stays on the scale; a rating such as "abc",
    which the guard cannot tell from a number in range and the store keeps
    as text, is not described. *)
Example post_review_of_three :
  exists db',
    Raw.post_review sample_uuid 7 "b2" review_of_three Seed.store = Some (Ok200 tt, db')
    /\ option_map r_rating (last (map Some (reviews db')) None) = Some 3%Q.
Proof. eexists. vm_compute. split; reflexivity. Qed.

Example post_review_of_text :
  Raw.post_review sample_uuid 7 "b2" {[ "rating" := JString "abc" ]} Seed.store = None.
Proof. reflexivity. Qed.

(* ------------------------------------------------------------------ *)
(** ** A child is served under its own business only *)

Lemma first_of_filter {A} (p : A -> bool) (l : list A) (x : A) (rest : list A) :
  filter p l = x :: rest -> In x l /\ p x = true.
Proof.
  intros E. apply filter_In. rewrite E. left. reflexivity.
Qed.

(** X19. GET of a child by id answers a row only if the row has that id and
    belongs to the business in the path; it does not look at the businesses
    table, so it answers 404 under every other business. *)
Theorem get_child_is_scoped (businessId id : string) (db : Store) :
  match get_hour businessId id db with
  | Ok200 h => In h (hours db) /\ h_id h = id /\ h_businessId h = businessId
  | NotFound404 _ =>
      Forall (fun h => ~ (h_id h = id /\ h_businessId h = businessId)) (hours db)
  | _ => False
  end
  /\ match get_location businessId id db with
     | Ok200 l => In l (locations db) /\ l_id l = id /\ l_businessId l = businessId
     | NotFound404 _ =>
         Forall (fun l => ~ (l_id l = id /\ l_businessId l = businessId)) (locations db)
     | _ => False
     end
  /\ match get_service businessId id db with
     | Ok200 s => In s (services db) /\ s_id s = id /\ s_businessId s = businessId
     | NotFound404 _ =>
         Forall (fun s => ~ (s_id s = id /\ s_businessId s = businessId)) (services db)
     | _ => False
     end
  /\ match get_review businessId id db with
     | Ok200 r => In r (reviews db) /\ r_id r = id /\ r_businessId r = businessId
     | NotFound404 _ =>
         Forall (fun r => ~ (r_id r = id /\ r_businessId r = businessId)) (reviews db)
     | _ => False
     end.
Proof.
  assert (Hscoped : forall A (key_id owner : A -> string) (table : list A),
             match filter (fun r => String.eqb (key_id r) id
                                    && String.eqb (owner r) businessId) table with
             | r :: _ => In r table /\ key_id r = id /\ owner r = businessId
             | [] => Forall (fun r => ~ (key_id r = id /\ owner r = businessId)) table
             end).
  { intros A key_id owner table.
    destruct (filter _ table) as [|r rest] eqn:E.
    - apply Forall_forall. intros r Hr [Hid Hb].
      assert (Hin : In r (filter (fun r => String.eqb (key_id r) id
                                           && String.eqb (owner r) businessId) table)).
      { apply filter_In. split; [exact Hr|].
        apply andb_true_iff. split; apply String.eqb_eq; assumption. }
      rewrite E in Hin. destruct Hin.
    - apply first_of_filter in E. destruct E as [Hin Hp].
      apply andb_true_iff in Hp. destruct Hp as [H1 H2].
      apply String.eqb_eq in H1, H2. tauto. }
  unfold get_hour, get_location, get_service, get_review.
  pose proof (Hscoped _ h_id h_businessId (hours db)) as Hh.
  pose proof (Hscoped _ l_id l_businessId (locations db)) as Hl.
  pose proof (Hscoped _ s_id s_businessId (services db)) as Hs.
  pose proof (Hscoped _ r_id r_businessId (reviews db)) as Hr.
  repeat split.
  - destruct (filter _ (hours db)); exact Hh.
  - destruct (filter _ (locations db)); exact Hl.
  - destruct (filter _ (services db)); exact Hs.
  - destruct (filter _ (reviews db)); exact Hr.
Qed.

Example seed_hour_of_another_business :
  status (get_hour "b2" "h11" Seed.store) = 404
  /\ status (get_hour "b1" "h11" Seed.store) = 200
  /\ status (get_hour "nobody" "h11" Seed.store) = 404.
Proof. vm_compute. repeat split; reflexivity. Qed.

(* ------------------------------------------------------------------ *)
(** ** Delete of a child *)

(** X20. After DELETE of a child, whatever it answered, GET of that child
    under that business is answered 404, as long as the business exists. *)
Theorem delete_child_then_not_found (businessId id : string) (db : Store) :
  (1 <= businessCount db businessId)%nat ->
  fst (Hours.del businessId id db) = Ok200 tt
  /\ status (get_hour businessId id (snd (Hours.del businessId id db))) = 404
  /\ fst (Locations.del businessId id db) = Ok200 tt
  /\ status (get_location businessId id (snd (Locations.del businessId id db))) = 404
  /\ fst (Services.del businessId id db) = Ok200 tt
  /\ status (get_service businessId id (snd (Services.del businessId id db))) = 404
  /\ fst (Reviews.del businessId id db) = Ok200 tt
  /\ status (get_review businessId id (snd (Reviews.del businessId id db))) = 404.
Proof.
  intros Hparent.
  assert (Hcount : (businessCount db businessId <? 1)%nat = false)
    by (apply Nat.ltb_ge; exact Hparent).
  unfold Hours.del, Locations.del, Services.del, Reviews.del,
    get_hour, get_location, get_service, get_review.
  rewrite Hcount. cbn [fst snd hours locations services reviews].
  rewrite !filter_delete_rows_same. repeat split; reflexivity.
Qed.

Lemma delete_child_then_not_found_witness :
  (1 <= businessCount Seed.store "b2")%nat
  /\ status (get_hour "b2" "h26" (snd (Hours.del "b2" "h26" Seed.store))) = 404.
Proof.
  assert (H : (1 <= businessCount Seed.store "b2")%nat) by (vm_compute; lia).
  split; [exact H|].
  pose proof (delete_child_then_not_found "b2" "h26" Seed.store H) as (_ & Hget & _).
  exact Hget.
Defined.

(* ------------------------------------------------------------------ *)
(** ** Search: no business twice *)

Lemma filter_keeps_distinct_keys {A B} (key : A -> B) (keep : A -> bool)
    (rows : list A) :
  NoDup (map key rows) -> NoDup (map key (filter keep rows)).
Proof.
  intros Hnd. induction rows as [|x rows IH]; [constructor|].
  cbn [map] in Hnd. apply NoDup_cons_iff in Hnd. destruct Hnd as [Hnot Hnd].
  cbn [filter]. destruct (keep x); cbn [map]; [|apply IH; exact Hnd].
  apply NoDup_cons_iff. split; [|apply IH; exact Hnd].
  intros Hin. apply Hnot. apply in_map_iff in Hin. destruct Hin as [y [E Hy]].
  apply in_map_iff. exists y. split; [exact E|]. apply filter_In in Hy. apply Hy.
Qed.

Lemma firstn_keeps_distinct_keys {A B} (key : A -> B) (n : nat) (rows : list A) :
  NoDup (map key rows) -> NoDup (map key (firstn n rows)).
Proof.
  revert rows. induction n as [|n IH]; intros rows Hnd; [constructor|].
  destruct rows as [|x rows]; [constructor|].
  cbn [map] in Hnd. apply NoDup_cons_iff in Hnd. destruct Hnd as [Hnot Hnd].
  cbn [firstn map]. apply NoDup_cons_iff. split; [|apply IH; exact Hnd].
  intros Hin. apply Hnot. apply in_map_iff in Hin. destruct Hin as [y [E Hy]].
  apply in_map_iff. exists y. split; [exact E|]. apply (firstn_In n). exact Hy.
Qed.

(** X21. Where business ids are unique, no business appears twice in the
    answer of a search. *)
Theorem search_answer_has_no_duplicates (search : Search) (db : Store) :
  NoDup (map b_id (businesses db)) ->
  NoDup (map (fun v => b_id (v_business v)) (returned (post_search search db))).
Proof.
  intros Hnd.
  destruct (Z.eq_dec (status (response (post_search search db))) 400) as [E|E].
  - rewrite (returned_rejected _ _ E). constructor.
  - rewrite (returned_accepted _ _ E), map_map. cbn [hydrate v_business].
    unfold search_query.
    apply (firstn_keeps_distinct_keys (fun r => b_id (row r))).
    eapply Permutation_NoDup.
    + apply Permutation_map. apply orderBy_perm.
    + apply filter_keeps_distinct_keys.
      rewrite <- (map_map row b_id), select_businesses_rows. exact Hnd.
Qed.

Lemma search_answer_has_no_duplicates_witness :
  NoDup (map b_id (businesses Seed.store))
  /\ NoDup (map (fun v => b_id (v_business v))
              (returned (post_search no_filters Seed.store))).
Proof.
  assert (H : NoDup (map b_id (businesses Seed.store))).
  { cbn. repeat constructor; cbn; intuition discriminate. }
  split; [exact H|].
  apply (search_answer_has_no_duplicates no_filters Seed.store H).
Defined.

(* ------------------------------------------------------------------ *)
(** ** Create of a child that is already there *)

Lemma insert_items_conflict {I A} (to_row : I -> option A) (conflict : A -> A -> bool)
    (i : I) (r x : A) (table : list A) :
  to_row i = Some r -> In x table -> conflict r x = true ->
  insert_items to_row conflict [i] table = None.
Proof.
  intros Hrow Hx Hc. unfold insert_items. cbn. rewrite Hrow. cbn.
  assert (E : existsb (conflict r) table = true)
    by (apply existsb_exists; exists x; split; assumption).
  rewrite E. reflexivity.
Qed.

(** X22. The child routes do not look for an existing row before they
    insert: a POST of an Hour for a day the business already has, or of a
    Location or Service whose name the business already has, is answered 500
    and stores nothing. *)
Theorem post_child_twice_fails (uuid : nat -> string) (now : Timestamp)
    (businessId : string) (db : Store) :
  (1 <= businessCount db businessId)%nat ->
  (forall hour h,
      status (fst (post_hour uuid now businessId hour db)) <> 400 ->
      In h (hours db) -> h_businessId h = businessId ->
      hi_dayOfWeek hour = Some (h_dayOfWeek h) ->
      post_hour uuid now businessId hour db = (Error500, db))
  /\ (forall location l,
        In l (locations db) -> l_businessId l = businessId ->
        l_name l <> "" -> li_name location = Some (l_name l) ->
        post_location uuid now businessId location db = (Error500, db))
  /\ (forall service s,
        In s (services db) -> s_businessId s = businessId ->
        s_name s <> "" -> si_name service = Some (s_name s) ->
        post_service uuid now businessId service db = (Error500, db)).
Proof.
  intros Hparent.
  assert (Hcount : (businessCount db businessId <? 1)%nat = false)
    by (apply Nat.ltb_ge; exact Hparent).
  split; [|split].
  - intros hour h Hvalid Hin Hb Hday. unfold post_hour in *.
    destruct (missing_or_outside (hi_dayOfWeek hour) 0 6) eqn:E1;
      [cbn in Hvalid; congruence|].
    destruct (missing_or_outside (hi_open hour) 0 23) eqn:E2;
      [cbn in Hvalid; congruence|].
    destruct (missing_or_outside (hi_close hour) 0 23) eqn:E3;
      [cbn in Hvalid; congruence|].
    destruct (number (hi_open hour) >=? number (hi_close hour)) eqn:E4;
      [cbn in Hvalid; congruence|].
    destruct (hour_guards hour E1 E2 E3 E4) as (d & o & c & Hd & Ho & Hc & _).
    cbv zeta. rewrite Hcount.
    rewrite (insert_items_conflict (hour_row now) hour_conflict _
               (mkHour (uuid 0%nat) businessId d o c now now) h); try reflexivity.
    + unfold hour_row, assign_ids, HourItem_ids. cbn. rewrite Hd, Ho, Hc. reflexivity.
    + exact Hin.
    + unfold hour_conflict. cbn. rewrite Hb, String.eqb_refl.
      assert (d = h_dayOfWeek h) by congruence. subst d.
      rewrite Z.eqb_refl. apply orb_true_r.
  - intros location l Hin Hb Hne Hname. unfold post_location.
    rewrite Hname. cbn [truthy].
    destruct (String.eqb_spec (l_name l) ""); [contradiction|]. cbn [negb].
    cbv zeta. rewrite Hcount.
    rewrite (insert_items_conflict (location_row now) location_conflict _
               (mkLocation (uuid 0%nat) businessId (l_name l) now now) l);
      try reflexivity.
    + unfold location_row, assign_ids, LocationItem_ids. cbn. rewrite Hname. reflexivity.
    + exact Hin.
    + unfold location_conflict. cbn. rewrite Hb, !String.eqb_refl. apply orb_true_r.
  - intros service s Hin Hb Hne Hname. unfold post_service.
    rewrite Hname. cbn [truthy].
    destruct (String.eqb_spec (s_name s) ""); [contradiction|]. cbn [negb].
    cbv zeta. rewrite Hcount.
    rewrite (insert_items_conflict (service_row now) service_conflict _
               (mkService (uuid 0%nat) businessId (s_name s) now now) s);
      try reflexivity.
    + unfold service_row, assign_ids, ServiceItem_ids. cbn. rewrite Hname. reflexivity.
    + exact Hin.
    + unfold service_conflict. cbn. rewrite Hb, !String.eqb_refl. apply orb_true_r.
Qed.

Lemma post_child_twice_fails_witness :
  (1 <= businessCount Seed.store "b2")%nat
  /\ post_hour sample_uuid 7 "b2" (mkHourItem None None (Some 6) (Some 13) (Some 17))
       Seed.store
     = (Error500, Seed.store).
Proof.
  assert (H : (1 <= businessCount Seed.store "b2")%nat) by (vm_compute; lia).
  split; [exact H|].
  apply (proj1 (post_child_twice_fails sample_uuid 7 "b2" Seed.store H)
           (mkHourItem None None (Some 6) (Some 13) (Some 17))
           (Seed.hour "h26" "b2" 6 9 12)).
  - vm_compute. discriminate.
  - cbn. do 10 right. left. reflexivity.
  - reflexivity.
  - reflexivity.
Defined.

(* ------------------------------------------------------------------ *)
(** ** Update of a review *)

(** X23. When PUT of a review answers 200 for a review that GET finds, GET
    afterwards answers that review with the rating of the body; its comment
    is the one of the body, is removed when the body's comment is null, and
    is left as it was when the body has no comment.  A null comment is
    answered 500 where the store does not take the DEFAULT keyword. *)
Theorem put_review_then_get (default_keyword : bool) (businessId id : string)
    (review : ReviewItem) (db : Store) (r : Review) :
  get_review businessId id db = Ok200 r ->
  (fst (Reviews.put default_keyword businessId id review db) = Ok200 tt ->
   exists rating,
     ri_rating review = Some rating
     /\ get_review businessId id
          (snd (Reviews.put default_keyword businessId id review db))
        = Ok200 (mkReview (r_id r) (r_businessId r) rating
                   match ri_comment review with
                   | Undefined => r_comment r
                   | Null => None
                   | Value c => Some c
                   end
                   (r_created_at r) (r_updated_at r)))
  /\ (ri_comment review = Null -> default_keyword = false ->
      status (fst (Reviews.put default_keyword businessId id review db)) <> 200
      /\ snd (Reviews.put default_keyword businessId id review db) = db).
Proof.
  intros Hget. split.
  - unfold Reviews.put.
    destruct (Reviews.rating_invalid (ri_rating review)) eqn:Ev; [discriminate|].
    destruct (rating_guard _ Ev) as [x [Hx _]].
    destruct (businessCount db businessId <? 1)%nat; [discriminate|].
    match goal with |- context [if ?c then (Error500, db) else _] =>
      destruct c; [discriminate|] end.
    destruct (update_rows _ _ _ _) as [t'|] eqn:Eup; [|discriminate].
    intros _. cbn [snd]. apply update_rows_map in Eup. subst t'.
    exists x. split; [exact Hx|].
    unfold get_review in *. cbn [reviews].
    rewrite (filter_update_rows
               (fun y => String.eqb (r_id y) id && String.eqb (r_businessId y) businessId))
      by reflexivity.
    destruct (filter _ (reviews db)) as [|r0 rest]; [discriminate|].
    inversion Hget; subst r0. cbn [map]. rewrite Hx. reflexivity.
  - intros Hnull Hkw. unfold Reviews.put. rewrite Hnull, Hkw. cbn [negb].
    destruct (Reviews.rating_invalid (ri_rating review)); [split; [discriminate|reflexivity]|].
    destruct (businessCount db businessId <? 1)%nat; split; solve [discriminate | reflexivity].
Qed.

Lemma put_review_then_get_witness :
  get_review "b2" "r22" Seed.store
  = Ok200 (Seed.review "r22" "b2" 2
             (Some "Broke our dishes because they didn't pack right"))
  /\ get_review "b2" "r22"
       (snd (Reviews.put false "b2" "r22" (mkReviewItem None None (Some 3%Q) Undefined)
               Seed.store))
     = Ok200 (mkReview "r22" "b2" 3
                (Some "Broke our dishes because they didn't pack right") 0 0).
Proof.
  split; [reflexivity|].
  destruct (proj1 (put_review_then_get false "b2" "r22"
                     (mkReviewItem None None (Some 3%Q) Undefined) Seed.store
                     (Seed.review "r22" "b2" 2
                        (Some "Broke our dishes because they didn't pack right"))
                     eq_refl) eq_refl) as [rating [Hr Hget]].
  cbn in Hr. inversion Hr; subst rating. exact Hget.
Defined.
